(** * Document-context persistence of the MCP client

    A shallow embedding of the context storage service
    ([LocalStorageService.ts], in its truncating and its chunking revision),
    of the context client ([MCPContextClient.ts], [MCPClient]), of the change
    notification ([fileWatcher.ts]) and of the client factory
    ([getMCPClient]), with the properties the specification states about
    them.

    JavaScript strings are modelled by [string] (one character per code
    unit), [content.length] by [String.length].  Effects are explicit: every
    method is a function in a state-and-exception monad over the part of the
    world it can touch (the storage backend, the console, the window). *)

From stdpp Require Import base option list strings pretty gmap.
From Stdlib Require Import Lia.



(** ** JavaScript values used by the services *)

(** Thrown values.  [DOMException name] is what a [Storage] throws, the other
    three are the errors the modelled code raises or meets. *)
Inductive exn : Type :=
  | DOMException (name : string)
  | Error (message : string)
  | SyntaxError
  | TypeError.

(** [error instanceof DOMException && error.name === 'QuotaExceededError'] *)
Definition isQuotaExceeded (error : exn) : bool :=
  match error with
  | DOMException name => String.eqb name "QuotaExceededError"
  | _ => false
  end.

Definition QuotaExceededError : exn := DOMException "QuotaExceededError".

(** Truthiness of a string: only the empty string is falsy. *)
Definition truthy (s : string) : bool :=
  match s with
  | EmptyString => false
  | String _ _ => true
  end.

(** Truthiness of [string | null]. *)
Definition truthy_opt (o : option string) : bool :=
  match o with
  | Some s => truthy s
  | None => false
  end.

(** [a || b] on strings. *)
Definition or_else (a : option string) (b : string) : string :=
  match a with
  | Some s => if truthy s then s else b
  | None => b
  end.

(** [s.substring(0, n)] *)
Definition substring0 (n : nat) (s : string) : string := String.substring 0 n s.

(** [s.includes(pat)] *)
Definition includes (pat s : string) : bool :=
  match String.index 0 pat s with
  | Some _ => true
  | None => false
  end.

(** [s.startsWith(pat)] *)
Definition startsWith (pat s : string) : bool := String.prefix pat s.

(** [s.replace(pat, '')] with a string pattern: the first occurrence only. *)
Definition replace_first_empty (pat s : string) : string :=
  match String.index 0 pat s with
  | Some i =>
      String.substring 0 i s +:+
      String.substring (i + String.length pat) (String.length s - (i + String.length pat)) s
  | None => s
  end.

(** ** Data model *)

(** Modelled from the spec: the declarations of [DocumentContextEntry] and
    [MCPContext] ([types.ts]) are missing; the fields are those of section 3
    of the specification and those the code reads. *)
Record DocumentContextEntry : Type := mkDoc {
  documentId : string;
  documentName : string;
  documentType : string;
  content : string
}.

Inductive HistoryEntry : Type :=
  | UserMessage (message : string)
  | AgentResponse (response : string).

Record MCPContext : Type := mkContext {
  conversationId : string;
  documentContext : option (list DocumentContextEntry);
  messageHistory : list HistoryEntry;
  modelPreference : option string;
  metisActive : bool
}.

(** [{ ...doc, content: c }] *)
Definition with_content (doc : DocumentContextEntry) (c : string) : DocumentContextEntry :=
  mkDoc (documentId doc) (documentName doc) (documentType doc) c.

(** [{ ...context, documentContext: d }] *)
Definition with_documentContext (context : MCPContext)
    (d : option (list DocumentContextEntry)) : MCPContext :=
  mkContext (conversationId context) d (messageHistory context)
            (modelPreference context) (metisActive context).

Global Instance DocumentContextEntry_eq_dec : EqDecision DocumentContextEntry.
Proof. solve_decision. Defined.
Global Instance HistoryEntry_eq_dec : EqDecision HistoryEntry.
Proof. solve_decision. Defined.
Global Instance MCPContext_eq_dec : EqDecision MCPContext.
Proof. solve_decision. Defined.
Global Instance exn_eq_dec : EqDecision exn.
Proof. solve_decision. Defined.

(** ** The collaborators: serialization and the storage backend *)

(** [JSON.stringify] and [JSON.parse] at type [MCPContext]; [parse] is [None]
    where [JSON.parse] throws. *)
Class Codec : Type := {
  stringify : MCPContext → string;
  parse : string → option MCPContext
}.

(** The facts about JSON the proofs use: parsing undoes serialization, and
    the text of an object is not empty. *)
Class CodecLaws (codec : Codec) : Prop := {
  parse_stringify : ∀ c : MCPContext, parse (stringify c) = Some c;
  stringify_truthy : ∀ c : MCPContext, truthy (stringify c) = true
}.

(** The DOM [Storage] interface.  The service accepts any object of this
    shape ([options.storage]), so the state of the backend is abstract;
    [setItem] and [removeItem] either throw or give the next state. *)
Class Storage (St : Type) : Type := {
  getItem : St → string → option string;
  setItem : St → string → string → exn + St;
  removeItem : St → string → exn + St
}.

(** A backend that behaves as a key-value store. *)
Class StorageLaws {St : Type} (backend : Storage St) : Prop := {
  getItem_setItem_eq : ∀ s s' k v, setItem s k v = inr s' → getItem s' k = Some v;
  getItem_setItem_ne : ∀ s s' k k' v,
    setItem s k v = inr s' → k ≠ k' → getItem s' k' = getItem s k';
  getItem_removeItem_eq : ∀ s s' k, removeItem s k = inr s' → getItem s' k = None;
  getItem_removeItem_ne : ∀ s s' k k',
    removeItem s k = inr s' → k ≠ k' → getItem s' k' = getItem s k'
}.

(** ** State and exceptions *)

Inductive Res (A : Type) : Type :=
  | Ok (a : A)
  | Throw (e : exn).
Arguments Ok {A} a.
Arguments Throw {A} e.

(** A computation over a world [W]: it returns or throws, and in both cases
    leaves a world behind (a [catch] does not undo effects). *)
Definition M (W A : Type) : Type := W → Res A * W.

Definition ret {W A} (a : A) : M W A := λ w, (Ok a, w).

Definition bind {W A B} (m : M W A) (k : A → M W B) : M W B :=
  λ w, match m w with
       | (Ok a, w') => k a w'
       | (Throw e, w') => (Throw e, w')
       end.

Definition throw {W A} (e : exn) : M W A := λ w, (Throw e, w).

(** [try { m } catch (error) { handler error }] *)
Definition try_catch {W A} (m : M W A) (handler : exn → M W A) : M W A :=
  λ w, match m w with
       | (Ok a, w') => (Ok a, w')
       | (Throw e, w') => handler e w'
       end.

(** [try { m } finally { cleanup }] *)
Definition try_finally {W A} (m : M W A) (cleanup : M W unit) : M W A :=
  λ w, match m w with
       | (r, w') =>
           match cleanup w' with
           | (Ok _, w'') => (r, w'')
           | (Throw e, w'') => (Throw e, w'')
           end
       end.

Definition get_world {W} : M W W := λ w, (Ok w, w).
Definition modify {W} (f : W → W) : M W unit := λ w, (Ok tt, f w).

Declare Scope js_scope.
Delimit Scope js_scope with js.
Notation "'let*' x ':=' m 'in' k" := (bind m (λ x, k))
  (at level 10, x name, m at level 100, k at level 200) : js_scope.
Notation "m >> k" := (bind m (λ _, k))
  (at level 100, k at level 200, right associativity) : js_scope.
Local Open Scope js_scope.

(** [for (const x of l) { f x }] and [l.forEach(f)] *)
Fixpoint forEach {W A} (f : A → M W unit) (l : list A) : M W unit :=
  match l with
  | [] => ret tt
  | x :: l' => f x >> forEach f l'
  end.

(** [l.map(f)] for an [f] with effects, left to right. *)
Fixpoint mapM {W A B} (f : A → M W B) (l : list A) : M W (list B) :=
  match l with
  | [] => ret []
  | x :: l' => let* y := f x in let* ys := mapM f l' in ret (y :: ys)
  end.

(** ** The console *)

Inductive level : Type := LOG | WARN | ERROR.

Global Instance level_eq_dec : EqDecision level.
Proof. solve_decision. Defined.

(** A console line: the level and the message text (object arguments of the
    call are left out). *)
Definition line : Type := level * string.

(** What a storage service can touch: the backend and the console. *)
Record World (St : Type) : Type := mkWorld {
  store : St;
  console : list line
}.
Arguments mkWorld {St} store console.
Arguments store {St} w.
Arguments console {St} w.

Section StorageWorld.
Context {St : Type} {backend : Storage St}.

Definition console_write (l : level) (msg : string) : M (World St) unit :=
  modify (λ w, mkWorld (store w) (console w ++ [(l, msg)])).

(** [this.storage.getItem(key)] *)
Definition storage_getItem (key : string) : M (World St) (option string) :=
  λ w, (Ok (getItem (store w) key), w).

(** [this.storage.setItem(key, value)] *)
Definition storage_setItem (key value : string) : M (World St) unit :=
  λ w, match setItem (store w) key value with
       | inr s' => (Ok tt, mkWorld s' (console w))
       | inl e => (Throw e, w)
       end.

(** [this.storage.removeItem(key)] *)
Definition storage_removeItem (key : string) : M (World St) unit :=
  λ w, match removeItem (store w) key with
       | inr s' => (Ok tt, mkWorld s' (console w))
       | inl e => (Throw e, w)
       end.
End StorageWorld.

(** [JSON.parse(text)] *)
Definition JSON_parse {W} {codec : Codec} (text : string) : M W MCPContext :=
  match parse text with
  | Some c => ret c
  | None => throw SyntaxError
  end.

(** [options] of the storage services, with the fields the constructors
    read.  [opt_storage] tells whether a [Storage] object was passed in. *)
Record StorageOptions : Type := mkStorageOptions {
  opt_storage : bool;
  opt_keyPrefix : option string;
  opt_maxDocumentSize : option nat
}.

(** ** [LocalStorageService], truncating revision *)

Module Truncating.

Record LocalStorageService : Type := mkService {
  storage : bool;              (* [this.storage] is not null *)
  keyPrefix : string;
  maxDocumentSize : nat
}.

(** [constructor(options)]; [localStorage_defined] is
    [typeof localStorage !== 'undefined'].  The warning the constructor logs
    when there is no storage is left out. *)
Definition new (options : StorageOptions) (localStorage_defined : bool)
    : LocalStorageService :=
  mkService
    (opt_storage options || localStorage_defined)
    (or_else (opt_keyPrefix options) "mcp-context-")
    (match opt_maxDocumentSize options with
     | Some (S n) => S n
     | _ => 1024 * 1024
     end).

Definition truncation_marker : string :=
  String (Ascii.ascii_of_nat 10) "[CONTENT TRUNCATED DUE TO SIZE LIMITATIONS]".

Definition no_content_placeholder : string := "[No content available]".

(** The content written by the first degradation step. *)
Definition removed_placeholder (doc : DocumentContextEntry) : string :=
  "[Content removed due to storage limitations. Document: " +:+ documentName doc +:+ "]".

Section Methods.
Context {St : Type} {backend : Storage St} {codec : Codec}.
Variable this : LocalStorageService.

Local Abbreviation M := (M (World St)).

(** [`${this.keyPrefix}${conversationId}`] *)
Definition storage_key (conversationId : string) : string :=
  keyPrefix this +:+ conversationId.

(** The entry [prepareDocument] returns, without its console output. *)
Definition prepared (doc : DocumentContextEntry) : DocumentContextEntry :=
  if negb (truthy (content doc)) then with_content doc no_content_placeholder
  else if Nat.ltb (maxDocumentSize this) (String.length (content doc)) then
    with_content doc (substring0 (maxDocumentSize this) (content doc) +:+ truncation_marker)
  else doc.

(** The context [prepareContextForStorage] returns when the copy through
    JSON is faithful. *)
Definition preparedContext (context : MCPContext) : MCPContext :=
  match documentContext context with
  | Some docs => with_documentContext context (Some (map prepared docs))
  | None => context
  end.

(** The callback of [documentContext.map] in [prepareContextForStorage]. *)
Definition prepareDocument (doc : DocumentContextEntry) : M DocumentContextEntry :=
  if negb (truthy (content doc)) then
    console_write WARN
      ("Document " +:+ documentName doc +:+ " has no content, adding placeholder") >>
    ret (with_content doc no_content_placeholder)
  else if Nat.ltb (maxDocumentSize this) (String.length (content doc)) then
    console_write WARN
      ("Document " +:+ documentName doc +:+ " exceeds max size ("
       +:+ pretty (String.length (content doc)) +:+ " > "
       +:+ pretty (maxDocumentSize this) +:+ "), truncating") >>
    ret (with_content doc
           (substring0 (maxDocumentSize this) (content doc) +:+ truncation_marker))
  else ret doc.

Definition prepareContextForStorage (context : MCPContext) : M MCPContext :=
  let* contextCopy := JSON_parse (stringify context) in
  match documentContext contextCopy with
  | Some docs =>
      let* docs' := mapM prepareDocument docs in
      ret (with_documentContext contextCopy (Some docs'))
  | None => ret contextCopy
  end.

(** The context the first write of [saveContext] serializes. *)
Definition payload (context : MCPContext) : MCPContext :=
  match documentContext context with
  | Some (_ :: _) => preparedContext context
  | _ => context
  end.

(** The test [verifyStoredContext] makes on one saved document: the original
    with the same [documentId], if there is one, has a content of another
    length. *)
Definition length_mismatch (originalDocs : list DocumentContextEntry)
    (doc : DocumentContextEntry) : bool :=
  match find (λ d, String.eqb (documentId d) (documentId doc)) originalDocs with
  | Some originalDoc =>
      negb (Nat.eqb (String.length (content originalDoc)) (String.length (content doc)))
  | None => false
  end.

Definition content_loss (originalDocs savedDocs : list DocumentContextEntry) : bool :=
  existsb (length_mismatch originalDocs) savedDocs.

Definition count_mismatch_message (originalDocCount savedDocCount : nat) : string :=
  "Document count mismatch after saving. Original: "
  +:+ pretty originalDocCount +:+ ", Saved: " +:+ pretty savedDocCount.

(** The callback of [savedContext.documentContext.forEach] in
    [verifyStoredContext]; the flag [hasContentLoss] is the result. *)
Fixpoint checkContentLengths (originalDocs savedDocs : list DocumentContextEntry)
    (hasContentLoss : bool) : M bool :=
  match savedDocs with
  | [] => ret hasContentLoss
  | doc :: rest =>
      match find (λ d, String.eqb (documentId d) (documentId doc)) originalDocs with
      | Some originalDoc =>
          if negb (Nat.eqb (String.length (content originalDoc)) (String.length (content doc))) then
            console_write ERROR
              ("Content length mismatch for document " +:+ documentName doc
               +:+ ". Original: " +:+ pretty (String.length (content originalDoc))
               +:+ ", Saved: " +:+ pretty (String.length (content doc))) >>
            checkContentLengths originalDocs rest true
          else checkContentLengths originalDocs rest hasContentLoss
      | None => checkContentLengths originalDocs rest hasContentLoss
      end
  end.

(** The fault [verifyStoredContext] reports (the warning sign that opens
    the message is left out). *)
Definition content_loss_message : string :=
  "Document content loss detected during save operation".

Definition verifyStoredContext (key : string) (originalContext : MCPContext) : M unit :=
  let* savedItem := storage_getItem key in
  if negb (truthy_opt savedItem) then
    throw (Error ("Context was not saved properly: storage key " +:+ key +:+ " not found"))
  else
    let* savedContext := JSON_parse (default "" savedItem) in
    match documentContext savedContext, documentContext originalContext with
    | Some savedDocs, Some originalDocs =>
        let originalDocCount := length originalDocs in
        let savedDocCount := length savedDocs in
        if negb (Nat.eqb originalDocCount savedDocCount) then
          console_write ERROR (count_mismatch_message originalDocCount savedDocCount)
        else
          console_write LOG
            ("Successfully saved context with " +:+ pretty savedDocCount +:+ " documents") >>
          let* hasContentLoss := checkContentLengths originalDocs savedDocs false in
          if hasContentLoss then console_write ERROR content_loss_message
          else ret tt
    | _, _ => ret tt
    end.

(** [{ ...context }] with every document's content replaced. *)
Definition minimalContext (context : MCPContext) : MCPContext :=
  match documentContext context with
  | Some docs =>
      with_documentContext context
        (Some (map (λ doc, with_content doc (removed_placeholder doc)) docs))
  | None => context
  end.

(** [{ ...context, documentContext: [] }] *)
Definition bareContext (context : MCPContext) : MCPContext :=
  with_documentContext context (Some []).

Definition handleStorageError (conversationId : string) (context : MCPContext)
    (error : exn) : M unit :=
  if isQuotaExceeded error then
    console_write WARN
      "Storage quota exceeded. Attempting to save with reduced document content..." >>
    try_catch
      (storage_setItem (storage_key conversationId) (stringify (minimalContext context)) >>
       console_write LOG "Saved context with reduced document content")
      (λ fallbackError,
         console_write ERROR "Failed to save even with reduced document content:" >>
         try_catch
           (storage_setItem (storage_key conversationId) (stringify (bareContext context)) >>
            console_write LOG "Saved context without any document content")
           (λ lastError,
              console_write ERROR "All attempts to save context failed:"))
  else ret tt.

Definition saveContext (conversationId : string) (context : MCPContext) : M unit :=
  if negb (storage this) then
    console_write ERROR "Cannot save context: Storage not available"
  else
    try_catch
      (let key := storage_key conversationId in
       match documentContext context with
       | Some (_ :: _) =>
           let* contextForStorage := prepareContextForStorage context in
           match documentContext contextForStorage with
           | None => throw TypeError
           | Some _ =>
               console_write LOG "Document sizes before storage:" >>
               storage_setItem key (stringify contextForStorage) >>
               verifyStoredContext key contextForStorage
           end
       | _ =>
           storage_setItem key (stringify context) >>
           console_write LOG
             ("Saved context without documents for conversation " +:+ conversationId)
       end)
      (λ error,
         console_write ERROR "Error saving context to storage:" >>
         handleStorageError conversationId context error).

(** The callback of [parsedContext.documentContext.forEach] in
    [loadContext]. *)
Definition reportDocument (i : nat) (doc : DocumentContextEntry) : M unit :=
  console_write LOG
    ("Document " +:+ pretty (i + 1) +:+ ": " +:+ documentName doc
     +:+ ", Content length: " +:+ pretty (String.length (content doc))) >>
  if truthy (content doc) && includes "[CONTENT TRUNCATED DUE TO SIZE LIMITATIONS]" (content doc)
  then console_write WARN
         ("Document " +:+ documentName doc
          +:+ " was previously truncated due to size limitations")
  else ret tt.

Fixpoint reportDocuments (i : nat) (docs : list DocumentContextEntry) : M unit :=
  match docs with
  | [] => ret tt
  | doc :: rest => reportDocument i doc >> reportDocuments (S i) rest
  end.

(** [loadContext(conversationId)]; the warning sign that opens the warning
    on documents with an empty content is left out. *)
Definition loadContext (conversationId : string) : M (option MCPContext) :=
  if negb (storage this) then
    console_write ERROR "Cannot load context: Storage not available" >>
    ret None
  else
    try_catch
      (let key := storage_key conversationId in
       let* storedContext := storage_getItem key in
       if negb (truthy_opt storedContext) then
         console_write LOG
           ("No stored context found for conversation " +:+ conversationId) >>
         ret None
       else
         let* parsedContext := JSON_parse (default "" storedContext) in
         match documentContext parsedContext with
         | Some ((_ :: _) as docs) =>
             console_write LOG
               ("Loaded context with " +:+ pretty (length docs)
                +:+ " documents for " +:+ conversationId) >>
             let emptyDocs := filter (λ doc, truthy (content doc) = false) docs in
             (if Nat.ltb 0 (length emptyDocs) then
                console_write WARN
                  (pretty (length emptyDocs)
                   +:+ " documents have empty content after loading:")
              else ret tt) >>
             reportDocuments 0 docs >>
             ret (Some parsedContext)
         | _ =>
             console_write LOG
               ("Loaded context for " +:+ conversationId +:+ " without document context") >>
             ret (Some parsedContext)
         end)
      (λ error,
         console_write ERROR "Error loading context from storage:" >>
         ret None).

Definition removeContext (conversationId : string) : M bool :=
  if negb (storage this) then
    console_write ERROR "Cannot remove context: Storage not available" >>
    ret false
  else
    try_catch
      (let key := storage_key conversationId in
       storage_removeItem key >>
       let* item := storage_getItem key in
       let itemExists := bool_decide (item ≠ None) in
       if itemExists then
         console_write WARN
           ("Failed to remove context for " +:+ conversationId +:+ " from storage") >>
         ret false
       else
         console_write LOG
           ("Successfully removed context for " +:+ conversationId +:+ " from storage") >>
         ret true)
      (λ error,
         console_write ERROR "Error removing context from storage:" >>
         ret false).
End Methods.

End Truncating.

(** ** [LocalStorageService], chunking revision *)

Module Chunking.

Record LocalStorageService : Type := mkService {
  storage : bool;              (* [this.storage] is not null *)
  keyPrefix : string;
  maxDocumentSize : nat
}.

(** [constructor(options)]; [window_defined] is
    [typeof window !== 'undefined']. *)
Definition new (options : StorageOptions) (window_defined : bool)
    : LocalStorageService :=
  mkService
    (opt_storage options || window_defined)
    (or_else (opt_keyPrefix options) "mcp_context_")
    (match opt_maxDocumentSize options with
     | Some (S n) => S n
     | _ => 1024 * 1024
     end).

Definition doc_ref : string := "__DOC_REF__".

Section Methods.
Context {St : Type} {backend : Storage St} {codec : Codec}.
Variable this : LocalStorageService.

Local Abbreviation M := (M (World St)).

(** [`${this.keyPrefix}${conversationId}`] *)
Definition storage_key (conversationId : string) : string :=
  keyPrefix this +:+ conversationId.

(** [`${this.keyPrefix}${conversationId}_doc_${doc.documentId}`] *)
Definition document_key (conversationId : string) (doc : DocumentContextEntry) : string :=
  keyPrefix this +:+ conversationId +:+ "_doc_" +:+ documentId doc.

(** [`${this.keyPrefix}${conversationId}_minimal`] *)
Definition minimal_key (conversationId : string) : string :=
  keyPrefix this +:+ conversationId +:+ "_minimal".

(** [doc.content.length > this.maxDocumentSize / 2], a comparison of an
    integer with a half-integer. *)
Definition is_large (doc : DocumentContextEntry) : bool :=
  truthy (content doc) && Nat.ltb (maxDocumentSize this) (2 * String.length (content doc)).

(** The body of the [for] loop of [saveContext]: the copy's entry is
    updated in place, here the updated entry is the result. *)
Definition storeDocument (conversationId : string) (doc : DocumentContextEntry)
    : M DocumentContextEntry :=
  if is_large doc then
    let docKey := document_key conversationId doc in
    storage_setItem docKey (content doc) >>
    console_write LOG
      ("Document " +:+ documentName doc +:+ " stored separately with key " +:+ docKey) >>
    ret (with_content doc (doc_ref +:+ docKey))
  else ret doc.

(** The entry [storeDocument] returns. *)
Definition stored (conversationId : string) (doc : DocumentContextEntry)
    : DocumentContextEntry :=
  if is_large doc then with_content doc (doc_ref +:+ document_key conversationId doc)
  else doc.

(** [{ ...context }] with every document's content replaced by a note of
    its size. *)
Definition minimalContext (context : MCPContext) : MCPContext :=
  match documentContext context with
  | Some docs =>
      with_documentContext context
        (Some (map (λ doc, with_content doc
                  ("Content too large for storage ("
                   +:+ pretty (String.length (content doc)) +:+ " bytes)")) docs))
  | None => context
  end.

(** The [try] block of [saveContext]. *)
Definition saveContext_try (conversationId : string) (context : MCPContext) : M unit :=
  let key := storage_key conversationId in
  match documentContext context with
  | Some (_ :: _) =>
      let* contextCopy := JSON_parse (stringify context) in
      match documentContext contextCopy with
      | None => throw TypeError
      | Some docs =>
          let* docs' := mapM (storeDocument conversationId) docs in
          storage_setItem key (stringify (with_documentContext contextCopy (Some docs'))) >>
          console_write LOG
            ("Context saved for conversation " +:+ conversationId +:+ " with key " +:+ key)
      end
  | _ =>
      storage_setItem key (stringify context) >>
      console_write LOG
        ("Context saved for conversation " +:+ conversationId +:+ " with key " +:+ key)
  end.

(** The [catch] block of [saveContext]. *)
Definition saveContext_catch (conversationId : string) (context : MCPContext)
    (error : exn) : M unit :=
  console_write ERROR "LocalStorageService: Error saving context:" >>
  if isQuotaExceeded error then
    try_catch
      (storage_setItem (minimal_key conversationId) (stringify (minimalContext context)) >>
       console_write WARN
         ("Saved minimal context without document content for " +:+ conversationId))
      (λ e, console_write ERROR "LocalStorageService: Failed to save even minimal context:")
  else ret tt.

Definition saveContext (conversationId : string) (context : MCPContext) : M unit :=
  if negb (storage this) then
    console_write ERROR "LocalStorageService: Storage not available, cannot save context"
  else
    try_catch (saveContext_try conversationId context)
              (saveContext_catch conversationId context).

(** The body of the [for] loop of [loadContext]. *)
Definition resolveDocument (doc : DocumentContextEntry) : M DocumentContextEntry :=
  if truthy (content doc) && startsWith doc_ref (content doc) then
    let docKey := replace_first_empty doc_ref (content doc) in
    let* docContent := storage_getItem docKey in
    if truthy_opt docContent then
      console_write LOG ("Loaded external document content for " +:+ documentName doc) >>
      ret (with_content doc (default "" docContent))
    else
      console_write WARN
        ("Document content not found for " +:+ documentName doc +:+ " with key " +:+ docKey) >>
      ret (with_content doc ("Content reference lost: " +:+ docKey))
  else ret doc.

(** The entry [resolveDocument] returns when the backend is in state [s]. *)
Definition resolved (s : St) (doc : DocumentContextEntry) : DocumentContextEntry :=
  if truthy (content doc) && startsWith doc_ref (content doc) then
    let docKey := replace_first_empty doc_ref (content doc) in
    if truthy_opt (getItem s docKey) then with_content doc (default "" (getItem s docKey))
    else with_content doc ("Content reference lost: " +:+ docKey)
  else doc.

(** The context [loadContext] returns for a parsed [context] when the
    backend is in state [s]. *)
Definition resolvedContext (s : St) (context : MCPContext) : MCPContext :=
  match documentContext context with
  | Some docs => with_documentContext context (Some (map (resolved s) docs))
  | None => context
  end.

Definition loadContext (conversationId : string) : M (option MCPContext) :=
  if negb (storage this) then
    console_write ERROR "LocalStorageService: Storage not available, cannot load context" >>
    ret None
  else
    try_catch
      (let key := storage_key conversationId in
       let* contextJson := storage_getItem key in
       if negb (truthy_opt contextJson) then
         console_write LOG ("No context found for conversation " +:+ conversationId) >>
         ret None
       else
         let* context := JSON_parse (default "" contextJson) in
         console_write LOG
           ("Loaded context for conversation " +:+ conversationId +:+ ", parsing documents...") >>
         let* context' :=
           match documentContext context with
           | Some docs =>
               let* docs' := mapM resolveDocument docs in
               ret (with_documentContext context (Some docs'))
           | None => ret context
           end in
         console_write LOG
           ("Successfully loaded context for " +:+ conversationId +:+ " with "
            +:+ pretty (length (default [] (documentContext context'))) +:+ " documents") >>
         ret (Some context'))
      (λ error,
         console_write ERROR "LocalStorageService: Error loading context:" >>
         ret None).

(** The body of the [for] loop of [removeContext]. *)
Definition removeDocument (doc : DocumentContextEntry) : M unit :=
  if truthy (content doc) && startsWith doc_ref (content doc) then
    let docKey := replace_first_empty doc_ref (content doc) in
    storage_removeItem docKey >>
    console_write LOG
      ("Removed document storage for " +:+ documentName doc +:+ " with key " +:+ docKey)
  else ret tt.

Definition removeContext (conversationId : string) : M bool :=
  if negb (storage this) then
    console_write ERROR "LocalStorageService: Storage not available, cannot remove context" >>
    ret false
  else
    try_catch
      (let key := storage_key conversationId in
       let* contextJson := storage_getItem key in
       (if truthy_opt contextJson then
          let* context := JSON_parse (default "" contextJson) in
          match documentContext context with
          | Some docs => forEach removeDocument docs
          | None => ret tt
          end
        else ret tt) >>
       storage_removeItem key >>
       console_write LOG ("Removed context for conversation " +:+ conversationId) >>
       storage_removeItem (minimal_key conversationId) >>
       ret true)
      (λ error,
         console_write ERROR "LocalStorageService: Error removing context:" >>
         ret false).
End Methods.

End Chunking.

(** ** The window and its events *)

Inductive JSValue : Type :=
  | JNumber (n : nat)
  | JString (s : string).

Global Instance JSValue_eq_dec : EqDecision JSValue.
Proof. solve_decision. Defined.

(** [new CustomEvent(type, { detail })]; [detail] is an object literal, kept
    as the list of its fields. *)
Record CustomEvent : Type := mkEvent {
  event_type : string;
  detail : list (string * JSValue)
}.

Global Instance CustomEvent_eq_dec : EqDecision CustomEvent.
Proof. solve_decision. Defined.

(** [detail.field], [None] for [undefined]. *)
Definition field (name : string) (e : CustomEvent) : option JSValue :=
  snd <$> find (λ kv, String.eqb (fst kv) name) (detail e).

(** The event target: the handlers registered with [addEventListener], each
    with the event type it listens to, the events dispatched so far, and the
    handler calls made so far (handler, event). *)
Record Window : Type := mkWindow {
  listeners : list (string * nat);
  dispatched : list CustomEvent;
  received : list (nat * CustomEvent)
}.

(** The handlers [dispatchEvent] calls for an event, in registration order. *)
Definition listeners_of (type : string) (win : Window) : list nat :=
  snd <$> filter (λ l, fst l = type) (listeners win).

(** [window.dispatchEvent(event)]: synchronous delivery to every handler
    registered for the type of the event. *)
Definition dispatchEvent (event : CustomEvent) (win : Window) : Window :=
  mkWindow (listeners win)
           (dispatched win ++ [event])
           (received win ++ ((λ h, (h, event)) <$> listeners_of (event_type event) win)).

(** [toast.error(title, { description })] *)
Definition Toast : Type := string * string.

(** What a client method can touch: its own object [self], the window
    ([None] where [typeof window === 'undefined']), the clock read by
    [Date.now()], the console and the toasts shown. *)
Record Page (C : Type) : Type := mkPage {
  self : C;
  window : option Window;
  now : nat;
  page_console : list line;
  toasts : list Toast
}.
Arguments mkPage {C} self window now page_console toasts.
Arguments self {C} p.
Arguments window {C} p.
Arguments now {C} p.
Arguments page_console {C} p.
Arguments toasts {C} p.

Definition page_log {C} (l : level) (msg : string) : M (Page C) unit :=
  modify (λ p, mkPage (self p) (window p) (now p) (page_console p ++ [(l, msg)]) (toasts p)).

Definition toast_error {C} (title description : string) : M (Page C) unit :=
  modify (λ p, mkPage (self p) (window p) (now p) (page_console p)
                      (toasts p ++ [(title, description)])).

(** [error instanceof Error ? error.message : 'Unknown error'] *)
Definition error_description (error : exn) : string :=
  match error with
  | Error message => message
  | SyntaxError => "SyntaxError"
  | TypeError => "TypeError"
  | DOMException _ => "Unknown error"
  end.

(** Run a computation on a part of [self]. *)
Definition zoom {C T A} (get : C → T) (set : T → C → C) (m : M T A) : M (Page C) A :=
  λ p, match m (get (self p)) with
       | (r, t') => (r, mkPage (set t' (self p)) (window p) (now p) (page_console p) (toasts p))
       end.

(** ** [fileWatcher.ts] *)

Module FileWatcher.

Definition documentContextUpdated : string := "documentContextUpdated".

(** [static notifyDocumentContextChange()] *)
Definition notifyDocumentContextChange {C} : M (Page C) unit :=
  page_log LOG "FileWatcher: notifying document context change" >>
  modify (λ p,
    match window p with
    | Some win =>
        let event := mkEvent documentContextUpdated [("timestamp", JNumber (now p))] in
        mkPage (self p) (Some (dispatchEvent event win)) (now p) (page_console p) (toasts p)
    | None => p
    end).

(** [private static listeners: Map<string, Set<() => void>>].  A listener
    is known by its identity.  A [Set] is the list of its entries in the
    order they were added: [delete] leaves a hole where the entry was and
    [add] appends, as the language defines them, so that a [forEach] that
    is under way skips an entry deleted before it is reached and reaches
    one added meanwhile.  [called] lists the listener calls made so far. *)
Record Registry : Type := mkRegistry {
  listeners : gmap string (list (option nat));
  called : list nat;
  watcher_console : list line
}.

(** The class as loaded: [new Map()]. *)
Definition registry_init : Registry := mkRegistry ∅ [] [].

(** [set.add(listener)] *)
Definition set_add (listener : nat) (set : list (option nat)) : list (option nat) :=
  if decide (Some listener ∈ set) then set else set ++ [Some listener].

(** [set.delete(listener)] *)
Definition set_delete (listener : nat) (set : list (option nat)) : list (option nat) :=
  (λ entry, if decide (entry = Some listener) then None else entry) <$> set.

(** [static addListener(fileId, listener)] *)
Definition addListener (fileId : string) (listener : nat) (r : Registry) : Registry :=
  let map :=
    if decide (is_Some (listeners r !! fileId)) then listeners r
    else <[fileId := []]> (listeners r) in
  mkRegistry (alter (set_add listener) fileId map) (called r) (watcher_console r).

(** [static removeListener(fileId, listener)] *)
Definition removeListener (fileId : string) (listener : nat) (r : Registry) : Registry :=
  mkRegistry (alter (set_delete listener) fileId (listeners r)) (called r) (watcher_console r).

Section Listeners.

(** What the listeners do when they are called.  A call acts on the class
    (a listener is free to add and remove listeners, and to notify) and
    returns or throws; a call that does not return is not modelled. *)
Variable body : nat → M Registry unit.

(** [listener()] *)
Definition invoke (listener : nat) : M Registry unit :=
  modify (λ r, mkRegistry (listeners r) (called r ++ [listener]) (watcher_console r)) >>
  body listener.

(** [set.forEach(listener => listener())] on the set of [fileId], from the
    entry at [index] on: the walk ends where there is no entry, passes a
    hole, and calls a listener; what a listener throws ends it.  The set of
    a file is never replaced once it is there, so it is read from the
    registry as the calls so far have left it.  [fuel] bounds the entries
    the walk visits, and the result is [None] where it runs out: a walk
    need not end, since the listeners can add entries. *)
Fixpoint forEach_from (fuel : nat) (fileId : string) (index : nat) (r : Registry)
    : option (Res unit * Registry) :=
  match fuel with
  | 0 => None
  | S fuel' =>
      match default [] (listeners r !! fileId) !! index with
      | None => Some (Ok tt, r)
      | Some None => forEach_from fuel' fileId (S index) r
      | Some (Some listener) =>
          match invoke listener r with
          | (Ok _, r') => forEach_from fuel' fileId (S index) r'
          | (Throw e, r') => Some (Throw e, r')
          end
      end
  end.

(** [static notifyChange(fileId)] *)
Definition notifyChange (fuel : nat) (fileId : string) (r : Registry)
    : option (Res unit * Registry) :=
  let r1 :=
    mkRegistry (listeners r) (called r)
      (watcher_console r ++ [(LOG, "FileWatcher: notifying change for " +:+ fileId)]) in
  match listeners r1 !! fileId with
  | Some _ => forEach_from fuel fileId 0 r1
  | None => Some (Ok tt, r1)
  end.

End Listeners.

End FileWatcher.

(** ** The context service, as the clients use it *)

Module ContextService.

(** The class [ContextService] is not among the sources; the clients are
    stated over any implementation of the methods they call.  A method
    acts on the state [CS] of the service (its context and whatever it
    persists to) and may throw. *)
Class Interface (CS : Type) : Type := {
  new : bool → CS;
  addDocumentToContext : string → string → string → string → M CS unit;
  removeDocumentFromContext : string → M CS bool;
  refreshContextFromStorage : M CS bool;
  setMetisActive : bool → CS → CS
}.

(** The methods the clients call for the conversation itself, stated the
    same way; an [async] method is a computation that returns where its
    promise is fulfilled and throws where it is rejected.  [conversationId]
    is [None] where the caller passes none; [getConversationId] and
    [getModelContext] return [None] for [null]. *)
Class Conversation (CS : Type) : Type := {
  initializeContext : option string → M CS string;
  getConversationId : M CS (option string);
  getModelContext : M CS (option MCPContext);
  addUserMessage : string → M CS unit;
  addAgentResponse : string → M CS unit;
  setModelPreference : string → M CS unit
}.

End ContextService.

(** The interface [ContextStorageService] both revisions implement (its
    declaration, in [types.ts], is not among the sources), over the state
    [P] they persist to. *)
Class ContextStorageService (P : Type) : Type := {
  saveContext : string → MCPContext → M P unit;
  loadContext : string → M P (option MCPContext);
  removeContext : string → M P bool
}.


Definition chunkingService {St : Type} {backend : Storage St} {codec : Codec}
    (this : Chunking.LocalStorageService) : ContextStorageService (World St) := {|
  saveContext := Chunking.saveContext this;
  loadContext := Chunking.loadContext this;
  removeContext := Chunking.removeContext this
|}.

(** ** The context service of section 4.3 *)

Module SpecContextService.

(** Modelled from the spec: the class [ContextService] ([context.ts]) is
    missing from the sources.  Its state is the context of the current
    conversation, the flag it was constructed with, and what its storage
    service persists to. *)
Record State (P : Type) : Type := mkState {
  context : option MCPContext;
  metis : bool;
  persistence : P
}.
Arguments mkState {P} context metis persistence.
Arguments context {P} s.
Arguments metis {P} s.
Arguments persistence {P} s.

Definition EmptyContent : exn := Error "EmptyContent".
Definition DuplicateDocument : exn := Error "DuplicateDocument".
Definition NotInitialized : exn := Error "NotInitialized".

Section Methods.
Context {P : Type} {storageService : ContextStorageService P}.
Variable initial : P.

(** Run a method of the storage service on [persistence]. *)
Definition persist {A} (m : M P A) : M (State P) A :=
  λ s, match m (persistence s) with
       | (r, p') => (r, mkState (context s) (metis s) p')
       end.

Definition set_context (c : MCPContext) : M (State P) unit :=
  modify (λ s, mkState (Some c) (metis s) (persistence s)).

(** [documentContext.some(d => d.documentId === documentId)] *)
Definition has_document (documentId0 : string) (c : MCPContext) : bool :=
  existsb (λ d, String.eqb (documentId d) documentId0) (default [] (documentContext c)).

(** Modelled from the spec: "fails with EmptyContent if content is empty;
    otherwise appends a DocumentContextEntry (rejecting duplicates by
    documentId), persists the whole context via the Storage Service, and
    updates in-memory state only after a successful persist attempt is
    dispatched". *)
Definition addDocumentToContext (documentId0 documentName0 documentType0 content0 : string)
    : M (State P) unit :=
  if negb (truthy content0) then throw EmptyContent
  else
    let* s := get_world in
    match context s with
    | None => throw NotInitialized
    | Some c =>
        if has_document documentId0 c then throw DuplicateDocument
        else
          let entry := mkDoc documentId0 documentName0 documentType0 content0 in
          let c' := with_documentContext c (Some (default [] (documentContext c) ++ [entry])) in
          persist (saveContext (conversationId c) c') >>
          set_context c'
    end.

(** Modelled from the spec: "removes by ID if present, persists, returns
    whether anything was removed". *)
Definition removeDocumentFromContext (documentId0 : string) : M (State P) bool :=
  let* s := get_world in
  match context s with
  | None => ret false
  | Some c =>
      if has_document documentId0 c then
        let docs := filter (λ d, documentId d ≠ documentId0) (default [] (documentContext c)) in
        let c' := with_documentContext c (Some docs) in
        persist (saveContext (conversationId c) c') >>
        set_context c' >>
        ret true
      else ret false
  end.

(** Modelled from the spec: "re-loadContexts the current conversation's ID
    and replaces the in-memory context if the load succeeds, returning
    whether a refresh actually occurred". *)
Definition refreshContextFromStorage : M (State P) bool :=
  let* s := get_world in
  match context s with
  | None => ret false
  | Some c =>
      let* loaded := persist (loadContext (conversationId c)) in
      match loaded with
      | Some c' => set_context c' >> ret true
      | None => ret false
      end
  end.

(** Modelled from the spec: "mutate flags". *)
Definition setMetisActive (active : bool) (s : State P) : State P :=
  mkState
    ((λ c, mkContext (conversationId c) (documentContext c) (messageHistory c)
                     (modelPreference c) active) <$> context s)
    active (persistence s).

(** Modelled from the spec: "if none found, create an empty context for that
    ID". *)
Definition emptyContext (conversationId0 : string) (metisActive0 : bool) : MCPContext :=
  mkContext conversationId0 (Some []) [] None metisActive0.

(** Modelled from the spec: [initializeContext] with a conversation id:
    "attempt loadContext; if none found, create an empty context for that
    ID.  Sets the loaded/created context as current". *)
Definition initializeContext (conversationId0 : string) : M (State P) string :=
  let* loaded := persist (loadContext conversationId0) in
  let* s := get_world in
  set_context (default (emptyContext conversationId0 (metis s)) loaded) >>
  ret conversationId0.

Definition service : ContextService.Interface (State P) := {|
  ContextService.new metisActive0 := mkState None metisActive0 initial;
  ContextService.addDocumentToContext := addDocumentToContext;
  ContextService.removeDocumentFromContext := removeDocumentFromContext;
  ContextService.refreshContextFromStorage := refreshContextFromStorage;
  ContextService.setMetisActive := setMetisActive
|}.
End Methods.

End SpecContextService.

(** A context service double that records the calls it receives and lets
    every one of them succeed. *)
Inductive ServiceCall : Type :=
  | CallAdd (documentId documentName documentType content : string)
  | CallRemove (documentId : string)
  | CallRefresh
  | CallSetMetisActive (active : bool).

Definition recorder : ContextService.Interface (list ServiceCall) := {|
  ContextService.new metisActive0 := [];
  ContextService.addDocumentToContext i n t c := λ calls, (Ok tt, calls ++ [CallAdd i n t c]);
  ContextService.removeDocumentFromContext i := λ calls, (Ok true, calls ++ [CallRemove i]);
  ContextService.refreshContextFromStorage := λ calls, (Ok true, calls ++ [CallRefresh]);
  ContextService.setMetisActive active calls := calls ++ [CallSetMetisActive active]
|}.

(** ** The guard clauses of [handleDocumentSelect] *)


(** [options] of the clients. *)
Record MCPClientOptions : Type := mkClientOptions {
  opt_serverUrl : option string;
  opt_authToken : option string;
  opt_metisActive : option bool       (* [None] is [undefined] *)
}.

(** ** [MCPContextClient.ts] *)

Module MCPContextClient.

Record MCPContextClient (CS : Type) : Type := mkClient {
  contextService : CS;
  initialized : bool
}.
Arguments mkClient {CS} contextService initialized.
Arguments contextService {CS} m.
Arguments initialized {CS} m.

Section Methods.
Context {CS : Type} {service : ContextService.Interface CS}.

(** [constructor(contextService)] *)
Definition new (contextService : CS) : MCPContextClient CS :=
  mkClient contextService false.

(** [this.contextService.method(...)] *)
Definition call {A} (m : M CS A) : M (Page (MCPContextClient CS)) A :=
  zoom contextService (λ cs this, mkClient cs (initialized this)) m.

(** [content] is [None] when the caller passes [undefined] or [null]. *)
Definition addDocumentToContext (documentId documentName documentType : string)
    (content : option string) : M (Page (MCPContextClient CS)) unit :=
  try_catch
    (page_log LOG
       ("Adding document to context: " +:+ documentName +:+ " (" +:+ documentId +:+ ")") >>
     (if negb (truthy_opt content) || Nat.eqb (String.length (default "" content)) 0 then
        throw (Error ("Cannot add document " +:+ documentName +:+ ": Content is empty"))
      else ret tt) >>
     call (ContextService.addDocumentToContext documentId documentName documentType
             (default "" content)) >>
     page_log LOG ("Document " +:+ documentName +:+ " successfully added to context") >>
     FileWatcher.notifyDocumentContextChange)
    (λ error,
       page_log ERROR ("Failed to add document " +:+ documentName +:+ " to context:") >>
       throw error).

Definition removeDocumentFromContext (documentId : string)
    : M (Page (MCPContextClient CS)) bool :=
  try_catch
    (page_log LOG ("Removing document " +:+ documentId +:+ " from context") >>
     let* removed := call (ContextService.removeDocumentFromContext documentId) in
     (if removed : bool then
        page_log LOG ("Document " +:+ documentId +:+ " successfully removed from context") >>
        FileWatcher.notifyDocumentContextChange
      else
        page_log LOG ("Document " +:+ documentId +:+ " was not found in context")) >>
     ret removed)
    (λ error,
       page_log ERROR ("Error removing document " +:+ documentId +:+ " from context:") >>
       ret false).

Definition setMetisActive (active : bool) (this : MCPContextClient CS)
    : MCPContextClient CS :=
  mkClient (ContextService.setMetisActive active (contextService this)) (initialized this).

Definition refreshContext : M (Page (MCPContextClient CS)) bool :=
  let* result := call ContextService.refreshContextFromStorage in
  (if result : bool then FileWatcher.notifyDocumentContextChange else ret tt) >>
  ret result.
End Methods.

(** The methods that act on the conversation.  [await] is sequencing: a
    call runs to its end before anything else touches the client. *)
Section Conversation.
Context {CS : Type} {service : ContextService.Interface CS}
        {conversation : ContextService.Conversation CS}.

(** [this.initialized = true] *)
Definition set_initialized : M (Page (MCPContextClient CS)) unit :=
  modify (λ p, mkPage (mkClient (contextService (self p)) true)
                      (window p) (now p) (page_console p) (toasts p)).

Definition initializeContext (conversationId : option string)
    : M (Page (MCPContextClient CS)) string :=
  try_catch
    (page_log LOG
       ("Initializing MCP context for conversation " +:+ or_else conversationId "new") >>
     let* newConversationId := call (ContextService.initializeContext conversationId) in
     set_initialized >>
     ret newConversationId)
    (λ error,
       page_log ERROR "Error initializing MCP context:" >>
       throw error).

Definition ensureContextInitialized (conversationId : option string)
    : M (Page (MCPContextClient CS)) string :=
  let* p := get_world in
  if negb (initialized (self p)) then
    page_log LOG "MCP context not initialized, initializing now" >>
    initializeContext conversationId
  else
    let* currentConversationId := call ContextService.getConversationId in
    if truthy_opt conversationId
       && negb (bool_decide (currentConversationId = conversationId)) then
      page_log LOG
        ("Switching context from " +:+ default "null" currentConversationId
         +:+ " to " +:+ default "" conversationId) >>
      initializeContext conversationId
    else if truthy_opt currentConversationId then ret (default "" currentConversationId)
    else initializeContext None.

Definition addUserMessage (message : string) : M (Page (MCPContextClient CS)) unit :=
  try_catch
    (page_log LOG "Adding user message to context" >>
     call (ContextService.addUserMessage message))
    (λ error,
       page_log ERROR "Error adding user message to context:" >>
       throw error).

Definition addAgentResponse (response : string) : M (Page (MCPContextClient CS)) unit :=
  try_catch
    (page_log LOG "Adding agent response to context" >>
     call (ContextService.addAgentResponse response))
    (λ error,
       page_log ERROR "Error adding agent response to context:" >>
       throw error).

(** [invalidDocs]: the documents with a missing or empty content. *)
Definition invalidDocs (docs : list DocumentContextEntry) : list DocumentContextEntry :=
  filter (λ doc, truthy (content doc) = false) docs.

(** The report [getModelContext] makes on the context it got (the warning
    sign that opens the warning is left out). *)
Definition reportModelContext (context : option MCPContext)
    : M (Page (MCPContextClient CS)) unit :=
  match context ≫= documentContext with
  | Some ((_ :: _) as docs) =>
      page_log LOG
        ("Retrieved model context with " +:+ pretty (length docs) +:+ " documents") >>
      if Nat.ltb 0 (length (invalidDocs docs)) then
        page_log WARN
          ("Found " +:+ pretty (length (invalidDocs docs))
           +:+ " documents with invalid content")
      else ret tt
  | _ => page_log LOG "Retrieved model context without any documents"
  end.

Definition getModelContext : M (Page (MCPContextClient CS)) (option MCPContext) :=
  try_catch
    (call ContextService.refreshContextFromStorage >>
     let* context := call ContextService.getModelContext in
     reportModelContext context >>
     ret context)
    (λ error,
       page_log ERROR "Error getting model context:" >>
       ret None).

Definition setModelPreference (model : string) : M (Page (MCPContextClient CS)) unit :=
  call (ContextService.setModelPreference model).

Definition getConversationId : M (Page (MCPContextClient CS)) (option string) :=
  call ContextService.getConversationId.
End Conversation.

End MCPContextClient.

(** ** [MCPClient], the client that holds the context service itself *)

Module MCPClient.

Record MCPClient (CS : Type) : Type := mkClient {
  serverUrl : string;
  authToken : option string;
  contextService : CS;
  initialized : bool
}.
Arguments mkClient {CS} serverUrl authToken contextService initialized.
Arguments serverUrl {CS} m.
Arguments authToken {CS} m.
Arguments contextService {CS} m.
Arguments initialized {CS} m.

Section Methods.
Context {CS : Type} {service : ContextService.Interface CS}.

(** [constructor(options)]; the drive service it also creates is an
    external collaborator and is left out. *)
Definition new (options : MCPClientOptions) : MCPClient CS :=
  mkClient
    (or_else (opt_serverUrl options) "https://mcp-gdrive-server.example.com")
    (match opt_authToken options with
     | Some t => if truthy t then Some t else None
     | None => None
     end)
    (ContextService.new (default false (opt_metisActive options)))
    false.

Definition call {A} (m : M CS A) : M (Page (MCPClient CS)) A :=
  zoom contextService
       (λ cs this, mkClient (serverUrl this) (authToken this) cs (initialized this)) m.

Definition addDocumentToContext (documentId documentName documentType : string)
    (content : option string) : M (Page (MCPClient CS)) unit :=
  try_catch
    (page_log LOG
       ("Adding document to context: " +:+ documentName +:+ " (" +:+ documentId +:+ ")") >>
     (if negb (truthy_opt content) || Nat.eqb (String.length (default "" content)) 0 then
        throw (Error ("Cannot add document " +:+ documentName +:+ ": Content is empty"))
      else ret tt) >>
     call (ContextService.addDocumentToContext documentId documentName documentType
             (default "" content)) >>
     page_log LOG ("Document " +:+ documentName +:+ " successfully added to context") >>
     FileWatcher.notifyDocumentContextChange)
    (λ error,
       page_log ERROR ("Failed to add document " +:+ documentName +:+ " to context:") >>
       toast_error ("Failed to add document " +:+ documentName) (error_description error) >>
       throw error).

Definition removeDocumentFromContext (documentId : string)
    : M (Page (MCPClient CS)) bool :=
  try_catch
    (page_log LOG ("Removing document " +:+ documentId +:+ " from context") >>
     let* removed := call (ContextService.removeDocumentFromContext documentId) in
     (if removed : bool then
        page_log LOG ("Document " +:+ documentId +:+ " successfully removed from context") >>
        FileWatcher.notifyDocumentContextChange
      else
        page_log LOG ("Document " +:+ documentId +:+ " was not found in context")) >>
     ret removed)
    (λ error,
       page_log ERROR ("Error removing document " +:+ documentId +:+ " from context:") >>
       ret false).

Definition setMetisActive (active : bool) (this : MCPClient CS) : MCPClient CS :=
  mkClient (serverUrl this) (authToken this)
           (ContextService.setMetisActive active (contextService this)) (initialized this).
End Methods.

(** [DocumentMetadata], with the fields [fetchDocumentContent] fills in. *)
Record DocumentMetadata : Type := mkMetadata {
  id : string;
  name : string;
  mimeType : string
}.

(** The methods that go to Google Drive.  The drive service is an external
    collaborator: its methods are taken as computations on the page of the
    client, [fetchDocumentContent] returning [None] where its promise
    resolves to nothing. *)
Section Drive.
Context {CS : Type}.
Variable driveService_connectToDrive : string → string → M (Page (MCPClient CS)) bool.
Variable driveService_fetchDocumentContent :
  DocumentMetadata → M (Page (MCPClient CS)) (option string).

Definition connectToDrive (clientId apiKey : string) : M (Page (MCPClient CS)) bool :=
  try_catch
    (page_log LOG "Connecting to Google Drive with client ID and API key" >>
     let* success := driveService_connectToDrive clientId apiKey in
     if success : bool then
       page_log LOG "Successfully connected to Google Drive" >>
       ret true
     else
       page_log ERROR "Failed to connect to Google Drive" >>
       ret false)
    (λ error,
       page_log ERROR "Error connecting to Google Drive:" >>
       ret false).

Definition fetchDocumentContent (documentId : string) : M (Page (MCPClient CS)) string :=
  try_catch
    (page_log LOG ("Fetching content for document " +:+ documentId) >>
     let documentMetadata := mkMetadata documentId documentId "" in
     let* content := driveService_fetchDocumentContent documentMetadata in
     if negb (truthy_opt content) || Nat.eqb (String.length (default "" content)) 0 then
       page_log ERROR
         ("Failed to fetch content for document " +:+ documentId +:+ ": Content is empty") >>
       throw (Error "Document content is empty")
     else
       page_log LOG
         ("Successfully fetched content for document " +:+ documentId
          +:+ ", length: " +:+ pretty (String.length (default "" content))) >>
       ret (default "" content))
    (λ error,
       page_log ERROR ("Error fetching document content for " +:+ documentId +:+ ":") >>
       throw error).
End Drive.

End MCPClient.

(** ** The module-level singleton *)

(** The state of a module that exports [getMCPClient]: the objects it has
    constructed, in order of construction, and the variable
    [mcpClientInstance], a reference (an index into [objects]) or [null]. *)
Record ModuleState (C : Type) : Type := mkModule {
  objects : list C;
  mcpClientInstance : option nat;
  module_console : list line
}.
Arguments mkModule {C} objects mcpClientInstance module_console.
Arguments objects {C} m.
Arguments mcpClientInstance {C} m.
Arguments module_console {C} m.

(** The module as loaded: [let mcpClientInstance = null]. *)
Definition module_init {C} : ModuleState C := mkModule [] None [].

(** [getMCPClient] of the module that defines [MCPClient] itself. *)
Module MCPClientModule.
Section Factory.
Context {CS : Type} {service : ContextService.Interface CS}.

Definition getMCPClient (options : MCPClientOptions)
    (m : ModuleState (MCPClient.MCPClient CS)) : nat * ModuleState (MCPClient.MCPClient CS) :=
  match mcpClientInstance m with
  | None =>
      let ref := length (objects m) in
      (ref, mkModule (objects m ++ [MCPClient.new options]) (Some ref)
                     (module_console m ++ [(LOG, "Creating new MCP client instance");
                                           (LOG, "MCP Client initialized with options:")]))
  | Some ref =>
      match opt_metisActive options with
      | Some active =>
          (ref, mkModule (alter (MCPClient.setMetisActive active) ref (objects m))
                         (Some ref) (module_console m))
      | None => (ref, m)
      end
  end.
End Factory.
End MCPClientModule.

(** A run of calls [f o1; f o2; ...] of a factory [f], with the references
    they return. *)
Fixpoint call_each {C O} (f : O → ModuleState C → nat * ModuleState C)
    (options : list O) (m : ModuleState C) : list nat * ModuleState C :=
  match options with
  | [] => ([], m)
  | o :: rest =>
      let (r, m') := f o m in
      let (rs, m'') := call_each f rest m' in
      (r :: rs, m'')
  end.

(** What a call with [options] does to an instance that exists already. *)
Definition apply_metisActive {C} (setMetisActive : bool → C → C)
    (client : C) (options : MCPClientOptions) : C :=
  match opt_metisActive options with
  | Some active => setMetisActive active client
  | None => client
  end.

(** ** [MCPClientFactory]: [EnhancedMCPClient] and its [getMCPClient] *)

Module MCPClientFactory.

(** [class EnhancedMCPClient extends MCPClient]: the fields of the base
    class and the context client. *)
Record EnhancedMCPClient (CS : Type) : Type := mkEnhanced {
  super : MCPClient.MCPClient CS;
  contextClient : MCPContextClient.MCPContextClient CS
}.
Arguments mkEnhanced {CS} super contextClient.
Arguments super {CS} e.
Arguments contextClient {CS} e.

Section Factory.
Context {CS : Type} {service : ContextService.Interface CS}.

(** [constructor(options)] *)
Definition new (options : MCPClientOptions) : EnhancedMCPClient CS :=
  mkEnhanced
    (MCPClient.new options)
    (MCPContextClient.new (ContextService.new (default false (opt_metisActive options)))).

Definition setMetisActive (active : bool) (this : EnhancedMCPClient CS)
    : EnhancedMCPClient CS :=
  mkEnhanced (super this) (MCPContextClient.setMetisActive active (contextClient this)).

(** [this.contextClient.method(...)] *)
Definition delegate {A} (m : M (Page (MCPContextClient.MCPContextClient CS)) A)
    : M (Page (EnhancedMCPClient CS)) A :=
  λ p, match m (mkPage (contextClient (self p)) (window p) (now p)
                       (page_console p) (toasts p)) with
       | (r, q) => (r, mkPage (mkEnhanced (super (self p)) (self q)) (window q) (now q)
                              (page_console q) (toasts q))
       end.

Definition addDocumentToContext (documentId documentName documentType : string)
    (content : option string) : M (Page (EnhancedMCPClient CS)) unit :=
  delegate (MCPContextClient.addDocumentToContext documentId documentName documentType content).

Definition removeDocumentFromContext (documentId : string)
    : M (Page (EnhancedMCPClient CS)) bool :=
  delegate (MCPContextClient.removeDocumentFromContext documentId).

Definition getMCPClient (options : MCPClientOptions)
    (m : ModuleState (EnhancedMCPClient CS)) : nat * ModuleState (EnhancedMCPClient CS) :=
  match mcpClientInstance m with
  | None =>
      let ref := length (objects m) in
      (ref, mkModule (objects m ++ [new options]) (Some ref)
                     (module_console m ++ [(LOG, "Creating new MCP client instance");
                                           (LOG, "MCP Client initialized with options:")]))
  | Some ref =>
      match opt_metisActive options with
      | Some active =>
          (ref, mkModule (alter (setMetisActive active) ref (objects m))
                         (Some ref) (module_console m))
      | None => (ref, m)
      end
  end.
End Factory.

(** The other context methods of [EnhancedMCPClient]. *)
Section Conversation.
Context {CS : Type} {service : ContextService.Interface CS}
        {conversation : ContextService.Conversation CS}.

Definition initializeContext (conversationId : option string)
    : M (Page (EnhancedMCPClient CS)) string :=
  delegate (MCPContextClient.initializeContext conversationId).

Definition ensureContextInitialized (conversationId : option string)
    : M (Page (EnhancedMCPClient CS)) string :=
  delegate (MCPContextClient.ensureContextInitialized conversationId).

Definition addUserMessage (message : string) : M (Page (EnhancedMCPClient CS)) unit :=
  delegate (MCPContextClient.ensureContextInitialized None) >>
  delegate (MCPContextClient.addUserMessage message).

Definition addAgentResponse (response : string) : M (Page (EnhancedMCPClient CS)) unit :=
  delegate (MCPContextClient.ensureContextInitialized None) >>
  delegate (MCPContextClient.addAgentResponse response).

Definition getModelContext : M (Page (EnhancedMCPClient CS)) (option MCPContext) :=
  delegate MCPContextClient.getModelContext.

Definition setModelPreference (model : string) : M (Page (EnhancedMCPClient CS)) unit :=
  delegate (MCPContextClient.setModelPreference model).

Definition getConversationId : M (Page (EnhancedMCPClient CS)) (option string) :=
  delegate MCPContextClient.getConversationId.

Definition refreshContext : M (Page (EnhancedMCPClient CS)) bool :=
  delegate MCPContextClient.refreshContext.
End Conversation.

End MCPClientFactory.

(** ** The hooks *)

(** [useMCP] ([use-mcp.ts]) and [useDocumentFetching]: the part of the hook
    state [fetchDocument] reads and sets.  [client] is the client object the
    hook holds, [None] for [null]. *)
Module useMCP.

Record Hook (C : Type) : Type := mkHook {
  client : option C;
  driveConnected : bool;
  isLoading : bool
}.
Arguments mkHook {C} client driveConnected isLoading.
Arguments client {C} h.
Arguments driveConnected {C} h.
Arguments isLoading {C} h.

Section Callbacks.
Context {C : Type}.

(** [client.fetchDocumentContent], the method of the client the hook holds. *)
Variable fetchDocumentContent : string → M (Page C) string.

(** [error instanceof Error ? error.message : 'Unknown error occurred'], the
    description of the toast. *)
Variable message : exn → string.

Definition setIsLoading (loading : bool) : M (Page (Hook C)) unit :=
  modify (λ p, mkPage (mkHook (client (self p)) (driveConnected (self p)) loading)
                      (window p) (now p) (page_console p) (toasts p)).

(** A method call on the client object [c] the hook holds. *)
Definition on_client {A} (m : M (Page C) A) (c : C) : M (Page (Hook C)) A :=
  λ p, match m (mkPage c (window p) (now p) (page_console p) (toasts p)) with
       | (r, q) =>
           (r, mkPage (mkHook (Some (self q)) (driveConnected (self p)) (isLoading (self p)))
                      (window q) (now q) (page_console q) (toasts q))
       end.

(** [fetchDocument(documentId)]; a toast without a description has the
    empty one. *)
Definition fetchDocument (documentId : string) : M (Page (Hook C)) (option string) :=
  let* p := get_world in
  match client (self p) with
  | Some c =>
      if negb (driveConnected (self p)) then
        toast_error "Not connected to Google Drive" "" >> ret None
      else
        setIsLoading true >>
        try_finally
          (try_catch
             (let* content := on_client (fetchDocumentContent documentId) c in
              ret (Some content))
             (λ error,
                page_log ERROR ("Error fetching document " +:+ documentId +:+ ":") >>
                toast_error "Failed to fetch document" (message error) >>
                ret None))
          (setIsLoading false)
  | None => toast_error "Not connected to Google Drive" "" >> ret None
  end.
End Callbacks.

End useMCP.

(** [useDocumentContext] and [useDocumentLoading]: the documents the hooks
    list as selected. *)
Module useDocumentContext.

Record SelectedDocument : Type := mkSelected {
  id : string;
  name : string;
  mimeType : string;
  content : string
}.

(** The callback of [context.documentContext.map] in
    [loadDocumentContext]. *)
Definition selectedDocument (doc : DocumentContextEntry) : SelectedDocument :=
  let 'mkDoc documentId documentName documentType content := doc in
  mkSelected documentId documentName ("application/" +:+ documentType) content.

(** [s.split(sep)] for a separator of one character. *)
Fixpoint split (sep : Ascii.ascii) (s : string) : list string :=
  match s with
  | EmptyString => [EmptyString]
  | String c s' =>
      if Ascii.eqb c sep then EmptyString :: split sep s'
      else match split sep s' with
           | head :: tail => String c head :: tail
           | [] => [String c EmptyString]
           end
  end.

Definition slash : Ascii.ascii := Ascii.ascii_of_nat 47.

(** [document.mimeType.split('/').pop() || 'unknown'] in
    [handleDocumentSelect]. *)
Definition documentTypeOf (document : SelectedDocument) : string :=
  or_else (last (split slash (mimeType document))) "unknown".

(** The document [handleViewDocument] shows. *)
Definition handleViewDocument (document : SelectedDocument) : SelectedDocument :=
  mkSelected (id document) (name document) (mimeType document)
             (or_else (Some (content document)) "Content not available").

End useDocumentContext.

(** [useDocumentBrowser]: the folder navigation. *)
Module useDocumentBrowser.

(** An entry of the drive listing, with the fields the hook reads. *)
Record DriveEntry : Type := mkEntry {
  id : string;
  name : string;
  mimeType : string
}.

(** The state the navigation handlers read and set: [currentFolder] and
    [folderHistory], a list of [{ id, name }].  A handler runs on the state
    of the render it was created in; what it sets is the state of the next
    render. *)
Record Navigation : Type := mkNavigation {
  currentFolder : string;
  folderHistory : list (string * string)
}.

(** [handleDocumentClick(doc)]: the result is the document to select,
    [None] for [null].  The line it logs for a document is not part of the
    navigation state. *)
Definition handleDocumentClick (doc : DriveEntry) (s : Navigation)
    : option DriveEntry * Navigation :=
  if includes "folder" (mimeType doc) then
    (None, mkNavigation (id doc) (folderHistory s ++ [(currentFolder s, name doc)]))
  else (Some doc, s).

(** [handleBack()] *)
Definition handleBack (s : Navigation) : Navigation :=
  if Nat.ltb 0 (length (folderHistory s)) then
    let newHistory := removelast (folderHistory s) in
    let lastFolder := last (folderHistory s) in
    mkNavigation (or_else (fst <$> lastFolder) "") newHistory
  else s.

(** [navigateToFolder(index)], for an integer [index]. *)
Definition navigateToFolder (index : Z) (s : Navigation) : Navigation :=
  if (index <? 0)%Z then mkNavigation "" []
  else if (index <? Z.of_nat (length (folderHistory s)))%Z then
    let newHistory := take (Z.to_nat index + 1) (folderHistory s) in
    match newHistory !! Z.to_nat index with
    | Some folder => mkNavigation (fst folder) newHistory
    | None => s
    end
  else s.

(** [navigateToRoot()] *)
Definition navigateToRoot (s : Navigation) : Navigation := mkNavigation "" [].

End useDocumentBrowser.

(** ** Concrete collaborators *)

(** The browser's [localStorage]: a map from keys to values with a quota on
    the characters it holds; a write that would exceed the quota throws
    [QuotaExceededError] and changes nothing. *)
Record LocalStorage : Type := mkLocalStorage {
  items : gmap string string;
  quota : nat
}.

Definition usage (m : gmap string string) : nat :=
  map_fold (λ k v acc, String.length k + String.length v + acc) 0 m.

Global Instance localStorage : Storage LocalStorage := {|
  getItem s k := items s !! k;
  setItem s k v :=
    let m := <[k := v]> (items s) in
    if decide (usage m ≤ quota s) then inr (mkLocalStorage m (quota s))
    else inl QuotaExceededError;
  removeItem s k := inr (mkLocalStorage (delete k (items s)) (quota s))
|}.

(** A [Storage] double whose [removeItem] returns without deleting. *)
Record StickyStorage : Type := mkSticky { kept : gmap string string }.

Global Instance stickyStorage : Storage StickyStorage := {|
  getItem s k := kept s !! k;
  setItem s k v := inr (mkSticky (<[k := v]> (kept s)));
  removeItem s k := inr s
|}.

(** A [Storage] double that cannot be written to: [setItem] throws a
    [SecurityError]. *)
Record LockedStorage : Type := mkLocked { locked : gmap string string }.

Global Instance lockedStorage : Storage LockedStorage := {|
  getItem s k := locked s !! k;
  setItem s k v := inl (DOMException "SecurityError");
  removeItem s k := inr (mkLocked (delete k (locked s)))
|}.

(** A serialization that can be run: every string is written as its length
    in unary followed by its characters, lists as their length followed by
    their elements.  It stands for JSON where a computation needs a codec. *)
Module Wire.

Definition zero : Ascii.ascii := Ascii.ascii_of_nat 48.
Definition one : Ascii.ascii := Ascii.ascii_of_nat 49.

Fixpoint enc_nat (n : nat) (rest : string) : string :=
  match n with
  | 0 => String zero rest
  | S n' => String one (enc_nat n' rest)
  end.

Fixpoint dec_nat (s : string) : option (nat * string) :=
  match s with
  | EmptyString => None
  | String c s' =>
      if decide (c = zero) then Some (0, s')
      else if decide (c = one) then
        match dec_nat s' with
        | Some (n, r) => Some (S n, r)
        | None => None
        end
      else None
  end.

Fixpoint take (n : nat) (s : string) : option (string * string) :=
  match n with
  | 0 => Some (EmptyString, s)
  | S n' =>
      match s with
      | EmptyString => None
      | String c s' =>
          match take n' s' with
          | Some (a, r) => Some (String c a, r)
          | None => None
          end
      end
  end.

Definition enc_string (s rest : string) : string :=
  enc_nat (String.length s) (s +:+ rest).

Definition dec_string (s : string) : option (string * string) :=
  match dec_nat s with
  | Some (n, r) => take n r
  | None => None
  end.

Definition enc_bool (b : bool) (rest : string) : string :=
  String (if b then one else zero) rest.

Definition dec_bool (s : string) : option (bool * string) :=
  match s with
  | EmptyString => None
  | String c s' =>
      if decide (c = one) then Some (true, s')
      else if decide (c = zero) then Some (false, s')
      else None
  end.

Definition enc_option {A} (enc : A → string → string) (o : option A) (rest : string) : string :=
  match o with
  | Some a => enc_bool true (enc a rest)
  | None => enc_bool false rest
  end.

Definition dec_option {A} (dec : string → option (A * string)) (s : string)
    : option (option A * string) :=
  match dec_bool s with
  | Some (true, r) =>
      match dec r with
      | Some (a, r') => Some (Some a, r')
      | None => None
      end
  | Some (false, r) => Some (None, r)
  | None => None
  end.

Definition enc_list {A} (enc : A → string → string) (l : list A) (rest : string) : string :=
  enc_nat (length l) (foldr enc rest l).

Fixpoint dec_items {A} (dec : string → option (A * string)) (n : nat) (s : string)
    : option (list A * string) :=
  match n with
  | 0 => Some ([], s)
  | S n' =>
      match dec s with
      | Some (a, r) =>
          match dec_items dec n' r with
          | Some (l, r') => Some (a :: l, r')
          | None => None
          end
      | None => None
      end
  end.

Definition dec_list {A} (dec : string → option (A * string)) (s : string)
    : option (list A * string) :=
  match dec_nat s with
  | Some (n, r) => dec_items dec n r
  | None => None
  end.

Definition enc_doc (d : DocumentContextEntry) (rest : string) : string :=
  enc_string (documentId d) (enc_string (documentName d)
    (enc_string (documentType d) (enc_string (content d) rest))).

Definition dec_doc (s : string) : option (DocumentContextEntry * string) :=
  match dec_string s with
  | Some (i, r1) =>
      match dec_string r1 with
      | Some (n, r2) =>
          match dec_string r2 with
          | Some (t, r3) =>
              match dec_string r3 with
              | Some (c, r4) => Some (mkDoc i n t c, r4)
              | None => None
              end
          | None => None
          end
      | None => None
      end
  | None => None
  end.

Definition enc_entry (e : HistoryEntry) (rest : string) : string :=
  match e with
  | UserMessage m => enc_bool true (enc_string m rest)
  | AgentResponse r => enc_bool false (enc_string r rest)
  end.

Definition dec_entry (s : string) : option (HistoryEntry * string) :=
  match dec_bool s with
  | Some (b, r) =>
      match dec_string r with
      | Some (m, r') => Some (if b then UserMessage m else AgentResponse m, r')
      | None => None
      end
  | None => None
  end.

Definition encode (c : MCPContext) : string :=
  enc_string (conversationId c)
    (enc_option (enc_list enc_doc) (documentContext c)
      (enc_list enc_entry (messageHistory c)
        (enc_option enc_string (modelPreference c)
          (enc_bool (metisActive c) EmptyString)))).

Definition decode (s : string) : option MCPContext :=
  match dec_string s with
  | Some (i, r1) =>
      match dec_option (dec_list dec_doc) r1 with
      | Some (d, r2) =>
          match dec_list dec_entry r2 with
          | Some (h, r3) =>
              match dec_option dec_string r3 with
              | Some (p, r4) =>
                  match dec_bool r4 with
                  | Some (b, EmptyString) => Some (mkContext i d h p b)
                  | _ => None
                  end
              | None => None
              end
          | None => None
          end
      | None => None
      end
  | None => None
  end.

Definition codec : Codec := {| stringify := encode; parse := decode |}.

End Wire.


(** A [Storage] double that takes every write and keeps nothing. *)
Inductive VoidStorage : Type := void.

Global Instance voidStorage : Storage VoidStorage := {|
  getItem s k := None;
  setItem s k v := inr s;
  removeItem s k := inr s
|}.

(** A [Storage] double that loses the documents: of a value that parses
    to a context it keeps the serialization with an empty document list. *)
Record DroppingStorage : Type := mkDropping { held : gmap string string }.

Definition drop_documents {codec : Codec} (value : string) : string :=
  match parse value with
  | Some c => stringify (with_documentContext c (Some []))
  | None => value
  end.

Definition droppingStorage {codec : Codec} : Storage DroppingStorage := {|
  getItem s k := held s !! k;
  setItem s k v := inr (mkDropping (<[k := drop_documents v]> (held s)));
  removeItem s k := inr (mkDropping (delete k (held s)))
|}.

(** A context service double for the conversation methods: it records the
    calls it receives; while [reachable] they succeed, [initializeContext]
    making the requested conversation (or the one named [fresh]) current,
    otherwise they throw. *)
Inductive ConversationCall : Type :=
  | CallInitialize (conversationId : option string)
  | CallGetConversationId
  | CallGetModelContext
  | CallUserMessage (message : string)
  | CallAgentResponse (response : string)
  | CallModelPreference (model : string)
  | CallDocuments (call : ServiceCall).

Record Scripted : Type := mkScripted {
  current : option string;
  model : option MCPContext;
  reachable : bool;
  heard : list ConversationCall
}.

Definition unreachable : exn := Error "unreachable".

(** Record [call]; answer [a] with the state changed by [f], or throw. *)
Definition scripted {A} (call : ConversationCall) (a : Scripted → A)
    (f : Scripted → Scripted) : M Scripted A :=
  λ s, let s' := mkScripted (current s) (model s) (reachable s) (heard s ++ [call]) in
       if reachable s then (Ok (a s'), f s') else (Throw unreachable, s').

Definition scripted_documents : ContextService.Interface Scripted := {|
  ContextService.new metisActive0 := mkScripted None None true [];
  ContextService.addDocumentToContext i n t c :=
    scripted (CallDocuments (CallAdd i n t c)) (λ _, tt) (λ s, s);
  ContextService.removeDocumentFromContext i :=
    scripted (CallDocuments (CallRemove i)) (λ _, true) (λ s, s);
  ContextService.refreshContextFromStorage :=
    scripted (CallDocuments CallRefresh) (λ _, true) (λ s, s);
  ContextService.setMetisActive active s :=
    mkScripted (current s) (model s) (reachable s)
               (heard s ++ [CallDocuments (CallSetMetisActive active)])
|}.

Definition scripted_conversation : ContextService.Conversation Scripted := {|
  ContextService.initializeContext conversationId :=
    scripted (CallInitialize conversationId) (λ _, or_else conversationId "fresh")
             (λ s, mkScripted (Some (or_else conversationId "fresh")) (model s)
                              (reachable s) (heard s));
  ContextService.getConversationId := scripted CallGetConversationId current (λ s, s);
  ContextService.getModelContext := scripted CallGetModelContext model (λ s, s);
  ContextService.addUserMessage message := scripted (CallUserMessage message) (λ _, tt) (λ s, s);
  ContextService.addAgentResponse response :=
    scripted (CallAgentResponse response) (λ _, tt) (λ s, s);
  ContextService.setModelPreference model0 :=
    scripted (CallModelPreference model0) (λ _, tt) (λ s, s)
|}.

(** ** Sample data *)

Module Sample.

(** [s.repeat(n)] *)
Fixpoint repeat_string (s : string) (n : nat) : string :=
  match n with
  | 0 => ""
  | S n' => s +:+ repeat_string s n'
  end.

(** 450 characters of text. *)
Definition pangrams : string :=
  repeat_string "The quick brown fox jumps over the lazy dog. " 10.

Definition notes : DocumentContextEntry := mkDoc "d1" "notes.txt" "plain" pangrams.

(** A conversation with one document, well within the default ceiling. *)
Definition conversation : MCPContext :=
  mkContext "c1" (Some [notes]) [UserMessage "hi"] None false.

(** A conversation whose one document has a name of 344 characters: its
    metadata alone is larger than the context without documents. *)
Definition report : DocumentContextEntry :=
  mkDoc "d7" (repeat_string "quarterly-report-" 20 +:+ ".txt") "plain" pangrams.
Definition archive : MCPContext :=
  mkContext "c7" (Some [report]) [UserMessage "hi"] None false.

(** Documents of four and of five characters, for a ceiling of four. *)
Definition exact : DocumentContextEntry := mkDoc "d4" "four.txt" "plain" "abcd".
Definition over : DocumentContextEntry := mkDoc "d5" "five.txt" "plain" "abcde".
Definition boundary : MCPContext :=
  mkContext "c2" (Some [exact; over]) [] None false.

(** The services with their default options, in a browser. *)
Definition truncating : Truncating.LocalStorageService :=
  Truncating.new (mkStorageOptions false None None) true.
Definition chunking : Chunking.LocalStorageService :=
  Chunking.new (mkStorageOptions false None None) true.

(** The truncating service with a ceiling of four characters. *)
Definition truncating4 : Truncating.LocalStorageService :=
  Truncating.new (mkStorageOptions false None (Some 4)) true.

(** The chunking service with a ceiling of four characters: a content of
    three characters or more is stored under a key of its own. *)
Definition chunking4 : Chunking.LocalStorageService :=
  Chunking.new (mkStorageOptions false None (Some 4)) true.

(** An empty [localStorage] with room for [quota] characters, and a silent
    console. *)
Definition fresh (quota : nat) : World LocalStorage :=
  mkWorld (mkLocalStorage ∅ quota) [].

End Sample.

(** ** Vocabulary of the properties *)

Section Vocabulary.
Context {St : Type} {backend : Storage St}.

(** A computation that returns [a] and touches the console only. *)
Definition quiet {A} (m : M (World St) A) (a : A) : Prop :=
  ∀ w, ∃ out, m w = (Ok a, mkWorld (store w) (console w ++ out)).

(** The same at one world. *)
Definition quiet_at {A} (w : World St) (m : M (World St) A) (a : A) : Prop :=
  ∃ out, m w = (Ok a, mkWorld (store w) (console w ++ out)).

(** A computation that leaves the value under [k] as it was, however it
    ends. *)
Definition frames {A} (k : string) (m : M (World St) A) : Prop :=
  ∀ w r w', m w = (r, w') → getItem (store w') k = getItem (store w) k.

End Vocabulary.

Section Observations.
Context {St : Type} {backend : Storage St}.

(** A computation that, however it ends, touches the console only. *)
Definition silent {A} (m : M (World St) A) : Prop :=
  ∀ w, ∃ r out, m w = (r, mkWorld (store w) (console w ++ out)).

(** A computation that never brings back a value that was absent. *)
Definition only_removes {A} (m : M (World St) A) : Prop :=
  ∀ w r w' k, m w = (r, w') → getItem (store w) k = None → getItem (store w') k = None.

End Observations.

(** A method of the context client that leaves the flag [initialized] as
    it is, however it ends. *)
Definition leaves_initialized {CS A}
    (m : M (Page (MCPContextClient.MCPContextClient CS)) A) : Prop :=
  ∀ p, MCPContextClient.initialized (self (snd (m p)))
       = MCPContextClient.initialized (self p).

(** A method that sets the flag when it returns and leaves it as it is when
    it throws. *)
Definition sets_initialized {CS A}
    (m : M (Page (MCPContextClient.MCPContextClient CS)) A) : Prop :=
  ∀ p, MCPContextClient.initialized (self (snd (m p)))
       = match fst (m p) with
         | Ok _ => true
         | Throw _ => MCPContextClient.initialized (self p)
         end.

(** A call of one of the static methods of [FileWatcher] that change the
    listener registry. *)
Inductive WatcherCall : Type :=
  | AddListener (fileId : string) (listener : nat)
  | RemoveListener (fileId : string) (listener : nat).

Definition watcher_call (r : FileWatcher.Registry) (call : WatcherCall)
    : FileWatcher.Registry :=
  match call with
  | AddListener fileId listener => FileWatcher.addListener fileId listener r
  | RemoveListener fileId listener => FileWatcher.removeListener fileId listener r
  end.

(** The listeners registered for [fileId], in the order they were added. *)
Definition registered (fileId : string) (r : FileWatcher.Registry) : list nat :=
  omap id (default [] (FileWatcher.listeners r !! fileId)).



(** With [meddler], listener 1 removes listener 2 and adds listener 4 for
    [a.txt]; the others return. *)
Definition meddler (listener : nat) : M FileWatcher.Registry unit :=
  if Nat.eqb listener 1 then
    modify (λ r, FileWatcher.addListener "a.txt" 4 (FileWatcher.removeListener "a.txt" 2 r))
  else ret tt.

(** With [returner], a listener removes itself for [a.txt] and adds itself
    again. *)
Definition returner (listener : nat) : M FileWatcher.Registry unit :=
  modify (λ r, FileWatcher.addListener "a.txt" listener
                 (FileWatcher.removeListener "a.txt" listener r)).

(** Listeners 1, 2 and 3, added for [a.txt] in this order. *)
Definition three_listeners : FileWatcher.Registry :=
  foldl watcher_call FileWatcher.registry_init
    [AddListener "a.txt" 1; AddListener "a.txt" 2; AddListener "a.txt" 3].

(** The line that opens the fallback of the truncating service. *)
Definition quota_warning : line :=
  (WARN, "Storage quota exceeded. Attempting to save with reduced document content...").

(** The error the clients throw for a missing or empty content. *)
Definition empty_content_error (documentName : string) : exn :=
  Error ("Cannot add document " +:+ documentName +:+ ": Content is empty").

(** The two lines every rejected [addDocumentToContext] leaves on the
    console. *)
Definition rejected_lines (documentId documentName : string) : list line :=
  [(LOG, "Adding document to context: " +:+ documentName +:+ " (" +:+ documentId +:+ ")");
   (ERROR, "Failed to add document " +:+ documentName +:+ " to context:")].

(** The event [notifyDocumentContextChange] dispatches at time [t]. *)
Definition update_event (t : nat) : CustomEvent :=
  mkEvent FileWatcher.documentContextUpdated [("timestamp", JNumber t)].

(** The window after [notifyDocumentContextChange] at time [t]. *)
Definition notified (t : nat) (win : option Window) : option Window :=
  dispatchEvent (update_event t) <$> win.




(** The text [loadContext] looks for, and the line it writes where it finds
    it. *)
Definition truncation_text : string := "[CONTENT TRUNCATED DUE TO SIZE LIMITATIONS]".

Definition truncation_flag (doc : DocumentContextEntry) : line :=
  (WARN, "Document " +:+ documentName doc
         +:+ " was previously truncated due to size limitations").

(** A line of the report on the documents: of level LOG, or the flag of a
    document whose content includes the text. *)
Definition report_line (docs : list DocumentContextEntry) (l : line) : Prop :=
  l.1 = LOG
  ∨ ∃ doc, doc ∈ docs
           ∧ includes truncation_text (content doc) = true
           ∧ l = truncation_flag doc.

(** * Properties *)

(** ** Running computations *)

Lemma bind_Ok {W A B} (m : M W A) (k : A → M W B) w a w' :
  m w = (Ok a, w') → bind m k w = k a w'.
Proof. unfold bind. intros ->. reflexivity. Qed.


Lemma try_catch_Ok {W A} (m : M W A) h w a w' :
  m w = (Ok a, w') → try_catch m h w = (Ok a, w').
Proof. unfold try_catch. intros ->. reflexivity. Qed.

Lemma try_catch_Throw {W A} (m : M W A) h w e w' :
  m w = (Throw e, w') → try_catch m h w = h e w'.
Proof. unfold try_catch. intros ->. reflexivity. Qed.

Lemma bind_Ok_inv {W A B} (m : M W A) (k : A → M W B) w b w' :
  bind m k w = (Ok b, w') → ∃ a w1, m w = (Ok a, w1) ∧ k a w1 = (Ok b, w').
Proof.
  unfold bind. destruct (m w) as [[a|e] w1]; [|discriminate].
  intros H. now exists a, w1.
Qed.

Lemma bind_Throw_inv {W A B} (m : M W A) (k : A → M W B) w e w' :
  bind m k w = (Throw e, w') →
  m w = (Throw e, w') ∨ ∃ a w1, m w = (Ok a, w1) ∧ k a w1 = (Throw e, w').
Proof.
  unfold bind. destruct (m w) as [[a|e1] w1].
  - intros H. right. now exists a, w1.
  - intros [= <- <-]. now left.
Qed.

Lemma ret_inv {W A} (a b : A) (w w' : W) : ret a w = (Ok b, w') → a = b ∧ w = w'.
Proof. unfold ret. now intros [= <- <-]. Qed.

Lemma storage_setItem_Ok_inv {St} {backend : Storage St} key value (w w' : World St) :
  storage_setItem key value w = (Ok tt, w') →
  ∃ s', setItem (store w) key value = inr s' ∧ w' = mkWorld s' (console w).
Proof.
  unfold storage_setItem. destruct (setItem _ _ _) as [e|s']; [discriminate|].
  intros [= <-]. now exists s'.
Qed.

Lemma storage_setItem_Throw_inv {St} {backend : Storage St} key value (w w' : World St) e :
  storage_setItem key value w = (Throw e, w') →
  setItem (store w) key value = inl e ∧ w' = w.
Proof.
  unfold storage_setItem. destruct (setItem _ _ _) as [e'|s']; [|discriminate].
  now intros [= <- <-].
Qed.

Lemma console_write_run {St} l msg (w : World St) :
  console_write l msg w = (Ok tt, mkWorld (store w) (console w ++ [(l, msg)])).
Proof. reflexivity. Qed.

Ltac run :=
  repeat (unfold bind, ret, throw, try_catch, modify, console_write, storage_getItem,
            storage_setItem, storage_removeItem, JSON_parse; simpl).

(** ** Strings *)

Lemma length_append (a b : string) :
  String.length (a +:+ b) = String.length a + String.length b.
Proof. induction a as [|c a IH]; simpl; [reflexivity | now rewrite IH]. Qed.

Lemma length_substring0 (n : nat) (s : string) :
  n ≤ String.length s → String.length (substring0 n s) = n.
Proof.
  unfold substring0. revert s.
  induction n as [|n IH]; intros [|c s] Hn; simpl in *; try lia; try reflexivity.
  rewrite IH; lia.
Qed.


Lemma append_ne_self (a b : string) : b ≠ "" → a +:+ b ≠ a.
Proof.
  intros Hb Heq. apply (f_equal String.length) in Heq.
  rewrite length_append in Heq. destruct b; [congruence | simpl in Heq; lia].
Qed.

Lemma truthy_length (s : string) : truthy s = true ↔ 0 < String.length s.
Proof. destruct s; simpl; split; intros; try lia; congruence. Qed.

Lemma prefix_append (a b : string) : String.prefix a (a +:+ b) = true.
Proof.
  apply String.prefix_correct. revert b.
  induction a as [|c a IH]; intros b; simpl.
  - now destruct b.
  - now rewrite IH.
Qed.

Lemma index0_prefix (a s : string) : String.prefix a s = true → String.index 0 a s = Some 0.
Proof.
  intros H. destruct s as [|c s]; cbn [String.index].
  - destruct a; [reflexivity | discriminate].
  - now rewrite H.
Qed.

Lemma substring_skip (a b : string) :
  String.substring (String.length a) (String.length b) (a +:+ b) = b.
Proof.
  induction a as [|c a IH]; simpl.
  - induction b as [|c b IH]; simpl; [reflexivity | now f_equal].
  - apply IH.
Qed.

Lemma replace_first_empty_prefix (pat rest : string) :
  replace_first_empty pat (pat +:+ rest) = rest.
Proof.
  unfold replace_first_empty. rewrite (index0_prefix _ _ (prefix_append pat rest)).
  cbn [String.substring Nat.add]. rewrite length_append.
  replace (String.length pat + String.length rest - String.length pat)
    with (String.length rest) by lia.
  rewrite substring_skip. now destruct (pat +:+ rest).
Qed.



Lemma substring0_append (a b : string) : substring0 (String.length a) (a +:+ b) = a.
Proof.
  unfold substring0. induction a as [|c a IH]; simpl.
  - now destruct b.
  - now rewrite IH.
Qed.

Lemma append_assoc (a b c : string) : (a +:+ b) +:+ c = a +:+ (b +:+ c).
Proof.
  induction a as [|x a IH]; [reflexivity|].
  change (String x ((a +:+ b) +:+ c) = String x (a +:+ (b +:+ c))). now rewrite IH.
Qed.

Lemma append_nil_r (a : string) : a +:+ "" = a.
Proof.
  induction a as [|x a IH]; [reflexivity|].
  change (String x (a +:+ "") = String x a). now rewrite IH.
Qed.

Lemma substring_append_skip (a c : string) (n : nat) :
  String.substring (String.length a) n (a +:+ c) = String.substring 0 n c.
Proof. induction a as [|x a IH]; [reflexivity | exact IH]. Qed.

Lemma includes_append (pat a b : string) :
  pat ≠ "" → includes pat (a +:+ pat +:+ b) = true.
Proof.
  intros Hpat. unfold includes.
  destruct (String.index 0 pat (a +:+ pat +:+ b)) eqn:Hindex; [reflexivity|].
  exfalso. apply (String.index_correct3 0 (String.length a) _ _ Hindex Hpat); [lia|].
  rewrite substring_append_skip. apply substring0_append.
Qed.

(** ** The concrete collaborators obey the laws *)

Module WireLaws.
Import Wire.

Lemma one_ne_zero : one ≠ zero.
Proof. discriminate. Qed.

Lemma dec_enc_nat n rest : dec_nat (enc_nat n rest) = Some (n, rest).
Proof.
  induction n as [|n IH]; cbn [enc_nat dec_nat].
  - now rewrite decide_True.
  - rewrite decide_False by apply one_ne_zero.
    rewrite decide_True by reflexivity. now rewrite IH.
Qed.

Lemma take_append s rest : take (String.length s) (s +:+ rest) = Some (s, rest).
Proof. induction s as [|c s IH]; simpl; [reflexivity | now rewrite IH]. Qed.

Lemma dec_enc_string s rest : dec_string (enc_string s rest) = Some (s, rest).
Proof. unfold dec_string, enc_string. rewrite dec_enc_nat. apply take_append. Qed.

Lemma dec_enc_bool b rest : dec_bool (enc_bool b rest) = Some (b, rest).
Proof.
  destruct b; cbn [enc_bool dec_bool].
  - now rewrite decide_True.
  - rewrite decide_False by (intros H; symmetry in H; revert H; apply one_ne_zero).
    now rewrite decide_True.
Qed.

Section Combinators.
Context {A : Type} (enc : A → string → string) (dec : string → option (A * string)).
Hypothesis dec_enc : ∀ a rest, dec (enc a rest) = Some (a, rest).

Lemma dec_enc_option o rest : dec_option dec (enc_option enc o rest) = Some (o, rest).
Proof.
  destruct o as [a|]; unfold dec_option, enc_option; rewrite dec_enc_bool.
  - now rewrite dec_enc.
  - reflexivity.
Qed.

Lemma dec_enc_items l rest : dec_items dec (length l) (foldr enc rest l) = Some (l, rest).
Proof.
  induction l as [|a l IH]; simpl; [reflexivity|].
  now rewrite dec_enc, IH.
Qed.

Lemma dec_enc_list l rest : dec_list dec (enc_list enc l rest) = Some (l, rest).
Proof. unfold dec_list, enc_list. rewrite dec_enc_nat. apply dec_enc_items. Qed.
End Combinators.

Lemma dec_enc_doc d rest : dec_doc (enc_doc d rest) = Some (d, rest).
Proof.
  unfold dec_doc, enc_doc. rewrite !dec_enc_string. now destruct d.
Qed.

Lemma dec_enc_entry e rest : dec_entry (enc_entry e rest) = Some (e, rest).
Proof.
  destruct e; unfold dec_entry, enc_entry; now rewrite dec_enc_bool, dec_enc_string.
Qed.

Lemma decode_encode c : decode (encode c) = Some c.
Proof.
  unfold decode, encode.
  rewrite dec_enc_string.
  rewrite (dec_enc_option _ _ (dec_enc_list _ _ dec_enc_doc)).
  rewrite (dec_enc_list _ _ dec_enc_entry).
  rewrite (dec_enc_option _ _ dec_enc_string).
  rewrite dec_enc_bool. now destruct c.
Qed.

End WireLaws.

Global Instance wire_laws : CodecLaws Wire.codec.
Proof.
  constructor.
  - apply WireLaws.decode_encode.
  - intros c. simpl. unfold Wire.encode, Wire.enc_string.
    now destruct (String.length (conversationId c)).
Qed.

Global Instance localStorage_laws : StorageLaws localStorage.
Proof.
  constructor; simpl.
  - intros s s' k v. case_decide; [|discriminate].
    intros [= <-]; simpl. apply lookup_insert_eq.
  - intros s s' k k' v. case_decide; [|discriminate].
    intros [= <-] Hne; simpl. now apply lookup_insert_ne.
  - intros s s' k [= <-]; simpl. apply lookup_delete_eq.
  - intros s s' k k' [= <-] Hne; simpl. now apply lookup_delete_ne.
Qed.

(** ** The truncating storage service *)

Section TruncatingFacts.
Context {St : Type} {backend : Storage St} {codec : Codec}.
Variable this : Truncating.LocalStorageService.

Import Truncating.

Lemma quiet_ret {A} (a : A) : quiet (St := St) (ret a) a.
Proof. intros w. exists []. unfold ret. rewrite app_nil_r. now destruct w. Qed.

Lemma quiet_console_write l msg : quiet (St := St) (console_write l msg) tt.
Proof. intros w. exists [(l, msg)]. reflexivity. Qed.

Lemma quiet_bind {A B} (m : M (World St) A) (k : A → M (World St) B) a b :
  quiet m a → quiet (k a) b → quiet (bind m k) b.
Proof.
  intros Hm Hk w. destruct (Hm w) as [o1 H1].
  destruct (Hk (mkWorld (store w) (console w ++ o1))) as [o2 H2].
  exists (o1 ++ o2). rewrite (bind_Ok _ _ _ _ _ H1), H2. simpl. now rewrite app_assoc.
Qed.

Lemma prepareDocument_quiet doc :
  quiet (St := St) (prepareDocument this doc) (prepared this doc).
Proof.
  unfold prepareDocument, prepared.
  destruct (negb (truthy (content doc))).
  - eapply quiet_bind; [apply quiet_console_write | apply quiet_ret].
  - destruct (Nat.ltb _ _).
    + eapply quiet_bind; [apply quiet_console_write | apply quiet_ret].
    + apply quiet_ret.
Qed.

Lemma mapM_quiet {A B} (f : A → M (World St) B) (g : A → B) l :
  (∀ a, quiet (f a) (g a)) → quiet (mapM f l) (map g l).
Proof.
  intros Hf. induction l as [|a l IH]; simpl.
  - apply quiet_ret.
  - eapply quiet_bind; [apply Hf|].
    eapply quiet_bind; [apply IH | apply quiet_ret].
Qed.

Lemma prepareContextForStorage_quiet `{!CodecLaws codec} context :
  quiet (St := St) (prepareContextForStorage this context) (preparedContext this context).
Proof.
  unfold prepareContextForStorage, preparedContext, JSON_parse.
  rewrite parse_stringify.
  eapply quiet_bind; [apply quiet_ret|].
  destruct (documentContext context) as [docs|].
  - eapply quiet_bind; [apply mapM_quiet, prepareDocument_quiet | apply quiet_ret].
  - apply quiet_ret.
Qed.

(** Within the ceiling nothing is rewritten. *)
Lemma prepared_small doc :
  truthy (content doc) = true →
  String.length (content doc) ≤ maxDocumentSize this →
  prepared this doc = doc.
Proof.
  intros Ht Hlen. unfold prepared. rewrite Ht. simpl.
  destruct (Nat.ltb_spec (maxDocumentSize this) (String.length (content doc))); [lia | reflexivity].
Qed.

Lemma prepared_large doc :
  maxDocumentSize this < String.length (content doc) →
  prepared this doc =
    with_content doc (substring0 (maxDocumentSize this) (content doc) +:+ truncation_marker).
Proof.
  intros Hlen. unfold prepared.
  assert (truthy (content doc) = true) as -> by (apply truthy_length; lia). simpl.
  destruct (Nat.ltb_spec (maxDocumentSize this) (String.length (content doc))); [reflexivity | lia].
Qed.

Lemma checkContentLengths_spec originalDocs savedDocs flag (w : World St) :
  ∃ out,
    checkContentLengths originalDocs savedDocs flag w
      = (Ok (flag || content_loss originalDocs savedDocs),
         mkWorld (store w) (console w ++ out))
    ∧ (ERROR, content_loss_message) ∉ out.
Proof.
  revert flag w. induction savedDocs as [|doc rest IH]; intros flag w.
  - exists []. simpl. unfold ret. rewrite orb_false_r, app_nil_r.
    split; [now destruct w | apply not_elem_of_nil].
  - cbn [checkContentLengths content_loss existsb]. unfold length_mismatch.
    destruct (find _ originalDocs) as [originalDoc|].
    + destruct (Nat.eqb _ _); cbn [negb].
      * destruct (IH flag w) as (out & -> & Hout). exists out. split; [reflexivity | assumption].
      * unfold bind at 1, console_write, modify. cbn [fst snd].
        destruct (IH true (mkWorld (store w)
          (console w ++ [(ERROR, "Content length mismatch for document " +:+ documentName doc
             +:+ ". Original: " +:+ pretty (String.length (content originalDoc))
             +:+ ", Saved: " +:+ pretty (String.length (content doc)))])))
          as (out & -> & Hout).
        eexists (_ :: out). cbn [store console]. rewrite <- app_assoc. cbn [app].
        rewrite orb_true_r. split; [reflexivity|].
        apply not_elem_of_cons. split; [|assumption].
        unfold content_loss_message. intros [= H]. 
    + destruct (IH flag w) as (out & -> & Hout). exists out. split; [reflexivity | assumption].
Qed.

Lemma world_eta (w : World St) : mkWorld (store w) (console w) = w.
Proof. now destruct w. Qed.

(** The read-back never writes, and what it throws is not a quota error. *)
Lemma verifyStoredContext_safe key originalContext (w : World St) :
  ∃ r out,
    verifyStoredContext key originalContext w = (r, mkWorld (store w) (console w ++ out))
    ∧ ∀ e, r = Throw e → isQuotaExceeded e = false.
Proof.
  unfold verifyStoredContext, storage_getItem, JSON_parse, bind at 1.
  destruct (truthy_opt (getItem (store w) key)); cbn [negb].
  2:{ exists (Throw (Error ("Context was not saved properly: storage key " +:+ key +:+ " not found"))), [].
      unfold throw. rewrite app_nil_r, world_eta. split; [reflexivity|]. now intros e [= <-]. }
  destruct (parse (default "" (getItem (store w) key))) as [savedContext|].
  2:{ exists (Throw SyntaxError), []. unfold bind, throw.
      rewrite app_nil_r, world_eta. split; [reflexivity|]. now intros e [= <-]. }
  unfold bind at 1, ret at 1.
  destruct (documentContext savedContext) as [savedDocs|],
           (documentContext originalContext) as [originalDocs|];
    try (exists (Ok tt), []; unfold ret; rewrite app_nil_r, world_eta;
         split; [reflexivity | discriminate]).
  cbv zeta. destruct (Nat.eqb _ _); cbn [negb].
  - unfold bind at 1, console_write at 1, modify. cbn [fst snd store console].
    unfold bind.
    destruct (checkContentLengths_spec originalDocs savedDocs false
                (mkWorld (store w) (console w ++
                   [(LOG, "Successfully saved context with " +:+ pretty (length savedDocs)
                          +:+ " documents")]))) as (out & -> & _).
    cbn [store console orb]. destruct (content_loss originalDocs savedDocs).
    + eexists (Ok tt), _. unfold console_write, modify. cbn [store console].
      rewrite <- !app_assoc. split; [reflexivity | discriminate].
    + eexists (Ok tt), _. unfold ret. rewrite <- !app_assoc. split; [reflexivity | discriminate].
  - eexists (Ok tt), _. unfold console_write, modify. split; [reflexivity | discriminate].
Qed.

(** What the read-back reports when the stored value parses to a context
    with a document list. *)
Lemma verifyStoredContext_compare key originalContext (w : World St)
    item savedContext savedDocs originalDocs :
  getItem (store w) key = Some item → truthy item = true →
  parse item = Some savedContext →
  documentContext savedContext = Some savedDocs →
  documentContext originalContext = Some originalDocs →
  ∃ out,
    verifyStoredContext key originalContext w = (Ok tt, mkWorld (store w) (console w ++ out))
    ∧ (length originalDocs ≠ length savedDocs →
       out = [(ERROR, count_mismatch_message (length originalDocs) (length savedDocs))])
    ∧ (length originalDocs = length savedDocs →
       ((ERROR, content_loss_message) ∈ out ↔ content_loss originalDocs savedDocs = true)).
Proof.
  intros Hget Htruthy Hparse Hsaved Horig.
  unfold verifyStoredContext, storage_getItem, JSON_parse, bind at 1.
  rewrite Hget. cbn [truthy_opt default id]. rewrite Htruthy, Hparse. cbn [negb].
  unfold bind at 1, ret at 1. rewrite Hsaved, Horig. cbv zeta.
  destruct (Nat.eqb_spec (length originalDocs) (length savedDocs)) as [Heq|Hne]; cbn [negb].
  - unfold bind at 1, console_write at 1, modify. cbn [fst snd store console].
    unfold bind.
    destruct (checkContentLengths_spec originalDocs savedDocs false
                (mkWorld (store w) (console w ++
                   [(LOG, "Successfully saved context with " +:+ pretty (length savedDocs)
                          +:+ " documents")]))) as (out & -> & Hout).
    cbn [store console orb]. destruct (content_loss originalDocs savedDocs).
    + eexists. unfold console_write, modify. cbn [store console].
      rewrite <- !app_assoc. split; [reflexivity|]. split; [intros; contradiction|].
      intros _. split; [reflexivity|]. intros _.
      apply elem_of_app. right. apply elem_of_app. right. apply list_elem_of_singleton. reflexivity.
    + eexists. unfold ret. rewrite <- !app_assoc. split; [reflexivity|].
      split; [intros; contradiction|]. intros _. split; [|discriminate].
      intros Hin. exfalso. apply elem_of_app in Hin as [Hin|Hin]; [|contradiction].
      apply list_elem_of_singleton in Hin. discriminate.
  - eexists. unfold console_write, modify. split; [reflexivity|].
    split; [reflexivity | intros; contradiction].
Qed.

Lemma handleStorageError_other conversationId context error (w : World St) :
  isQuotaExceeded error = false →
  handleStorageError this conversationId context error w = (Ok tt, w).
Proof. intros H. unfold handleStorageError. now rewrite H. Qed.

(** The fallback never throws. *)
Lemma handleStorageError_returns conversationId context error (w : World St) :
  fst (handleStorageError this conversationId context error w) = Ok tt.
Proof.
  unfold handleStorageError. destruct (isQuotaExceeded error); [|reflexivity].
  run. destruct (setItem _ _ _); [|reflexivity]. simpl.
  destruct (setItem _ _ _); reflexivity.
Qed.

(** [saveContext] returns to its caller whatever happens. *)
Lemma saveContext_returns conversationId context (w : World St) :
  fst (saveContext this conversationId context w) = Ok tt.
Proof.
  unfold saveContext. destruct (storage this); [|reflexivity]. cbn [negb].
  unfold try_catch.
  match goal with |- context [match ?m w with _ => _ end] => destruct (m w) as [[[]|e] w'] end;
    [reflexivity|].
  unfold bind at 1, console_write, modify. cbn [fst snd].
  apply handleStorageError_returns.
Qed.

Lemma quiet_quiet_at {A} (m : M (World St) A) a w : quiet m a → quiet_at w m a.
Proof. intros H. apply H. Qed.

Lemma quiet_at_bind {A B} w (m : M (World St) A) (k : A → M (World St) B) a b :
  quiet_at w m a →
  (∀ out, quiet_at (mkWorld (store w) (console w ++ out)) (k a) b) →
  quiet_at w (bind m k) b.
Proof.
  intros [o1 H1] Hk. destruct (Hk o1) as [o2 H2].
  exists (o1 ++ o2). rewrite (bind_Ok _ _ _ _ _ H1), H2. simpl. now rewrite app_assoc.
Qed.

Lemma quiet_at_try_catch {A} w (m : M (World St) A) h a :
  quiet_at w m a → quiet_at w (try_catch m h) a.
Proof. intros [o H]. exists o. now rewrite (try_catch_Ok _ _ _ _ _ H). Qed.

Lemma quiet_at_getItem w key : quiet_at w (storage_getItem key) (getItem (store w) key).
Proof. exists []. unfold storage_getItem. now rewrite app_nil_r, world_eta. Qed.

Lemma reportDocuments_quiet i docs : quiet (St := St) (reportDocuments i docs) tt.
Proof.
  revert i. induction docs as [|doc rest IH]; intros i; simpl.
  - apply quiet_ret.
  - eapply quiet_bind; [|apply IH].
    unfold reportDocument. eapply quiet_bind; [apply quiet_console_write|].
    destruct (_ && _); [apply quiet_console_write | apply quiet_ret].
Qed.

(** Loading a key that holds a serialized context gives that context. *)
Lemma loadContext_stored `{!CodecLaws codec} conversationId context (w : World St) :
  storage this = true →
  getItem (store w) (storage_key this conversationId) = Some (stringify context) →
  quiet_at w (loadContext this conversationId) (Some context).
Proof.
  intros Hst Hget. unfold loadContext. rewrite Hst. cbn [negb].
  apply quiet_at_try_catch. cbv zeta.
  eapply quiet_at_bind; [apply quiet_at_getItem|]. intros o1. cbn [store].
  rewrite Hget. cbn [truthy_opt default id]. rewrite stringify_truthy. cbn [negb].
  unfold JSON_parse. rewrite parse_stringify.
  eapply quiet_at_bind; [apply quiet_quiet_at, quiet_ret|]. intros o2.
  apply quiet_quiet_at.
  destruct (documentContext context) as [[|doc docs]|].
  - eapply quiet_bind; [apply quiet_console_write | apply quiet_ret].
  - eapply quiet_bind; [apply quiet_console_write|].
    eapply quiet_bind.
    { destruct (Nat.ltb _ _); [apply quiet_console_write | apply quiet_ret]. }
    eapply quiet_bind; [apply reportDocuments_quiet | apply quiet_ret].
  - eapply quiet_bind; [apply quiet_console_write | apply quiet_ret].
Qed.

(** Loading a key that holds nothing gives [null]. *)
Lemma loadContext_absent conversationId (w : World St) :
  getItem (store w) (storage_key this conversationId) = None →
  quiet_at w (loadContext this conversationId) None.
Proof.
  intros Hget. unfold loadContext. destruct (storage this); cbn [negb].
  - apply quiet_at_try_catch. cbv zeta.
    eapply quiet_at_bind; [apply quiet_at_getItem|]. intros o1. cbn [store].
    rewrite Hget. cbn [truthy_opt negb]. apply quiet_quiet_at.
    eapply quiet_bind; [apply quiet_console_write | apply quiet_ret].
  - apply quiet_quiet_at. eapply quiet_bind; [apply quiet_console_write | apply quiet_ret].
Qed.

(** The first write of [saveContext] carries [payload], and when the
    backend takes it nothing else is written. *)
Lemma saveContext_accepted `{!CodecLaws codec} conversationId context (w : World St) s' :
  storage this = true →
  setItem (store w) (storage_key this conversationId) (stringify (payload this context))
    = inr s' →
  ∃ out, saveContext this conversationId context w = (Ok tt, mkWorld s' (console w ++ out)).
Proof.
  intros Hst Hset. unfold saveContext. rewrite Hst. cbn [negb]. cbv zeta.
  unfold payload in Hset.
  destruct (documentContext context) as [[|doc docs]|] eqn:Hdocs.
  - unfold try_catch, bind, storage_setItem, console_write, modify.
    rewrite Hset. cbn [fst snd store console]. eexists. reflexivity.
  - destruct (prepareContextForStorage_quiet context w) as [o1 H1].
    unfold try_catch. rewrite (bind_Ok _ _ _ _ _ H1).
    unfold preparedContext at 1. rewrite Hdocs. cbn [documentContext with_documentContext].
    unfold bind at 1, console_write at 1, modify. cbn [fst snd store console].
    unfold bind at 1, storage_setItem. cbn [store console]. rewrite Hset.
    destruct (verifyStoredContext_safe (storage_key this conversationId)
                (preparedContext this context)
                (mkWorld s' ((console w ++ o1) ++ [(LOG, "Document sizes before storage:")])))
      as (r & o2 & -> & Hr).
    cbn [store console]. destruct r as [[]|e].
    + eexists. rewrite <- !app_assoc. reflexivity.
    + unfold bind at 1, console_write, modify. cbn [fst snd store console].
      rewrite handleStorageError_other by now apply Hr.
      eexists. rewrite <- !app_assoc. reflexivity.
  - unfold try_catch, bind, storage_setItem, console_write, modify.
    rewrite Hset. cbn [fst snd store console]. eexists. reflexivity.
Qed.

(** When the backend refuses the first write, only the fallback runs, on an
    unchanged store. *)
Lemma saveContext_refused `{!CodecLaws codec} conversationId context (w : World St) e :
  storage this = true →
  setItem (store w) (storage_key this conversationId) (stringify (payload this context))
    = inl e →
  ∃ out, saveContext this conversationId context w
         = handleStorageError this conversationId context e
             (mkWorld (store w) (console w ++ out)).
Proof.
  intros Hst Hset. unfold saveContext. rewrite Hst. cbn [negb]. cbv zeta.
  unfold payload in Hset.
  destruct (documentContext context) as [[|doc docs]|] eqn:Hdocs.
  - unfold try_catch, bind at 1 2, storage_setItem.
    rewrite Hset. unfold bind, console_write, modify. cbn [fst snd store console].
    eexists. reflexivity.
  - destruct (prepareContextForStorage_quiet context w) as [o1 H1].
    unfold try_catch. rewrite (bind_Ok _ _ _ _ _ H1).
    unfold preparedContext at 1. rewrite Hdocs. cbn [documentContext with_documentContext].
    unfold bind at 1, console_write at 1, modify. cbn [fst snd store console].
    unfold bind at 1, storage_setItem. cbn [store console]. rewrite Hset.
    unfold bind, console_write, modify. cbn [fst snd store console].
    eexists. rewrite <- !app_assoc. reflexivity.
  - unfold try_catch, bind at 1 2, storage_setItem.
    rewrite Hset. unfold bind, console_write, modify. cbn [fst snd store console].
    eexists. reflexivity.
Qed.


End TruncatingFacts.

(** ** The chunking storage service *)

Section ChunkingFacts.
Context {St : Type} {backend : Storage St} {codec : Codec}.
Variable this : Chunking.LocalStorageService.

Import Chunking.

Lemma document_key_ne_storage_key conversationId doc :
  document_key this conversationId doc ≠ storage_key this conversationId.
Proof.
  unfold document_key, storage_key. intros H.
  apply (inj (String.app (keyPrefix this))) in H.
  revert H. now apply append_ne_self.
Qed.

Lemma minimal_key_ne_storage_key conversationId :
  minimal_key this conversationId ≠ storage_key this conversationId.
Proof.
  unfold minimal_key, storage_key. intros H.
  apply (inj (String.app (keyPrefix this))) in H.
  revert H. now apply append_ne_self.
Qed.

Lemma document_key_inj conversationId d1 d2 :
  document_key this conversationId d1 = document_key this conversationId d2 →
  documentId d1 = documentId d2.
Proof.
  unfold document_key. intros H.
  apply (inj (String.app (keyPrefix this))) in H.
  apply (inj (String.app conversationId)) in H.
  now apply (inj (String.app "_doc_")) in H.
Qed.


Lemma with_documentContext_twice context d1 d2 :
  with_documentContext (with_documentContext context d1) d2 = with_documentContext context d2.
Proof. reflexivity. Qed.

(** A completed run of the loop that stores large documents: what it
    returns, which keys it leaves alone, and what the keys it wrote hold. *)
Lemma storeDocuments_run `{!StorageLaws backend} conversationId docs :
  ∀ (w w' : World St) docs',
  mapM (storeDocument this conversationId) docs w = (Ok docs', w') →
  docs' = map (stored this conversationId) docs
  ∧ (∀ k, (∀ d, d ∈ docs → is_large this d = true →
             document_key this conversationId d ≠ k) →
          getItem (store w') k = getItem (store w) k)
  ∧ (NoDup (documentId <$> docs) →
     ∀ d, d ∈ docs → is_large this d = true →
       getItem (store w') (document_key this conversationId d) = Some (content d)).
Proof.
  induction docs as [|doc rest IH]; intros w w' docs' Hrun.
  - simpl in Hrun. unfold ret in Hrun. injection Hrun as <- <-.
    split; [reflexivity|]. split; [reflexivity|].
    intros _ d Hd. now apply elem_of_nil in Hd.
  - cbn [mapM] in Hrun.
    apply bind_Ok_inv in Hrun as (doc' & w1 & Hdoc & Hrun).
    apply bind_Ok_inv in Hrun as (rest' & w2 & Hrest & Hrun).
    apply ret_inv in Hrun as [<- <-].
    destruct (IH _ _ _ Hrest) as (-> & Hframe & Hkeys).
    unfold storeDocument in Hdoc.
    assert (∀ b, is_large this doc = b →
              (if b then with_content doc (doc_ref +:+ document_key this conversationId doc)
               else doc) :: map (stored this conversationId) rest
              = map (stored this conversationId) (doc :: rest)) as Hmap.
    { intros b Hb. cbn [map]. f_equal. unfold stored. now rewrite Hb. }
    destruct (is_large this doc) eqn:Hlarge.
    + apply bind_Ok_inv in Hdoc as ([] & wa & Hset & Hdoc).
      apply storage_setItem_Ok_inv in Hset as (s1 & Hset & ->).
      apply bind_Ok_inv in Hdoc as ([] & wb & [= <-] & Hdoc).
      apply ret_inv in Hdoc as [<- <-]. cbn [store] in *.
      split; [now apply (Hmap true)|]. split.
      * intros k Hk. rewrite Hframe.
        -- eapply getItem_setItem_ne; [exact Hset|]. apply Hk; [left | assumption].
        -- intros d Hd. apply Hk. now right.
      * intros Hnodup d Hd Hlarge_d. cbn [fmap list_fmap] in Hnodup.
        apply NoDup_cons in Hnodup as [Hnotin Hnodup].
        apply elem_of_cons in Hd as [->|Hd].
        -- rewrite Hframe.
           ++ eapply getItem_setItem_eq. exact Hset.
           ++ intros d' Hd' _ Heq. apply Hnotin.
              apply document_key_inj in Heq. rewrite <- Heq.
              apply list_elem_of_fmap. now exists d'.
        -- now apply Hkeys.
    + apply ret_inv in Hdoc as [<- <-].
      split; [now apply (Hmap false)|]. split.
      * intros k Hk. apply Hframe. intros d Hd. apply Hk. now right.
      * intros Hnodup d Hd Hlarge_d. cbn [fmap list_fmap] in Hnodup.
        apply NoDup_cons in Hnodup as [Hnotin Hnodup].
        apply elem_of_cons in Hd as [->|Hd]; [congruence|].
        now apply Hkeys.
Qed.

Lemma frames_ret {A} k (a : A) : frames k (ret a).
Proof. intros w r w'. unfold ret. now intros [= <- <-]. Qed.


Lemma frames_console_write k l msg : frames k (console_write l msg).
Proof. intros w r w'. rewrite console_write_run. now intros [= <- <-]. Qed.


Lemma frames_setItem `{!StorageLaws backend} k key value :
  key ≠ k → frames k (storage_setItem key value).
Proof.
  intros Hne w r w'. unfold storage_setItem.
  destruct (setItem (store w) key value) as [e|s'] eqn:Hset; intros [= <- <-]; [reflexivity|].
  cbn [store]. eapply getItem_setItem_ne; eassumption.
Qed.

Lemma frames_bind {A B} k (m : M (World St) A) (f : A → M (World St) B) :
  frames k m → (∀ a, frames k (f a)) → frames k (bind m f).
Proof.
  intros Hm Hf w r w'. unfold bind.
  destruct (m w) as [[a|e] w1] eqn:H1.
  - intros H2. rewrite (Hf _ _ _ _ H2). eapply Hm, H1.
  - intros [= <- <-]. eapply Hm, H1.
Qed.

Lemma frames_try_catch {A} k (m : M (World St) A) h :
  frames k m → (∀ e, frames k (h e)) → frames k (try_catch m h).
Proof.
  intros Hm Hh w r w'. unfold try_catch.
  destruct (m w) as [[a|e] w1] eqn:H1.
  - intros [= <- <-]. eapply Hm, H1.
  - intros H2. rewrite (Hh _ _ _ _ H2). eapply Hm, H1.
Qed.

Lemma frames_mapM {A B} k (f : A → M (World St) B) l :
  (∀ a, a ∈ l → frames k (f a)) → frames k (mapM f l).
Proof.
  induction l as [|a l IH]; intros Hf; cbn [mapM].
  - apply frames_ret.
  - apply frames_bind; [apply Hf; left|]. intros b.
    apply frames_bind; [|intros; apply frames_ret].
    apply IH. intros a' Ha'. apply Hf. now right.
Qed.

Lemma storeDocument_frames `{!StorageLaws backend} conversationId doc :
  frames (storage_key this conversationId) (storeDocument this conversationId doc).
Proof.
  unfold storeDocument. destruct (is_large this doc); [|apply frames_ret].
  apply frames_bind; [apply frames_setItem, document_key_ne_storage_key|]. intros _.
  apply frames_bind; [apply frames_console_write | intros; apply frames_ret].
Qed.

(** A [try] block that throws has not written the main key. *)
Lemma saveContext_try_Throw `{!StorageLaws backend} conversationId context (w w' : World St) e :
  saveContext_try this conversationId context w = (Throw e, w') →
  getItem (store w') (storage_key this conversationId)
    = getItem (store w) (storage_key this conversationId).
Proof.
  unfold saveContext_try. cbv zeta.
  assert (∀ c (w1 w2 : World St),
            (storage_setItem (storage_key this conversationId) (stringify c) >>
             console_write LOG ("Context saved for conversation " +:+ conversationId
                                +:+ " with key " +:+ storage_key this conversationId)) w1
            = (Throw e, w2) → w2 = w1) as Hlast.
  { intros c w1 w2 H. apply bind_Throw_inv in H as [H|(a & w3 & _ & H)].
    - now apply storage_setItem_Throw_inv in H.
    - now rewrite console_write_run in H. }
  destruct (documentContext context) as [[|doc docs]|].
  - intros H. now rewrite (Hlast _ _ _ H).
  - intros H. apply bind_Throw_inv in H as [H|(copy & w1 & Hcopy & H)].
    + unfold JSON_parse in H. destruct (parse _); [discriminate|].
      unfold throw in H. now injection H as <- <-.
    + assert (w1 = w) as ->.
      { unfold JSON_parse in Hcopy. destruct (parse _); [|discriminate].
        now apply ret_inv in Hcopy. }
      destruct (documentContext copy) as [cdocs|].
      2:{ unfold throw in H. now injection H as <- <-. }
      apply bind_Throw_inv in H as [H|(docs' & w2 & Hdocs & H)].
      * eapply (frames_mapM _ _ cdocs); [|exact H].
        intros d _. apply storeDocument_frames.
      * rewrite (Hlast _ _ _ H).
        eapply (frames_mapM _ _ cdocs); [|exact Hdocs].
        intros d _. apply storeDocument_frames.
  - intros H. now rewrite (Hlast _ _ _ H).
Qed.

Lemma saveContext_catch_frames `{!StorageLaws backend} conversationId context e :
  frames (storage_key this conversationId) (saveContext_catch this conversationId context e).
Proof.
  unfold saveContext_catch.
  apply frames_bind; [apply frames_console_write|]. intros _.
  destruct (isQuotaExceeded e); [|apply frames_ret].
  apply frames_try_catch.
  - apply frames_bind; [apply frames_setItem, minimal_key_ne_storage_key|].
    intros _. apply frames_console_write.
  - intros _. apply frames_console_write.
Qed.

(** Loading a key that holds nothing gives [null]. *)
Lemma chunking_loadContext_absent conversationId (w : World St) :
  getItem (store w) (storage_key this conversationId) = None →
  ∃ out, loadContext this conversationId w = (Ok None, mkWorld (store w) (console w ++ out)).
Proof.
  intros Hget. unfold loadContext. destruct (storage this); cbn [negb].
  - unfold try_catch, bind at 1, storage_getItem. cbv zeta. rewrite Hget.
    cbn [truthy_opt negb]. unfold bind, ret. rewrite console_write_run. eexists. reflexivity.
  - unfold bind, ret. rewrite console_write_run. eexists. reflexivity.
Qed.

Lemma stored_large_content conversationId doc :
  is_large this doc = true →
  content (stored this conversationId doc) = doc_ref +:+ document_key this conversationId doc.
Proof. intros H. unfold stored. now rewrite H. Qed.




Lemma chunking_saveContext_Ok conversationId context (w w' : World St) :
  storage this = true →
  saveContext_try this conversationId context w = (Ok tt, w') →
  saveContext this conversationId context w = (Ok tt, w').
Proof.
  intros Hst Hrun. unfold saveContext. rewrite Hst. cbn [negb]. now apply try_catch_Ok.
Qed.

(** A [try] block that throws for quota is followed by one write, under
    the key with the suffix [_minimal]. *)
Lemma chunking_saveContext_refused conversationId context (w w1 : World St) e :
  storage this = true →
  isQuotaExceeded e = true →
  saveContext_try this conversationId context w = (Throw e, w1) →
  saveContext this conversationId context w
  = (Ok tt,
     match setItem (store w1) (minimal_key this conversationId)
             (stringify (minimalContext context)) with
     | inr s1 =>
         mkWorld s1 (console w1 ++
           [(ERROR, "LocalStorageService: Error saving context:");
            (WARN, "Saved minimal context without document content for "
                   +:+ conversationId)])
     | inl _ =>
         mkWorld (store w1) (console w1 ++
           [(ERROR, "LocalStorageService: Error saving context:");
            (ERROR, "LocalStorageService: Failed to save even minimal context:")])
     end).
Proof.
  intros Hst Hquota Hrun. unfold saveContext. rewrite Hst. cbn [negb].
  rewrite (try_catch_Throw _ _ _ _ _ Hrun).
  unfold saveContext_catch. unfold bind at 1. rewrite console_write_run.
  rewrite Hquota. unfold try_catch, bind, storage_setItem. cbn [store console].
  destruct (setItem (store w1) _ _);
    rewrite console_write_run; cbn [store console]; rewrite <- !app_assoc; reflexivity.
Qed.


End ChunkingFacts.

(** ** What [loadContext] returns *)

Section LoadFacts.
Context {St : Type} {backend : Storage St} {codec : Codec}.

(** The part of [loadContext] of the truncating service that follows the
    parse only reports. *)
Lemma truncating_report_quiet conversationId parsedContext :
  quiet (St := St)
    (match documentContext parsedContext with
     | Some ((_ :: _) as docs) =>
         console_write LOG
           ("Loaded context with " +:+ pretty (length docs)
            +:+ " documents for " +:+ conversationId) >>
         let emptyDocs := filter (λ doc, truthy (content doc) = false) docs in
         (if Nat.ltb 0 (length emptyDocs) then
            console_write WARN
              (pretty (length emptyDocs)
               +:+ " documents have empty content after loading:")
          else ret tt) >>
         Truncating.reportDocuments 0 docs >>
         ret (Some parsedContext)
     | _ =>
         console_write LOG
           ("Loaded context for " +:+ conversationId +:+ " without document context") >>
         ret (Some parsedContext)
     end)
    (Some parsedContext).
Proof.
  destruct (documentContext parsedContext) as [[|doc docs]|].
  - eapply quiet_bind; [apply quiet_console_write | apply quiet_ret].
  - eapply quiet_bind; [apply quiet_console_write|].
    eapply quiet_bind.
    { destruct (Nat.ltb _ _); [apply quiet_console_write | apply quiet_ret]. }
    eapply quiet_bind; [apply reportDocuments_quiet | apply quiet_ret].
  - eapply quiet_bind; [apply quiet_console_write | apply quiet_ret].
Qed.

Lemma truncating_loadContext_run (this : Truncating.LocalStorageService)
    (conversationId : string) (w : World St) :
  ∃ out,
    Truncating.loadContext this conversationId w
    = (Ok (if Truncating.storage this then
             match getItem (store w) (Truncating.storage_key this conversationId) with
             | Some item => if truthy item then parse item else None
             | None => None
             end
           else None),
       mkWorld (store w) (console w ++ out)).
Proof.
  unfold Truncating.loadContext.
  destruct (Truncating.storage this); cbn [negb].
  2:{ eexists. unfold bind, ret. rewrite console_write_run. reflexivity. }
  cbv zeta.
  destruct (getItem (store w) (Truncating.storage_key this conversationId)) as [item|] eqn:Hget.
  2:{ apply quiet_at_try_catch.
      eapply quiet_at_bind; [apply quiet_at_getItem|]. intros o1. cbn [store].
      rewrite Hget. cbn [truthy_opt negb]. apply quiet_quiet_at.
      eapply quiet_bind; [apply quiet_console_write | apply quiet_ret]. }
  destruct (truthy item) eqn:Htruthy.
  2:{ apply quiet_at_try_catch.
      eapply quiet_at_bind; [apply quiet_at_getItem|]. intros o1. cbn [store].
      rewrite Hget. cbn [truthy_opt negb]. rewrite Htruthy. apply quiet_quiet_at.
      eapply quiet_bind; [apply quiet_console_write | apply quiet_ret]. }
  destruct (parse item) as [parsedContext|] eqn:Hparse.
  - apply quiet_at_try_catch.
    eapply quiet_at_bind; [apply quiet_at_getItem|]. intros o1. cbn [store].
    rewrite Hget. cbn [truthy_opt negb default id]. rewrite Htruthy. cbn [negb].
    unfold JSON_parse. rewrite Hparse.
    eapply quiet_at_bind; [apply quiet_quiet_at, quiet_ret|]. intros o2.
    apply quiet_quiet_at, truncating_report_quiet.
  - unfold try_catch, bind at 1, storage_getItem. rewrite Hget.
    cbn [truthy_opt negb default id]. rewrite Htruthy. cbn [negb].
    unfold JSON_parse. rewrite Hparse.
    eexists. unfold bind, throw, ret. rewrite console_write_run. reflexivity.
Qed.

Lemma resolveDocument_resolved doc (w : World St) :
  quiet_at w (Chunking.resolveDocument doc) (Chunking.resolved (store w) doc).
Proof.
  unfold Chunking.resolveDocument, Chunking.resolved.
  destruct (truthy (content doc) && startsWith Chunking.doc_ref (content doc));
    [|apply quiet_quiet_at, quiet_ret].
  cbv zeta. eapply quiet_at_bind; [apply quiet_at_getItem|]. intros o1. cbn [store].
  apply quiet_quiet_at.
  destruct (truthy_opt _);
    (eapply quiet_bind; [apply quiet_console_write | apply quiet_ret]).
Qed.

Lemma resolveDocuments_resolved docs (w : World St) :
  quiet_at w (mapM Chunking.resolveDocument docs) (map (Chunking.resolved (store w)) docs).
Proof.
  revert w. induction docs as [|doc rest IH]; intros w; cbn [map mapM].
  - apply quiet_quiet_at, quiet_ret.
  - eapply quiet_at_bind; [apply resolveDocument_resolved|]. intros o1.
    eapply quiet_at_bind; [apply (IH (mkWorld (store w) (console w ++ o1)))|]. intros o2.
    apply quiet_quiet_at, quiet_ret.
Qed.

Lemma chunking_loadContext_run (this : Chunking.LocalStorageService)
    (conversationId : string) (w : World St) :
  ∃ out,
    Chunking.loadContext this conversationId w
    = (Ok (if Chunking.storage this then
             match getItem (store w) (Chunking.storage_key this conversationId) with
             | Some item =>
                 if truthy item then Chunking.resolvedContext (store w) <$> parse item else None
             | None => None
             end
           else None),
       mkWorld (store w) (console w ++ out)).
Proof.
  unfold Chunking.loadContext.
  destruct (Chunking.storage this); cbn [negb].
  2:{ eexists. unfold bind, ret. rewrite console_write_run. reflexivity. }
  cbv zeta.
  destruct (getItem (store w) (Chunking.storage_key this conversationId)) as [item|] eqn:Hget.
  2:{ apply quiet_at_try_catch.
      eapply quiet_at_bind; [apply quiet_at_getItem|]. intros o1. cbn [store].
      rewrite Hget. cbn [truthy_opt negb]. apply quiet_quiet_at.
      eapply quiet_bind; [apply quiet_console_write | apply quiet_ret]. }
  destruct (truthy item) eqn:Htruthy.
  2:{ apply quiet_at_try_catch.
      eapply quiet_at_bind; [apply quiet_at_getItem|]. intros o1. cbn [store].
      rewrite Hget. cbn [truthy_opt negb]. rewrite Htruthy. apply quiet_quiet_at.
      eapply quiet_bind; [apply quiet_console_write | apply quiet_ret]. }
  destruct (parse item) as [context|] eqn:Hparse; cbn [fmap option_fmap option_map].
  - apply quiet_at_try_catch.
    eapply quiet_at_bind; [apply quiet_at_getItem|]. intros o1. cbn [store].
    rewrite Hget. cbn [truthy_opt negb default id]. rewrite Htruthy. cbn [negb].
    unfold JSON_parse. rewrite Hparse.
    eapply quiet_at_bind; [apply quiet_quiet_at, quiet_ret|]. intros o2.
    eapply quiet_at_bind; [apply quiet_quiet_at, quiet_console_write|]. intros o3.
    eapply quiet_at_bind with (a := Chunking.resolvedContext (store w) context).
    { unfold Chunking.resolvedContext.
      destruct (documentContext context) as [docs|]; [|apply quiet_quiet_at, quiet_ret].
      eapply quiet_at_bind; [apply resolveDocuments_resolved|]. intros o4.
      apply quiet_quiet_at, quiet_ret. }
    intros o4. apply quiet_quiet_at.
    eapply quiet_bind; [apply quiet_console_write | apply quiet_ret].
  - unfold try_catch, bind at 1, storage_getItem. rewrite Hget.
    cbn [truthy_opt negb default id]. rewrite Htruthy. cbn [negb].
    unfold JSON_parse. rewrite Hparse.
    eexists. unfold bind, throw, ret. rewrite console_write_run. reflexivity.
Qed.

End LoadFacts.

(** ** Truncation at the ceiling *)

Lemma new_maxDocumentSize_pos options localStorage_defined :
  0 < Truncating.maxDocumentSize (Truncating.new options localStorage_defined).
Proof.
  unfold Truncating.new. cbn [Truncating.maxDocumentSize].
  destruct (opt_maxDocumentSize options) as [[|n]|]; try lia;
    change (1024 * 1024) with (S (1024 * 1024 - 1)); lia.
Qed.

Section TruncationExample.
#[local] Existing Instance Wire.codec.

(** The claim C5 as it is stated fails where the backend is short of room.
    With a ceiling of 450 characters the one document of the sample
    conversation is exactly at the ceiling; the full write does not fit
    into 400 characters, the first degradation step does, and what is
    persisted for the document is the placeholder, not its content. *)
Lemma at_the_ceiling_is_degraded_when_full :
  let this := Truncating.new (mkStorageOptions false None (Some 450)) true in
  let after :=
    snd (Truncating.saveContext this "c1" Sample.conversation
           (Sample.fresh 400)) in
  documentContext Sample.conversation = Some [Sample.notes]
  ∧ String.length (content Sample.notes) = Truncating.maxDocumentSize this
  ∧ ∃ persisted,
      getItem (store after) (Truncating.storage_key this "c1")
        = Some (stringify persisted)
      ∧ (content <$> default [] (documentContext persisted))
        = ["[Content removed due to storage limitations. Document: notes.txt]"]
      ∧ (content <$> default [] (documentContext persisted)) ≠ [content Sample.notes].
Proof.
  intros this after. split; [reflexivity|]. split; [vm_compute; reflexivity|].
  exists (Truncating.minimalContext Sample.conversation).
  split; [vm_compute; reflexivity|]. split; [reflexivity | discriminate].
Qed.

End TruncationExample.

(** C5, amended.  In a service built by the constructor (ceiling 1 MiB
    unless another positive one is configured), [prepareContextForStorage]
    returns the context with, entry by entry, a document whose content
    length equals the ceiling unmodified, and a document whose content is
    longer cut to its first [maxDocumentSize] characters followed by a line
    feed and the text [[CONTENT TRUNCATED DUE TO SIZE LIMITATIONS]]; a
    document without content gets [[No content available]], which does not
    include that text, so the two are told apart.  This context is what
    [saveContext] writes first: when the backend takes that write, it is
    the value persisted under the key of the conversation and what
    [loadContext] returns afterwards. *)
Theorem truncation_at_the_ceiling
    {St : Type} {backend : Storage St} `{!StorageLaws backend}
    {codec : Codec} `{!CodecLaws codec}
    (options : StorageOptions) (localStorage_defined : bool)
    (conversationId : string) (context : MCPContext)
    (docs : list DocumentContextEntry) (w : World St) :
  let this := Truncating.new options localStorage_defined in
  let key := Truncating.storage_key this conversationId in
  let limit := Truncating.maxDocumentSize this in
  let text := "[CONTENT TRUNCATED DUE TO SIZE LIMITATIONS]" in
  let after := snd (Truncating.saveContext this conversationId context w) in
  documentContext context = Some docs →
  (opt_maxDocumentSize options = None → limit = 1024 * 1024)
  ∧ ∃ forStorage docs',
      fst (Truncating.prepareContextForStorage this context w) = Ok forStorage
      ∧ forStorage = with_documentContext context (Some docs')
      ∧ length docs' = length docs
      ∧ (∀ i doc, docs !! i = Some doc →
           ∃ doc', docs' !! i = Some doc'
             ∧ (String.length (content doc) = limit → doc' = doc)
             ∧ (limit < String.length (content doc) →
                doc' = with_content doc
                         (substring0 limit (content doc)
                          +:+ String (Ascii.ascii_of_nat 10) text)
                ∧ String.length (substring0 limit (content doc)) = limit
                ∧ substring0 limit (content doc') = substring0 limit (content doc)
                ∧ includes text (content doc') = true)
             ∧ (content doc = "" →
                doc' = with_content doc "[No content available]"
                ∧ includes text (content doc') = false))
      ∧ (∀ s', docs ≠ [] → Truncating.storage this = true →
           setItem (store w) key (stringify forStorage) = inr s' →
           getItem (store after) key = Some (stringify forStorage)
           ∧ fst (Truncating.loadContext this conversationId after) = Ok (Some forStorage)).
Proof.
  intros this key limit text after Hdocs. split.
  { intros Hnone. subst limit this. unfold Truncating.new.
    cbn [Truncating.maxDocumentSize]. now rewrite Hnone. }
  exists (Truncating.preparedContext this context), (Truncating.prepared this <$> docs).
  split; [|split; [|split; [|split]]].
  - destruct (prepareContextForStorage_quiet this context w) as [out ->]. reflexivity.
  - unfold Truncating.preparedContext. now rewrite Hdocs.
  - apply length_fmap.
  - intros i doc Hi. exists (Truncating.prepared this doc).
    split; [rewrite list_lookup_fmap, Hi; reflexivity|]. split; [|split].
    + intros Hlen. apply prepared_small; [|fold limit; lia].
      apply truthy_length. rewrite Hlen. apply new_maxDocumentSize_pos.
    + intros Hlen. rewrite (prepared_large this doc Hlen). fold limit.
      assert (String.length (substring0 limit (content doc)) = limit) as Hcut
        by (apply length_substring0; lia).
      split; [reflexivity|]. split; [exact Hcut|]. cbn [content with_content]. split.
      * rewrite <- Hcut at 1. apply substring0_append.
      * assert (Truncating.truncation_marker
                = String (Ascii.ascii_of_nat 10) "" +:+ text +:+ "") as ->
          by reflexivity.
        rewrite <- append_assoc. now apply includes_append.
    + intros Hempty. unfold Truncating.prepared. rewrite Hempty. split; reflexivity.
  - intros s' Hne Hst Hset.
    assert (Truncating.payload this context = Truncating.preparedContext this context) as Hpay.
    { unfold Truncating.payload. rewrite Hdocs. destruct docs; [contradiction | reflexivity]. }
    rewrite <- Hpay in Hset |- *.
    assert (getItem (store after) key
            = Some (stringify (Truncating.payload this context))) as Hget.
    { subst after.
      destruct (saveContext_accepted this conversationId context w s' Hst Hset) as [out ->].
      cbn [snd store]. eapply getItem_setItem_eq, Hset. }
    split; [exact Hget|].
    destruct (loadContext_stored this conversationId _ after Hst Hget) as [out ->].
    reflexivity.
Qed.

Section TruncationWitness.
#[local] Existing Instance Wire.codec.

(** With a ceiling of four characters: [abcd] is stored as it is, [abcde]
    as [abcd], a line feed and the text, and both come back on load. *)
Lemma truncation_at_the_ceiling_witness :
  let saved :=
    snd (Truncating.saveContext Sample.truncating4 "c2" Sample.boundary (Sample.fresh 5000)) in
  ∃ loaded,
    fst (Truncating.loadContext Sample.truncating4 "c2" saved) = Ok (Some loaded)
    ∧ (content <$> default [] (documentContext loaded))
      = ["abcd";
         "abcd" +:+ String (Ascii.ascii_of_nat 10) "[CONTENT TRUNCATED DUE TO SIZE LIMITATIONS]"].
Proof.
  intros saved.
  destruct (truncation_at_the_ceiling (mkStorageOptions false None (Some 4)) true
              "c2" Sample.boundary [Sample.exact; Sample.over] (Sample.fresh 5000) eq_refl)
    as (_ & forStorage & docs' & Hprepare & -> & Hlength & Hentries & Hsaved).
  exists (with_documentContext Sample.boundary (Some docs')). split.
  - assert (∃ s', setItem (store (Sample.fresh 5000))
                    (Truncating.storage_key Sample.truncating4 "c2")
                    (stringify (with_documentContext Sample.boundary (Some docs')))
                  = inr s') as [s' Hset].
    { simpl. rewrite decide_True; [eauto|].
      apply Nat.leb_le. revert Hprepare. vm_compute. intros [= <-]. reflexivity. }
    apply (Hsaved s'); [discriminate | reflexivity | exact Hset].
  - cbn [documentContext with_documentContext default id].
    destruct (Hentries 0 Sample.exact eq_refl) as (d0 & H0 & Hexact & _).
    destruct (Hentries 1 Sample.over eq_refl) as (d1 & H1 & _ & Hover & _).
    destruct docs' as [|e0 [|e1 [|e2 rest]]]; try discriminate.
    cbn in H0, H1. injection H0 as ->. injection H1 as ->.
    rewrite (Hexact eq_refl). destruct Hover as [-> _]; [vm_compute; lia|]. reflexivity.
Defined.

End TruncationWitness.

(** ** Save, then load *)

Section RoundtripExample.
#[local] Existing Instance Wire.codec.


(** Why the amended statement leaves out contents that begin with the
    reference marker: the chunking service stores such a content inline and
    takes it for a reference when it loads. *)
Lemma chunking_takes_inline_marker_for_a_reference :
  let doc := mkDoc "d2" "memo.txt" "plain" "__DOC_REF__x" in
  let context := mkContext "c3" (Some [doc]) [] None false in
  let after := snd (Chunking.saveContext Sample.chunking "c3" context (Sample.fresh 5000)) in
  fst (Chunking.loadContext Sample.chunking "c3" after)
  = Ok (Some (mkContext "c3"
                (Some [mkDoc "d2" "memo.txt" "plain" "Content reference lost: x"])
                [] None false)).
Proof. vm_compute. reflexivity. Qed.

End RoundtripExample.


Section RoundtripWitness.
#[local] Existing Instance Wire.codec.


End RoundtripWitness.

(** ** The degradation ladder *)

Section LadderExample.
#[local] Existing Instance Wire.codec.

(** The claim C2 as it is stated fails in the chunking service: with room
    for 300 characters the full write and the write of the placeholders
    (which keeps the long document name) are both refused, the context
    without its document list would fit, yet no such write is tried and
    nothing is persisted. *)
Lemma chunking_ladder_has_one_step :
  let this := Sample.chunking in
  let w := Sample.fresh 300 in
  let bare := with_documentContext Sample.archive (Some []) in
  setItem (store w) (Chunking.storage_key this "c7") (stringify Sample.archive)
    = inl QuotaExceededError
  ∧ setItem (store w) (Chunking.minimal_key this "c7")
      (stringify (Chunking.minimalContext Sample.archive))
    = inl QuotaExceededError
  ∧ (∃ s', setItem (store w) (Chunking.storage_key this "c7") (stringify bare) = inr s')
  ∧ Chunking.saveContext this "c7" Sample.archive w
    = (Ok tt, mkWorld (store w)
                [(ERROR, "LocalStorageService: Error saving context:");
                 (ERROR, "LocalStorageService: Failed to save even minimal context:")]).
Proof.
  intros this w bare. subst bare w this.
  split; [vm_compute; reflexivity|]. split; [vm_compute; reflexivity|].
  split; [eexists; vm_compute; reflexivity|]. vm_compute. reflexivity.
Qed.

End LadderExample.

(** C2, amended.  In the truncating service a first write refused for
    quota is followed by the write of the context with every content
    replaced by a placeholder; only if that is refused, by the write of the
    context with an empty document list; the first write taken ends the
    save, and when both are refused the store is as it was and the last line
    of the console is an error.  The caller gets no result in any case.  In
    the chunking service a quota failure is followed by one step only, the
    write of the placeholders under the key with the suffix [_minimal]. *)
Theorem degradation_ladder
    {St : Type} {backend : Storage St} {codec : Codec} `{!CodecLaws codec}
    (conversationId : string) (context : MCPContext) (w : World St) (e : exn) :
  isQuotaExceeded e = true →
  (documentContext (Truncating.minimalContext context)
   = (map (λ doc, mkDoc (documentId doc) (documentName doc) (documentType doc)
                        (Truncating.removed_placeholder doc)))
     <$> documentContext context
   ∧ documentContext (Truncating.bareContext context) = Some [])
  ∧ (∀ this : Truncating.LocalStorageService,
     let key := Truncating.storage_key this conversationId in
     Truncating.storage this = true →
     setItem (store w) key (stringify (Truncating.payload this context)) = inl e →
     ∃ out,
       Truncating.saveContext this conversationId context w
       = (Ok tt,
          match setItem (store w) key (stringify (Truncating.minimalContext context)) with
          | inr s1 =>
              mkWorld s1 (console w ++ out ++
                [quota_warning; (LOG, "Saved context with reduced document content")])
          | inl _ =>
              match setItem (store w) key (stringify (Truncating.bareContext context)) with
              | inr s2 =>
                  mkWorld s2 (console w ++ out ++
                    [quota_warning;
                     (ERROR, "Failed to save even with reduced document content:");
                     (LOG, "Saved context without any document content")])
              | inl _ =>
                  mkWorld (store w) (console w ++ out ++
                    [quota_warning;
                     (ERROR, "Failed to save even with reduced document content:");
                     (ERROR, "All attempts to save context failed:")])
              end
          end))
  ∧ (∀ (this : Chunking.LocalStorageService) (w1 : World St),
       Chunking.storage this = true →
       Chunking.saveContext_try this conversationId context w = (Throw e, w1) →
       Chunking.saveContext this conversationId context w
       = (Ok tt,
          match setItem (store w1) (Chunking.minimal_key this conversationId)
                  (stringify (Chunking.minimalContext context)) with
          | inr s1 =>
              mkWorld s1 (console w1 ++
                [(ERROR, "LocalStorageService: Error saving context:");
                 (WARN, "Saved minimal context without document content for "
                        +:+ conversationId)])
          | inl _ =>
              mkWorld (store w1) (console w1 ++
                [(ERROR, "LocalStorageService: Error saving context:");
                 (ERROR, "LocalStorageService: Failed to save even minimal context:")])
          end)).
Proof.
  intros Hquota. split; [|split].
  - split; [|reflexivity]. unfold Truncating.minimalContext.
    destruct (documentContext context) eqn:Hdocs; [reflexivity | now rewrite Hdocs].
  - intros this key Hst Hset.
    destruct (saveContext_refused this conversationId context w e Hst Hset) as [out ->].
    exists out. unfold Truncating.handleStorageError. rewrite Hquota.
    unfold bind at 1. rewrite console_write_run. cbn [store console].
    unfold try_catch at 1, bind at 1, storage_setItem at 1. cbn [store console].
    fold key. destruct (setItem (store w) key (stringify (Truncating.minimalContext context))).
    + unfold bind at 1. rewrite console_write_run. cbn [store console].
      unfold try_catch, bind at 1, storage_setItem. cbn [store console]. fold key.
      destruct (setItem (store w) key (stringify (Truncating.bareContext context)));
        rewrite console_write_run; cbn [store console]; rewrite <- !app_assoc; reflexivity.
    + rewrite console_write_run. cbn [store console]. rewrite <- !app_assoc. reflexivity.
  - intros this w1 Hst Hrun. now apply (chunking_saveContext_refused this _ _ _ _ e).
Qed.

Section LadderWitness.
#[local] Existing Instance Wire.codec.

(** With room for 400 characters the first step of either service is
    taken. *)
Lemma degradation_ladder_witness :
  (∃ out,
     Truncating.saveContext Sample.truncating "c1" Sample.conversation (Sample.fresh 400)
     = (Ok tt,
        mkWorld (mkLocalStorage
                   {[ "mcp-context-c1" := stringify (Truncating.minimalContext Sample.conversation) ]}
                   400)
                (out ++ [quota_warning; (LOG, "Saved context with reduced document content")])))
  ∧ Chunking.saveContext Sample.chunking "c1" Sample.conversation (Sample.fresh 400)
    = (Ok tt,
       mkWorld (mkLocalStorage
                  {[ "mcp_context_c1_minimal" := stringify (Chunking.minimalContext Sample.conversation) ]}
                  400)
               [(ERROR, "LocalStorageService: Error saving context:");
                (WARN, "Saved minimal context without document content for c1")]).
Proof.
  split.
  - destruct (degradation_ladder "c1" Sample.conversation (Sample.fresh 400)
                QuotaExceededError eq_refl) as (_ & HT & _).
    destruct (HT Sample.truncating eq_refl) as [out Hsave]; [vm_compute; reflexivity|].
    exists out. rewrite Hsave. f_equal.
  - destruct (degradation_ladder "c1" Sample.conversation (Sample.fresh 400)
                QuotaExceededError eq_refl) as (_ & _ & HC).
    rewrite (HC Sample.chunking (Sample.fresh 400) eq_refl); [|vm_compute; reflexivity].
    f_equal.
Defined.

End LadderWitness.

(** ** The read-back after a write *)

Lemma storeDocuments_log {St : Type} {backend : Storage St} {codec : Codec}
    (this : Chunking.LocalStorageService) conversationId docs :
  ∀ (w w' : World St) docs',
  mapM (Chunking.storeDocument this conversationId) docs w = (Ok docs', w') →
  ∃ out, console w' = console w ++ out ∧ Forall (λ l : line, l.1 = LOG) out.
Proof.
  induction docs as [|doc rest IH]; intros w w' docs' Hrun; cbn [mapM] in Hrun.
  - apply ret_inv in Hrun as [_ <-]. exists []. now rewrite app_nil_r.
  - apply bind_Ok_inv in Hrun as (doc' & w1 & Hdoc & Hrun).
    apply bind_Ok_inv in Hrun as (rest' & w2 & Hrest & Hrun).
    apply ret_inv in Hrun as [_ <-].
    destruct (IH _ _ _ Hrest) as (out & -> & Hout).
    unfold Chunking.storeDocument in Hdoc. destruct (Chunking.is_large this doc).
    + apply bind_Ok_inv in Hdoc as ([] & wa & Hset & Hdoc).
      apply storage_setItem_Ok_inv in Hset as (s1 & Hset & ->).
      apply bind_Ok_inv in Hdoc as ([] & wb & [= <-] & Hdoc).
      apply ret_inv in Hdoc as [_ <-]. cbn [console].
      eexists (_ :: out). rewrite <- app_assoc. split; [reflexivity|].
      constructor; [reflexivity | assumption].
    + apply ret_inv in Hdoc as [_ <-]. now exists out.
Qed.

Section ReadbackExample.
#[local] Existing Instance Wire.codec.

(** The claim C6 as it is stated fails in the chunking service: on a
    backend that takes the write and keeps nothing, the save ends with its
    success line; the key is not read back and no fault is reported. *)
Lemma chunking_save_is_not_read_back :
  let key := Chunking.storage_key Sample.chunking "c1" in
  let saved :=
    Chunking.saveContext Sample.chunking "c1" Sample.conversation (mkWorld void []) in
  setItem void key (stringify Sample.conversation) = inr void
  ∧ getItem (store (snd saved)) key = None
  ∧ saved = (Ok tt, mkWorld void
                      [(LOG, "Context saved for conversation c1 with key mcp_context_c1")]).
Proof. vm_compute. repeat split. Qed.

End ReadbackExample.

Section ReadbackFacts.
Context {St : Type} {backend : Storage St} {codec : Codec}.
Variable this : Truncating.LocalStorageService.

Import Truncating.

(** What [prepareContextForStorage] writes to the console are warnings. *)
Lemma prepareDocument_warns doc (w : World St) :
  ∃ out,
    prepareDocument this doc w = (Ok (prepared this doc), mkWorld (store w) (console w ++ out))
    ∧ Forall (λ l : line, l.1 = WARN) out.
Proof.
  unfold prepareDocument, prepared.
  destruct (negb (truthy (content doc))).
  - unfold bind, ret. rewrite console_write_run. eexists. split; [reflexivity|].
    now constructor.
  - destruct (Nat.ltb _ _).
    + unfold bind, ret. rewrite console_write_run. eexists. split; [reflexivity|].
      now constructor.
    + exists []. unfold ret. now rewrite app_nil_r, world_eta.
Qed.

Lemma prepareDocuments_warns docs : ∀ w : World St,
  ∃ out,
    mapM (prepareDocument this) docs w
    = (Ok (map (prepared this) docs), mkWorld (store w) (console w ++ out))
    ∧ Forall (λ l : line, l.1 = WARN) out.
Proof.
  induction docs as [|doc docs IH]; intros w; cbn [mapM map].
  - exists []. unfold ret. now rewrite app_nil_r, world_eta.
  - destruct (prepareDocument_warns doc w) as (o1 & H1 & Hw1).
    destruct (IH (mkWorld (store w) (console w ++ o1))) as (o2 & H2 & Hw2).
    exists (o1 ++ o2). unfold bind at 1. rewrite H1. unfold bind at 1. rewrite H2.
    unfold ret. cbn [store console]. rewrite app_assoc. split; [reflexivity|].
    now apply Forall_app.
Qed.

Lemma prepareContextForStorage_warns `{!CodecLaws codec} context (w : World St) :
  ∃ out,
    prepareContextForStorage this context w
    = (Ok (preparedContext this context), mkWorld (store w) (console w ++ out))
    ∧ Forall (λ l : line, l.1 = WARN) out.
Proof.
  unfold prepareContextForStorage, preparedContext, JSON_parse.
  rewrite parse_stringify. unfold bind at 1, ret at 1.
  destruct (documentContext context) as [docs|].
  - destruct (prepareDocuments_warns docs w) as (out & Hrun & Hwarn).
    exists out. unfold bind. rewrite Hrun. split; [reflexivity | exact Hwarn].
  - exists []. unfold ret. now rewrite app_nil_r, world_eta.
Qed.

(** [hasContentLoss] ends up set exactly when some saved document has an
    original of the same id whose content has another length. *)
Lemma content_loss_spec originalDocs savedDocs :
  content_loss originalDocs savedDocs = true
  ↔ ∃ saved original,
      saved ∈ savedDocs
      ∧ find (λ d, String.eqb (documentId d) (documentId saved)) originalDocs = Some original
      ∧ String.length (content original) ≠ String.length (content saved).
Proof.
  unfold content_loss. rewrite existsb_exists. split.
  - intros (saved & Hin & Hmis). unfold length_mismatch in Hmis.
    destruct (find _ originalDocs) as [original|] eqn:Hfind; [|discriminate].
    exists saved, original. split; [now apply list_elem_of_In|]. split; [exact Hfind|].
    apply negb_true_iff, Nat.eqb_neq in Hmis. exact Hmis.
  - intros (saved & original & Hin & Hfind & Hne).
    exists saved. split; [now apply list_elem_of_In|].
    unfold length_mismatch. rewrite Hfind. now apply negb_true_iff, Nat.eqb_neq.
Qed.

(** Without such a document the comparison writes nothing. *)
Lemma checkContentLengths_same originalDocs savedDocs flag (w : World St) :
  content_loss originalDocs savedDocs = false →
  checkContentLengths originalDocs savedDocs flag w = (Ok flag, w).
Proof.
  induction savedDocs as [|doc rest IH]; intros Hloss; [reflexivity|].
  cbn [content_loss existsb] in Hloss. apply orb_false_iff in Hloss as [Hdoc Hrest].
  cbn [checkContentLengths]. unfold length_mismatch in Hdoc.
  destruct (find _ originalDocs) as [originalDoc|]; [|now apply IH].
  rewrite Hdoc. now apply IH.
Qed.

Lemma verifyStoredContext_same key originalContext (w : World St)
    item savedContext savedDocs originalDocs :
  getItem (store w) key = Some item → truthy item = true →
  parse item = Some savedContext →
  documentContext savedContext = Some savedDocs →
  documentContext originalContext = Some originalDocs →
  length originalDocs = length savedDocs →
  content_loss originalDocs savedDocs = false →
  verifyStoredContext key originalContext w
  = (Ok tt,
     mkWorld (store w)
       (console w ++ [(LOG, "Successfully saved context with "
                            +:+ pretty (length savedDocs) +:+ " documents")])).
Proof.
  intros Hget Htruthy Hparse Hsaved Horig Hcount Hloss.
  unfold verifyStoredContext, storage_getItem, JSON_parse, bind at 1.
  rewrite Hget. cbn [truthy_opt default id]. rewrite Htruthy, Hparse. cbn [negb].
  unfold bind at 1, ret at 1. rewrite Hsaved, Horig. cbv zeta.
  rewrite (proj2 (Nat.eqb_eq _ _) Hcount). cbn [negb].
  unfold bind at 1. rewrite console_write_run. unfold bind.
  now rewrite (checkContentLengths_same _ _ _ _ Hloss).
Qed.

End ReadbackFacts.

Lemma no_errors_among_warnings (out : list line) :
  Forall (λ l : line, l.1 = WARN) out → filter (λ l : line, l.1 = ERROR) out = [].
Proof.
  induction 1 as [|l out Hl _ IH]; [reflexivity|].
  rewrite filter_cons, decide_False by (rewrite Hl; discriminate). exact IH.
Qed.

(** C6, amended.  In the truncating service, when the backend takes the
    write of a context with at least one document, [saveContext] returns to
    its caller and writes nothing more.  It reads the key back, and when
    the value parses to a context with a document list: if the number of
    documents differs from the number written, the one error among the
    lines the call adds to the console is the count mismatch; otherwise
    the content-integrity fault is among these lines exactly when some
    saved document has, for the first written document of the same id,
    a content of another length, and without such a document the call logs
    no error at all.  The chunking service does not read back: a save that
    completes adds only lines of level LOG to the console. *)
Theorem readback_is_diagnostic
    {St : Type} {backend : Storage St} {codec : Codec} `{!CodecLaws codec}
    (conversationId : string) (context : MCPContext) (w : World St) :
  (∀ (this : Truncating.LocalStorageService) (s' : St) doc docs,
     let key := Truncating.storage_key this conversationId in
     let written := Truncating.prepared this <$> (doc :: docs) in
     Truncating.storage this = true →
     documentContext context = Some (doc :: docs) →
     setItem (store w) key (stringify (Truncating.payload this context)) = inr s' →
     ∃ out,
       Truncating.saveContext this conversationId context w
       = (Ok tt, mkWorld s' (console w ++ out))
       ∧ ∀ item savedContext savedDocs,
           getItem s' key = Some item → truthy item = true →
           parse item = Some savedContext →
           documentContext savedContext = Some savedDocs →
           let differs :=
             ∃ saved original,
               saved ∈ savedDocs
               ∧ find (λ d, String.eqb (documentId d) (documentId saved)) written
                 = Some original
               ∧ String.length (content original) ≠ String.length (content saved) in
           (length written ≠ length savedDocs →
            filter (λ l : line, l.1 = ERROR) out
            = [(ERROR, "Document count mismatch after saving. Original: "
                       +:+ pretty (length written) +:+ ", Saved: "
                       +:+ pretty (length savedDocs))])
           ∧ (length written = length savedDocs →
              ((ERROR, "Document content loss detected during save operation") ∈ out
               ↔ differs)
              ∧ (¬ differs → Forall (λ l : line, l.1 ≠ ERROR) out)))
  ∧ (∀ (this : Chunking.LocalStorageService) (w' : World St),
       Chunking.saveContext_try this conversationId context w = (Ok tt, w') →
       ∃ out, console w' = console w ++ out ∧ Forall (λ l : line, l.1 = LOG) out).
Proof.
  split.
  - intros this s' doc docs key written Hst Hdocs Hset.
    assert (documentContext (Truncating.preparedContext this context) = Some written) as Hwritten.
    { unfold Truncating.preparedContext. now rewrite Hdocs. }
    destruct (prepareContextForStorage_warns this context w) as (o1 & H1 & Hwarn).
    set (w1 := mkWorld s' ((console w ++ o1) ++ [(LOG, "Document sizes before storage:")])).
    destruct (verifyStoredContext_safe key (Truncating.preparedContext this context) w1)
      as (r & o2 & Hverify & Hr).
    exists (o1 ++ [(LOG, "Document sizes before storage:")] ++ o2
            ++ match r with
               | Ok _ => []
               | Throw _ => [(ERROR, "Error saving context to storage:")]
               end).
    split.
    { unfold Truncating.saveContext. rewrite Hst. cbn [negb]. cbv zeta.
      rewrite Hdocs. unfold Truncating.payload in Hset. rewrite Hdocs in Hset.
      unfold try_catch. rewrite (bind_Ok _ _ _ _ _ H1). rewrite Hwritten.
      unfold bind at 1. rewrite console_write_run. cbn [store console].
      unfold bind at 1, storage_setItem. cbn [store console]. fold key. rewrite Hset.
      fold w1. rewrite Hverify. subst w1. cbn [store console].
      destruct r as [[]|e].
      - rewrite app_nil_r, <- !app_assoc. reflexivity.
      - unfold bind at 1. rewrite console_write_run.
        rewrite handleStorageError_other by now apply Hr.
        cbn [store console]. rewrite <- !app_assoc. reflexivity. }
    intros item savedContext savedDocs Hget Htruthy Hparse Hsaved differs.
    destruct (verifyStoredContext_compare key (Truncating.preparedContext this context)
                w1 item savedContext savedDocs written Hget Htruthy Hparse Hsaved Hwritten)
      as (report & Hcompare & Hcount & Hloss).
    rewrite Hverify in Hcompare. injection Hcompare as -> Hreport.
    apply app_inv_head in Hreport as ->. rewrite app_nil_r.
    assert (differs ↔ Truncating.content_loss written savedDocs = true) as Hdiffers
      by (symmetry; apply content_loss_spec).
    split.
    + intros Hne. rewrite (Hcount Hne), !filter_app, (no_errors_among_warnings _ Hwarn).
      reflexivity.
    + intros Heq. split.
      * rewrite Hdiffers, <- (Hloss Heq), !elem_of_app. split; [|tauto].
        intros [Hin|[Hin|Hin]]; [|apply list_elem_of_singleton in Hin; discriminate|exact Hin].
        exfalso. rewrite Forall_forall in Hwarn. now specialize (Hwarn _ Hin).
      * intros Hsame.
        assert (Truncating.content_loss written savedDocs = false) as Hnone.
        { destruct (Truncating.content_loss written savedDocs) eqn:Hl; [|reflexivity].
          exfalso. now apply Hsame, Hdiffers. }
        pose proof (verifyStoredContext_same key (Truncating.preparedContext this context)
                      w1 item savedContext savedDocs written Hget Htruthy Hparse Hsaved
                      Hwritten Heq Hnone) as Hsame_run.
        rewrite Hverify in Hsame_run. injection Hsame_run as Hreport.
        apply app_inv_head in Hreport as ->.
        apply Forall_app. split.
        { eapply Forall_impl; [exact Hwarn|]. intros l ->. discriminate. }
        repeat constructor; discriminate.
  - intros this w' Hrun. unfold Chunking.saveContext_try in Hrun. cbv zeta in Hrun.
    assert (∀ c (w1 w2 : World St),
              (storage_setItem (Chunking.storage_key this conversationId) (stringify c) >>
               console_write LOG ("Context saved for conversation " +:+ conversationId
                 +:+ " with key " +:+ Chunking.storage_key this conversationId)) w1
              = (Ok tt, w2) →
              ∃ l, console w2 = console w1 ++ [(LOG, l)]) as Hlast.
    { intros c w1 w2 H. apply bind_Ok_inv in H as ([] & w3 & Hset & H).
      apply storage_setItem_Ok_inv in Hset as (s' & Hset & ->).
      rewrite console_write_run in H. injection H as <-. cbn [console]. eauto. }
    destruct (documentContext context) as [[|doc docs]|].
    + destruct (Hlast _ _ _ Hrun) as [l ->]. eexists. split; [reflexivity|].
      now constructor.
    + unfold JSON_parse in Hrun. rewrite parse_stringify in Hrun.
      apply bind_Ok_inv in Hrun as (copy & w1 & Hcopy & Hrun).
      apply ret_inv in Hcopy as [<- <-].
      destruct (documentContext context) as [cdocs|]; [|discriminate].
      apply bind_Ok_inv in Hrun as (docs' & w2 & Hstore & Hrun).
      destruct (storeDocuments_log _ _ _ _ _ _ Hstore) as (o1 & Ho1 & Hlog).
      destruct (Hlast _ _ _ Hrun) as [l ->]. rewrite Ho1.
      exists (o1 ++ [(LOG, l)]). rewrite <- app_assoc. split; [reflexivity|].
      apply Forall_app. split; [assumption | now constructor].
    + destruct (Hlast _ _ _ Hrun) as [l ->]. eexists. split; [reflexivity|].
      now constructor.
Qed.

Section ReadbackWitness.
#[local] Existing Instance Wire.codec.

(** On the backend that loses the documents the one error of the save is
    the count; on [localStorage] the chunking service adds LOG lines only. *)
Lemma readback_is_diagnostic_witness :
  (∃ out,
     Truncating.saveContext (backend := droppingStorage) Sample.truncating "c1"
       Sample.conversation (mkWorld (mkDropping ∅) [])
     = (Ok tt,
        mkWorld (mkDropping {[ Truncating.storage_key Sample.truncating "c1"
                                 := stringify (with_documentContext Sample.conversation
                                                 (Some [])) ]})
                out)
     ∧ filter (λ l : line, l.1 = ERROR) out
       = [(ERROR, "Document count mismatch after saving. Original: 1, Saved: 0")])
  ∧ ∃ out,
      console (snd (Chunking.saveContext Sample.chunking "c1" Sample.conversation
                      (Sample.fresh 5000)))
        = out
      ∧ Forall (λ l : line, l.1 = LOG) out.
Proof.
  split.
  - destruct (readback_is_diagnostic (backend := droppingStorage) "c1" Sample.conversation
                (mkWorld (mkDropping ∅) [])) as [HT _].
    pose (item := stringify (with_documentContext Sample.conversation (Some []))).
    destruct (HT Sample.truncating
                (mkDropping {[ Truncating.storage_key Sample.truncating "c1" := item ]})
                Sample.notes [] eq_refl eq_refl)
      as (out & Hrun & Hreport); [vm_compute; reflexivity|].
    exists out. split; [exact Hrun|].
    destruct (Hreport item (with_documentContext Sample.conversation (Some [])) [])
      as (Hcount & _);
      [vm_compute; reflexivity | reflexivity | vm_compute; reflexivity | reflexivity|].
    rewrite Hcount by (cbn; lia). reflexivity.
  - destruct (readback_is_diagnostic "c1" Sample.conversation (Sample.fresh 5000)) as [_ HC].
    assert (∃ w', Chunking.saveContext_try Sample.chunking "c1" Sample.conversation
                    (Sample.fresh 5000) = (Ok tt, w')) as [w' Hrun].
    { eexists. vm_compute. reflexivity. }
    destruct (HC Sample.chunking w' Hrun) as (out & Hconsole & Hlog).
    exists out. split; [|exact Hlog].
    now rewrite (chunking_saveContext_Ok Sample.chunking "c1" _ _ _ eq_refl Hrun).
Defined.

End ReadbackWitness.

(** ** Removal *)

Section RemovalExample.
#[local] Existing Instance Wire.codec.

(** The claim C7 as it is stated fails in the chunking service: on a
    backend whose [removeItem] returns without deleting, [removeContext]
    answers [true] although the entry is still there. *)
Lemma chunking_remove_is_not_read_back :
  let key := Chunking.storage_key Sample.chunking "c1" in
  let w := mkWorld (mkSticky {[ key := stringify Sample.conversation ]}) [] in
  let removed := Chunking.removeContext Sample.chunking "c1" w in
  fst removed = Ok true
  ∧ getItem (store (snd removed)) key = Some (stringify Sample.conversation).
Proof. vm_compute. split; reflexivity. Qed.

End RemovalExample.

(** C7, amended.  In the truncating service [removeContext] returns, and
    it returns [true] exactly when the storage is there, the delete was
    issued without error and the key read back afterwards is absent.  The
    chunking service does not read back: it returns [true] as soon as its
    deletes were issued without error (and the stored entry, if any,
    parsed); on a backend that behaves as a key-value store the key is then
    absent. *)
Theorem removal_is_confirmed
    {St : Type} {backend : Storage St} {codec : Codec}
    (conversationId : string) (w : World St) :
  (∀ this : Truncating.LocalStorageService,
     let key := Truncating.storage_key this conversationId in
     ∃ b, fst (Truncating.removeContext this conversationId w) = Ok b
          ∧ (b = true ↔
             Truncating.storage this = true
             ∧ ∃ s', removeItem (store w) key = inr s' ∧ getItem s' key = None))
  ∧ (∀ this : Chunking.LocalStorageService,
       let key := Chunking.storage_key this conversationId in
       let removed := Chunking.removeContext this conversationId w in
       (Chunking.storage this = true →
        (∀ s k, ∃ s', removeItem s k = inr s') →
        (∀ item, getItem (store w) key = Some item → truthy item = true →
                 is_Some (parse item)) →
        fst removed = Ok true)
       ∧ (StorageLaws backend → fst removed = Ok true →
          getItem (store (snd removed)) key = None)).
Proof.
  split.
  - intros this key. unfold Truncating.removeContext.
    destruct (Truncating.storage this); cbn [negb].
    2:{ exists false. split; [reflexivity|]. split; [discriminate | intros [? _]; discriminate]. }
    cbv zeta. fold key. unfold try_catch, bind at 1, storage_removeItem.
    destruct (removeItem (store w) key) as [e|s'] eqn:Hrem.
    { exists false. split; [reflexivity|].
      split; [discriminate | intros [_ (? & ? & _)]; discriminate]. }
    unfold bind at 1, storage_getItem. cbn [store console].
    destruct (getItem s' key) as [item|] eqn:Hget.
    + exists false. rewrite bool_decide_true by discriminate.
      split; [reflexivity|]. split; [discriminate|].
      intros [_ (s'' & [= <-] & Hnone)]. congruence.
    + exists true. rewrite bool_decide_false by (intros H; now apply H).
      split; [reflexivity|]. split; [|reflexivity]. intros _. split; [reflexivity|]. eauto.
  - intros this key removed. split.
    + intros Hst Htotal Hparse. subst removed. unfold Chunking.removeContext.
      rewrite Hst. cbn [negb]. cbv zeta. fold key.
      assert (∀ k (w0 : World St), ∃ w1, storage_removeItem k w0 = (Ok tt, w1)) as Hrem.
      { intros k w0. unfold storage_removeItem.
        destruct (Htotal (store w0) k) as [s' ->]. eauto. }
      assert (∀ docs (w0 : World St), ∃ w1,
                forEach Chunking.removeDocument docs w0 = (Ok tt, w1)) as Hdocs.
      { induction docs as [|doc docs IH]; intros w0; cbn [forEach]; [unfold ret; eauto|].
        unfold Chunking.removeDocument at 1. destruct (_ && _).
        - destruct (Hrem (replace_first_empty Chunking.doc_ref (content doc)) w0) as [w1 H1].
          unfold bind at 1 2. rewrite H1, console_write_run. apply IH.
        - unfold bind at 1, ret at 1. apply IH. }
      assert (∃ w1, (if truthy_opt (getItem (store w) key)
                     then let* context := JSON_parse (default "" (getItem (store w) key)) in
                          match documentContext context with
                          | Some docs => forEach Chunking.removeDocument docs
                          | None => ret tt
                          end
                     else ret tt) w = (Ok tt, w1)) as [w1 H1].
      { destruct (getItem (store w) key) as [item|] eqn:Hget; cbn [truthy_opt];
          [|unfold ret; eauto].
        destruct (truthy item) eqn:Htruthy; [|unfold ret; eauto].
        destruct (Hparse item eq_refl Htruthy) as [context Hcontext].
        unfold JSON_parse. cbn [default id]. rewrite Hcontext.
        unfold bind at 1, ret at 1.
        destruct (documentContext context) as [docs|]; [apply Hdocs | unfold ret; eauto]. }
      unfold try_catch, bind at 1, storage_getItem.
      unfold bind at 1. rewrite H1.
      destruct (Hrem key w1) as [w2 H2]. unfold bind at 1. rewrite H2.
      unfold bind at 1. rewrite console_write_run.
      destruct (Hrem (Chunking.minimal_key this conversationId)
                  (mkWorld (store w2) (console w2 ++
                     [(LOG, "Removed context for conversation " +:+ conversationId)])))
        as [w3 H3].
      unfold bind. rewrite H3. reflexivity.
    + intros Hlaws Htrue. subst removed. unfold Chunking.removeContext in *.
      destruct (Chunking.storage this); cbn [negb] in *; [|discriminate].
      cbv zeta in *. fold key in Htrue |- *. unfold try_catch in *.
      match goal with
      | |- context [match ?m w with _ => _ end] => destruct (m w) as [[b|e] w'] eqn:Hrun
      end.
      2:{ unfold bind in Htrue. rewrite console_write_run in Htrue. discriminate. }
      cbn [fst snd] in *.
      apply bind_Ok_inv in Hrun as (item & w1 & _ & Hrun).
      apply bind_Ok_inv in Hrun as ([] & w2 & _ & Hrun).
      apply bind_Ok_inv in Hrun as ([] & w3 & Hrem & Hrun).
      apply bind_Ok_inv in Hrun as ([] & w4 & Hlog & Hrun).
      apply bind_Ok_inv in Hrun as ([] & w5 & Hmin & Hrun).
      apply ret_inv in Hrun as [_ <-].
      rewrite console_write_run in Hlog. injection Hlog as <-.
      unfold storage_removeItem in Hrem, Hmin. cbn [store console] in Hmin.
      destruct (removeItem (store w2) key) as [e|s3] eqn:Hrem3; [discriminate|].
      injection Hrem as <-. cbn [store] in Hmin.
      destruct (removeItem s3 (Chunking.minimal_key this conversationId)) as [e|s5] eqn:Hrem5;
        [discriminate|].
      injection Hmin as <-. cbn [store].
      rewrite (getItem_removeItem_ne _ _ _ _ Hrem5) by apply minimal_key_ne_storage_key.
      eapply getItem_removeItem_eq, Hrem3.
Qed.

Section RemovalWitness.
#[local] Existing Instance Wire.codec.

(** On [localStorage] the chunking service removes what it saved. *)
Lemma removal_is_confirmed_witness :
  let w := snd (Chunking.saveContext Sample.chunking "c1" Sample.conversation
                  (Sample.fresh 5000)) in
  let removed := Chunking.removeContext Sample.chunking "c1" w in
  fst removed = Ok true
  ∧ getItem (store (snd removed)) (Chunking.storage_key Sample.chunking "c1") = None.
Proof.
  intros w removed.
  destruct (removal_is_confirmed "c1" w) as [_ HC].
  destruct (HC Sample.chunking) as [Htrue Habsent].
  assert (fst removed = Ok true) as H.
  { apply Htrue.
    - reflexivity.
    - intros s k. eexists. reflexivity.
    - intros item Hitem _. vm_compute in Hitem. injection Hitem as <-.
      eexists. vm_compute. reflexivity. }
  split; [exact H|]. apply Habsent; [apply localStorage_laws | exact H].
Defined.

End RemovalWitness.

(** ** The degraded copy of the chunking service *)

Section DegradedExample.
#[local] Existing Instance Wire.codec.

(** The claim C9 as it is stated fails in its last part: the degraded copy
    is loadable through [loadContext], under the id of the conversation
    followed by [_minimal].  With room for 400 characters the save of the
    sample conversation fails for quota and writes the degraded copy;
    [loadContext] returns [null] for [c1] and the copy for [c1_minimal]. *)
Lemma degraded_copy_loads_under_the_minimal_id :
  let w := Sample.fresh 400 in
  let after := snd (Chunking.saveContext Sample.chunking "c1" Sample.conversation w) in
  Chunking.saveContext_try Sample.chunking "c1" Sample.conversation w
    = (Throw QuotaExceededError, w)
  ∧ fst (Chunking.loadContext Sample.chunking "c1" after) = Ok None
  ∧ fst (Chunking.loadContext Sample.chunking "c1_minimal" after)
    = Ok (Some (mkContext "c1"
                  (Some [mkDoc "d1" "notes.txt" "plain"
                           "Content too large for storage (450 bytes)"])
                  [UserMessage "hi"] None false)).
Proof. vm_compute. repeat split. Qed.

End DegradedExample.

(** C9, amended.  In the chunking service, when the [try] block of
    [saveContext] fails for quota, the degraded context (every document
    with its id, name and type, and for content a note of its size) is
    written under the key of the conversation followed by [_minimal],
    which is not the key [loadContext] reads for the conversation: for a
    conversation with nothing under its own key before the save,
    [loadContext] returns [null] after it, also when the degraded write was
    taken.  The degraded copy is loadable all the same, under the id of the
    conversation followed by [_minimal]. *)
Theorem degraded_copy_is_kept_under_the_minimal_key
    {St : Type} {backend : Storage St} `{!StorageLaws backend}
    {codec : Codec} `{!CodecLaws codec}
    (this : Chunking.LocalStorageService)
    (conversationId : string) (context : MCPContext) (w w1 : World St) (e : exn) :
  let key := Chunking.storage_key this conversationId in
  let minimal := Chunking.keyPrefix this +:+ conversationId +:+ "_minimal" in
  let after := snd (Chunking.saveContext this conversationId context w) in
  Chunking.storage this = true →
  getItem (store w) key = None →
  Chunking.saveContext_try this conversationId context w = (Throw e, w1) →
  isQuotaExceeded e = true →
  minimal ≠ key
  ∧ fst (Chunking.loadContext this conversationId after) = Ok None
  ∧ ∃ degraded,
      degraded = with_documentContext context (documentContext degraded)
      ∧ match documentContext context, documentContext degraded with
        | Some docs, Some docs' =>
            Forall2 (λ doc doc',
              documentId doc' = documentId doc
              ∧ documentName doc' = documentName doc
              ∧ documentType doc' = documentType doc
              ∧ content doc'
                = "Content too large for storage ("
                  +:+ pretty (String.length (content doc)) +:+ " bytes)") docs docs'
        | None, None => True
        | _, _ => False
        end
      ∧ (∀ s2, setItem (store w1) minimal (stringify degraded) = inr s2 →
           store after = s2
           ∧ getItem s2 minimal = Some (stringify degraded)
           ∧ fst (Chunking.loadContext this (conversationId +:+ "_minimal") after)
             = Ok (Some degraded))
      ∧ (∀ e2, setItem (store w1) minimal (stringify degraded) = inl e2 →
           store after = store w1).
Proof.
  intros key minimal after Hst Hnone Hrun Hquota.
  change minimal with (Chunking.minimal_key this conversationId) in *.
  split; [apply minimal_key_ne_storage_key|]. split.
  { assert (getItem (store after) key = None) as Habsent.
    { subst after key. unfold Chunking.saveContext. rewrite Hst. cbn [negb].
      rewrite (try_catch_Throw _ _ _ _ _ Hrun).
      destruct (Chunking.saveContext_catch this conversationId context e w1) as [r w2] eqn:Hcatch.
      cbn [snd]. rewrite (saveContext_catch_frames this _ _ _ _ _ _ Hcatch).
      rewrite (saveContext_try_Throw this _ _ _ _ _ Hrun). exact Hnone. }
    destruct (chunking_loadContext_absent this conversationId after Habsent) as [out ->].
    reflexivity. }
  exists (Chunking.minimalContext context).
  assert (after = snd (Chunking.saveContext this conversationId context w)) as Hafter
    by reflexivity.
  rewrite (chunking_saveContext_refused this _ _ _ _ _ Hst Hquota Hrun) in Hafter.
  cbn [snd] in Hafter.
  split; [|split; [|split]].
  - unfold Chunking.minimalContext.
    destruct (documentContext context) as [docs|] eqn:Hdocs; [reflexivity|].
    destruct context; cbn in *. now rewrite Hdocs.
  - unfold Chunking.minimalContext.
    destruct (documentContext context) as [docs|] eqn:Hdocs.
    + cbn [documentContext with_documentContext].
      apply Forall2_fmap_r, Forall_Forall2_diag, Forall_forall.
      intros doc _. repeat split.
    + now rewrite Hdocs.
  - intros s2 Hset. rewrite Hset in Hafter. rewrite Hafter. cbn [store].
    split; [reflexivity|].
    assert (getItem s2 (Chunking.minimal_key this conversationId)
            = Some (stringify (Chunking.minimalContext context))) as Hget
      by (eapply getItem_setItem_eq, Hset).
    split; [exact Hget|].
    destruct (chunking_loadContext_run this (conversationId +:+ "_minimal")
                (mkWorld s2 (console w1 ++
                   [(ERROR, "LocalStorageService: Error saving context:");
                    (WARN, "Saved minimal context without document content for "
                           +:+ conversationId)]))) as [out ->].
    cbn [fst store]. rewrite Hst.
    change (Chunking.storage_key this (conversationId +:+ "_minimal"))
      with (Chunking.minimal_key this conversationId).
    rewrite Hget, stringify_truthy, parse_stringify. cbn [fmap option_fmap option_map].
    do 2 f_equal. unfold Chunking.resolvedContext, Chunking.minimalContext.
    destruct (documentContext context) as [docs|] eqn:Hdocs;
      cbn [documentContext with_documentContext]; [|now rewrite Hdocs].
    rewrite with_documentContext_twice. do 2 f_equal.
    rewrite map_map. apply map_ext. intros doc. reflexivity.
  - intros e2 Hset. rewrite Hset in Hafter. now rewrite Hafter.
Qed.

Section DegradedWitness.
#[local] Existing Instance Wire.codec.

(** With room for 400 characters the degraded copy is written: the
    conversation loads as [null], and the copy under [c1_minimal]. *)
Lemma degraded_copy_is_kept_under_the_minimal_key_witness :
  let w := Sample.fresh 400 in
  let after := snd (Chunking.saveContext Sample.chunking "c1" Sample.conversation w) in
  fst (Chunking.loadContext Sample.chunking "c1" after) = Ok None
  ∧ ∃ degraded,
      getItem (store after) "mcp_context_c1_minimal" = Some (stringify degraded)
      ∧ fst (Chunking.loadContext Sample.chunking "c1_minimal" after) = Ok (Some degraded)
      ∧ (content <$> default [] (documentContext degraded))
        = ["Content too large for storage (450 bytes)"].
Proof.
  intros w after.
  assert (Chunking.saveContext_try Sample.chunking "c1" Sample.conversation w
          = (Throw QuotaExceededError, w)) as Hrun by (vm_compute; reflexivity).
  assert (getItem (store w) (Chunking.storage_key Sample.chunking "c1") = None) as Hnone
    by (vm_compute; reflexivity).
  destruct (degraded_copy_is_kept_under_the_minimal_key Sample.chunking "c1" Sample.conversation w w
              QuotaExceededError eq_refl Hnone Hrun eq_refl)
    as (_ & Hload & degraded & Hshape & Hdocs & Htaken & _).
  split; [exact Hload|]. exists degraded.
  change (documentContext Sample.conversation) with (Some [Sample.notes]) in Hdocs.
  destruct (documentContext degraded) as [docs'|] eqn:Hdegraded; [|contradiction].
  apply Forall2_cons_inv_l in Hdocs as (d1 & rest & H1 & Hrest & ->).
  apply Forall2_nil_inv_l in Hrest as ->.
  destruct H1 as (Hid & Hname & Htype & Hcontent).
  assert (degraded = Chunking.minimalContext Sample.conversation) as Hdeg.
  { rewrite Hshape. destruct d1 as [i n t c]. cbn in Hid, Hname, Htype, Hcontent.
    subst i n t c. reflexivity. }
  assert (∃ s2, setItem (store w) (Chunking.keyPrefix Sample.chunking +:+ "c1" +:+ "_minimal")
                  (stringify degraded) = inr s2)
    as [s2 Hset] by (rewrite Hdeg; eexists; vm_compute; reflexivity).
  destruct (Htaken s2 Hset) as (Hstore & Hget & Hminimal).
  fold after in Hstore. rewrite Hstore.
  split; [exact Hget|]. split; [exact Hminimal|].
  cbn [default id fmap list_fmap]. now rewrite Hcontent.
Defined.

End DegradedWitness.

(** ** The clients *)

Lemma page_log_run {C} l msg (p : Page C) :
  page_log l msg p
  = (Ok tt, mkPage (self p) (window p) (now p) (page_console p ++ [(l, msg)]) (toasts p)).
Proof. reflexivity. Qed.

Lemma toast_error_run {C} title description (p : Page C) :
  toast_error title description p
  = (Ok tt, mkPage (self p) (window p) (now p) (page_console p)
                   (toasts p ++ [(title, description)])).
Proof. reflexivity. Qed.

Lemma empty_content_is_rejected_by_the_context_client
    {CS : Type} {service : ContextService.Interface CS}
    (documentId documentName documentType : string) (content : option string) :
  truthy_opt content = false →
  ∀ p : Page (MCPContextClient.MCPContextClient CS),
    MCPContextClient.addDocumentToContext documentId documentName documentType content p
    = (Throw (empty_content_error documentName),
       mkPage (self p) (window p) (now p)
              (page_console p ++ rejected_lines documentId documentName) (toasts p)).
Proof.
  intros Hempty p. unfold MCPContextClient.addDocumentToContext.
  rewrite Hempty. cbn [negb orb].
  unfold try_catch, bind at 1. rewrite page_log_run.
  unfold bind at 1, throw at 1. unfold bind at 1. rewrite page_log_run.
  unfold throw. cbn [self window now page_console toasts].
  unfold rejected_lines. now rewrite <- app_assoc.
Qed.

(** C8.  With a content that is missing or empty, [addDocumentToContext]
    of every client throws the empty-content error, whatever the context
    service is: the client object, and with it the state of the context
    service and everything it persists, is unchanged, and so is the window,
    so no event was dispatched.  What the call leaves behind are two lines
    on the console and, in [MCPClient], the error toast. *)
Theorem empty_content_is_rejected
    {CS : Type} {service : ContextService.Interface CS}
    (documentId documentName documentType : string) (content : option string) :
  truthy_opt content = false →
  (∀ p : Page (MCPContextClient.MCPContextClient CS),
     MCPContextClient.addDocumentToContext documentId documentName documentType content p
     = (Throw (empty_content_error documentName),
        mkPage (self p) (window p) (now p)
               (page_console p ++ rejected_lines documentId documentName) (toasts p)))
  ∧ (∀ p : Page (MCPClient.MCPClient CS),
       MCPClient.addDocumentToContext documentId documentName documentType content p
       = (Throw (empty_content_error documentName),
          mkPage (self p) (window p) (now p)
                 (page_console p ++ rejected_lines documentId documentName)
                 (toasts p ++ [("Failed to add document " +:+ documentName,
                                "Cannot add document " +:+ documentName
                                +:+ ": Content is empty")])))
  ∧ (∀ p : Page (MCPClientFactory.EnhancedMCPClient CS),
       MCPClientFactory.addDocumentToContext documentId documentName documentType content p
       = (Throw (empty_content_error documentName),
          mkPage (self p) (window p) (now p)
                 (page_console p ++ rejected_lines documentId documentName) (toasts p))).
Proof.
  intros Hempty.
  pose proof (empty_content_is_rejected_by_the_context_client
                documentId documentName documentType content Hempty) as Hcontext.
  split; [exact Hcontext|]. split.
  - intros p. unfold MCPClient.addDocumentToContext.
    rewrite Hempty. cbn [negb orb].
    unfold try_catch, bind at 1. rewrite page_log_run.
    unfold bind at 1, throw at 1. unfold bind at 1. rewrite page_log_run.
    unfold bind at 1. rewrite toast_error_run.
    unfold throw. cbn [self window now page_console toasts error_description].
    unfold rejected_lines. now rewrite <- app_assoc.
  - intros p. unfold MCPClientFactory.addDocumentToContext, MCPClientFactory.delegate.
    rewrite Hcontext. cbn [self window now page_console toasts]. now destruct p as [[] ? ? ? ?].
Qed.

(** The recording service receives no call. *)
Lemma empty_content_is_rejected_witness :
  let p : Page (MCPContextClient.MCPContextClient (list ServiceCall)) :=
    mkPage (MCPContextClient.new []) (Some (mkWindow [] [] [])) 0 [] [] in
  MCPContextClient.addDocumentToContext (service := recorder) "d1" "notes.txt" "plain" (Some "") p
  = (Throw (Error "Cannot add document notes.txt: Content is empty"),
     mkPage (MCPContextClient.new []) (Some (mkWindow [] [] [])) 0
            (rejected_lines "d1" "notes.txt") []).
Proof.
  intros p.
  destruct (empty_content_is_rejected (service := recorder)
              "d1" "notes.txt" "plain" (Some "") eq_refl) as [H _].
  exact (H p).
Defined.

(** ** The change notification *)

Lemma notifyDocumentContextChange_run {C} (p : Page C) :
  FileWatcher.notifyDocumentContextChange p
  = (Ok tt, mkPage (self p) (notified (now p) (window p)) (now p)
                   (page_console p ++ [(LOG, "FileWatcher: notifying document context change")])
                   (toasts p)).
Proof.
  unfold FileWatcher.notifyDocumentContextChange, bind. rewrite page_log_run.
  unfold modify. cbn [self window now page_console toasts].
  now destruct (window p).
Qed.

Lemma truthy_length_eqb (s : string) :
  truthy s = true → Nat.eqb (String.length s) 0 = false.
Proof. now destruct s. Qed.

(** The claim C4 as it is stated fails on the payload: the event a
    successful add through the client dispatches carries a timestamp and
    neither a [documentId] nor an [action]. *)
Lemma update_event_names_no_document :
  let p : Page (MCPContextClient.MCPContextClient (list ServiceCall)) :=
    mkPage (MCPContextClient.new [])
           (Some (mkWindow [(FileWatcher.documentContextUpdated, 7)] [] [])) 42 [] [] in
  let added :=
    MCPContextClient.addDocumentToContext (service := recorder)
      "d1" "notes.txt" "plain" (Some "hello") p in
  fst added = Ok tt
  ∧ MCPContextClient.contextService (self (snd added))
    = [CallAdd "d1" "notes.txt" "plain" "hello"]
  ∧ ∃ event,
      (dispatched <$> window (snd added)) = Some [event]
      ∧ (received <$> window (snd added)) = Some [(7, event)]
      ∧ detail event = [("timestamp", JNumber 42)]
      ∧ field "documentId" event = None
      ∧ field "action" event = None.
Proof.
  intros p added. split; [reflexivity|]. split; [reflexivity|].
  eexists. repeat split.
Qed.

(** C4, amended.  A successful add and a successful remove through a
    client dispatch, when there is a window, exactly one event of type
    [documentContextUpdated]; it is delivered once to every handler
    registered for that type, and its payload is the timestamp of the call:
    it names neither the document nor the action.  A remove that finds
    nothing dispatches no event. *)
Theorem one_update_event_per_change
    {CS : Type} {service : ContextService.Interface CS}
    (documentId documentName documentType content : string) (cs' : CS) :
  truthy content = true →
  (∀ p : Page (MCPContextClient.MCPContextClient CS),
     ContextService.addDocumentToContext documentId documentName documentType content
       (MCPContextClient.contextService (self p)) = (Ok tt, cs') →
     ∃ out,
       MCPContextClient.addDocumentToContext documentId documentName documentType
         (Some content) p
       = (Ok tt, mkPage (MCPContextClient.mkClient cs' (MCPContextClient.initialized (self p)))
                        (notified (now p) (window p)) (now p)
                        (page_console p ++ out) (toasts p)))
  ∧ (∀ (p : Page (MCPContextClient.MCPContextClient CS)) (removed : bool),
       ContextService.removeDocumentFromContext documentId
         (MCPContextClient.contextService (self p)) = (Ok removed, cs') →
       ∃ out,
         MCPContextClient.removeDocumentFromContext documentId p
         = (Ok removed,
            mkPage (MCPContextClient.mkClient cs' (MCPContextClient.initialized (self p)))
                   (if removed then notified (now p) (window p) else window p) (now p)
                   (page_console p ++ out) (toasts p)))
  ∧ (∀ t win,
       dispatched (dispatchEvent (update_event t) win) = dispatched win ++ [update_event t]
       ∧ received (dispatchEvent (update_event t) win)
         = received win ++ ((λ h, (h, update_event t))
                              <$> listeners_of FileWatcher.documentContextUpdated win)
       ∧ detail (update_event t) = [("timestamp", JNumber t)]
       ∧ field "documentId" (update_event t) = None
       ∧ field "action" (update_event t) = None).
Proof.
  intros Htruthy. split; [|split].
  - intros p Hadd. unfold MCPContextClient.addDocumentToContext.
    cbn [truthy_opt default id]. rewrite Htruthy, (truthy_length_eqb _ Htruthy).
    cbn [negb orb].
    unfold try_catch, bind at 1. rewrite page_log_run.
    unfold bind at 1, ret at 1.
    unfold bind at 1, MCPContextClient.call, zoom. cbn [self window now page_console toasts].
    rewrite Hadd.
    unfold bind at 1. rewrite page_log_run. rewrite notifyDocumentContextChange_run.
    cbn [self window now page_console toasts].
    eexists. rewrite <- !app_assoc. reflexivity.
  - intros p removed Hremove. unfold MCPContextClient.removeDocumentFromContext.
    unfold try_catch, bind at 1. rewrite page_log_run.
    unfold bind at 1, MCPContextClient.call, zoom. cbn [self window now page_console toasts].
    rewrite Hremove. destruct removed.
    + unfold bind at 1 2. rewrite page_log_run. rewrite notifyDocumentContextChange_run.
      unfold ret. cbn [self window now page_console toasts].
      eexists. rewrite <- !app_assoc. reflexivity.
    + unfold bind at 1. rewrite page_log_run.
      unfold ret. cbn [self window now page_console toasts].
      eexists. rewrite <- !app_assoc. reflexivity.
  - intros t win. repeat split.
Qed.

(** One event, delivered to the one handler. *)
Lemma one_update_event_per_change_witness :
  let p : Page (MCPContextClient.MCPContextClient (list ServiceCall)) :=
    mkPage (MCPContextClient.new [])
           (Some (mkWindow [(FileWatcher.documentContextUpdated, 7)] [] [])) 42 [] [] in
  ∃ out,
    MCPContextClient.addDocumentToContext (service := recorder)
      "d1" "notes.txt" "plain" (Some "hello") p
    = (Ok tt,
       mkPage (MCPContextClient.mkClient [CallAdd "d1" "notes.txt" "plain" "hello"] false)
              (Some (mkWindow [(FileWatcher.documentContextUpdated, 7)]
                              [update_event 42] [(7, update_event 42)]))
              42 out []).
Proof.
  intros p.
  destruct (one_update_event_per_change (service := recorder)
              "d1" "notes.txt" "plain" "hello"
              [CallAdd "d1" "notes.txt" "plain" "hello"] eq_refl) as [Hadd _].
  destruct (Hadd p eq_refl) as [out Hrun].
  exists out. exact Hrun.
Defined.

(** ** The singleton *)

Section Singleton.
Context {C : Type}.
Variable construct : MCPClientOptions → C.
Variable setMetisActive : bool → C → C.
Variable getMCPClient : MCPClientOptions → ModuleState C → nat * ModuleState C.

Hypothesis getMCPClient_eq : ∀ options m,
  getMCPClient options m =
  match mcpClientInstance m with
  | None =>
      let ref := length (objects m) in
      (ref, mkModule (objects m ++ [construct options]) (Some ref)
                     (module_console m ++ [(LOG, "Creating new MCP client instance");
                                           (LOG, "MCP Client initialized with options:")]))
  | Some ref =>
      match opt_metisActive options with
      | Some active =>
          (ref, mkModule (alter (setMetisActive active) ref (objects m))
                         (Some ref) (module_console m))
      | None => (ref, m)
      end
  end.

Lemma later_calls_keep_the_instance (later : list MCPClientOptions) :
  ∀ client console,
  call_each getMCPClient later (mkModule [client] (Some 0) console)
  = (replicate (length later) 0,
     mkModule [foldl (apply_metisActive setMetisActive) client later] (Some 0) console).
Proof.
  induction later as [|o later IH]; intros client console; [reflexivity|].
  cbn [call_each]. rewrite getMCPClient_eq. cbn [mcpClientInstance objects module_console].
  cbn [foldl length replicate]. unfold apply_metisActive at 2.
  destruct (opt_metisActive o) as [active|]; cbn [alter list_alter]; now rewrite IH.
Qed.

Lemma singleton_from_load (first : MCPClientOptions) (later : list MCPClientOptions) :
  getMCPClient first module_init
  = (0, mkModule [construct first] (Some 0)
                 [(LOG, "Creating new MCP client instance");
                  (LOG, "MCP Client initialized with options:")])
  ∧ call_each getMCPClient later (snd (getMCPClient first module_init))
    = (replicate (length later) 0,
       mkModule [foldl (apply_metisActive setMetisActive) (construct first) later] (Some 0)
                [(LOG, "Creating new MCP client instance");
                 (LOG, "MCP Client initialized with options:")]).
Proof.
  rewrite getMCPClient_eq. cbn [module_init mcpClientInstance objects module_console length app].
  split; [reflexivity|]. cbn [snd]. apply later_calls_keep_the_instance.
Qed.

End Singleton.

(** C10.  In a freshly loaded module the first call of [getMCPClient]
    constructs a client from its options and stores it; every later call
    returns the reference to that same object and constructs nothing; of the
    options of a later call only [metisActive] has an effect, and when it is
    defined it is applied to the instance with [setMetisActive].  This holds
    for the factory of [MCPClient] and for the one of [EnhancedMCPClient]. *)
Theorem getMCPClient_is_a_singleton
    {CS : Type} {service : ContextService.Interface CS}
    (first : MCPClientOptions) (later : list MCPClientOptions) :
  let created : list line :=
    [(LOG, "Creating new MCP client instance"); (LOG, "MCP Client initialized with options:")] in
  (MCPClientModule.getMCPClient first module_init
   = (0, mkModule [MCPClient.new first] (Some 0) created)
   ∧ call_each MCPClientModule.getMCPClient later
       (snd (MCPClientModule.getMCPClient first module_init))
     = (replicate (length later) 0,
        mkModule [foldl (apply_metisActive MCPClient.setMetisActive) (MCPClient.new first) later]
                 (Some 0) created))
  ∧ (MCPClientFactory.getMCPClient first module_init
     = (0, mkModule [MCPClientFactory.new first] (Some 0) created)
     ∧ call_each MCPClientFactory.getMCPClient later
         (snd (MCPClientFactory.getMCPClient first module_init))
       = (replicate (length later) 0,
          mkModule [foldl (apply_metisActive MCPClientFactory.setMetisActive)
                          (MCPClientFactory.new first) later]
                   (Some 0) created))
  ∧ ∀ (client : MCPClientFactory.EnhancedMCPClient CS) options,
      apply_metisActive MCPClientFactory.setMetisActive client options
      = apply_metisActive MCPClientFactory.setMetisActive client
          (mkClientOptions None None (opt_metisActive options)).
Proof.
  intros created. split; [|split].
  - apply (singleton_from_load MCPClient.new MCPClient.setMetisActive). reflexivity.
  - apply (singleton_from_load MCPClientFactory.new MCPClientFactory.setMetisActive). reflexivity.
  - reflexivity.
Qed.

(** ** Duplicate documents *)

Section SpecContextServiceFacts.
Context {P : Type} {storageService : ContextStorageService P}.

Import SpecContextService.







End SpecContextServiceFacts.

Section DuplicateExample.
#[local] Existing Instance Wire.codec.


End DuplicateExample.


Section DuplicateWitness.
#[local] Existing Instance Wire.codec.


End DuplicateWitness.

(** * Further properties of the storage services *)

(** ** Computations that only read *)

Section SilentFacts.
Context {St : Type} {backend : Storage St}.

Lemma quiet_silent {A} (m : M (World St) A) a : quiet m a → silent m.
Proof. intros H w. destruct (H w) as [out ->]. eauto. Qed.

Lemma silent_ret {A} (a : A) : silent (St := St) (ret a).
Proof. intros w. exists (Ok a), []. unfold ret. now rewrite app_nil_r, world_eta. Qed.

Lemma silent_throw {A} e : silent (St := St) (throw (A := A) e).
Proof. intros w. exists (Throw e), []. unfold throw. now rewrite app_nil_r, world_eta. Qed.

Lemma silent_console_write l msg : silent (St := St) (console_write l msg).
Proof. intros w. exists (Ok tt), [(l, msg)]. reflexivity. Qed.

Lemma silent_getItem key : silent (storage_getItem key).
Proof.
  intros w. exists (Ok (getItem (store w) key)), [].
  unfold storage_getItem. now rewrite app_nil_r, world_eta.
Qed.

Lemma silent_JSON_parse {codec : Codec} text : silent (St := St) (JSON_parse text).
Proof. unfold JSON_parse. destruct (parse text); [apply silent_ret | apply silent_throw]. Qed.

Lemma silent_bind {A B} (m : M (World St) A) (k : A → M (World St) B) :
  silent m → (∀ a, silent (k a)) → silent (bind m k).
Proof.
  intros Hm Hk w. destruct (Hm w) as (r & o1 & H1). unfold bind. rewrite H1.
  destruct r as [a|e].
  - destruct (Hk a (mkWorld (store w) (console w ++ o1))) as (r2 & o2 & ->).
    exists r2, (o1 ++ o2). cbn [store console]. now rewrite app_assoc.
  - now exists (Throw e), o1.
Qed.

Lemma silent_try_catch {A} (m : M (World St) A) h :
  silent m → (∀ e, silent (h e)) → silent (try_catch m h).
Proof.
  intros Hm Hh w. destruct (Hm w) as (r & o1 & H1). unfold try_catch. rewrite H1.
  destruct r as [a|e].
  - now exists (Ok a), o1.
  - destruct (Hh e (mkWorld (store w) (console w ++ o1))) as (r2 & o2 & ->).
    exists r2, (o1 ++ o2). cbn [store console]. now rewrite app_assoc.
Qed.

Lemma silent_mapM {A B} (f : A → M (World St) B) l :
  (∀ a, silent (f a)) → silent (mapM f l).
Proof.
  intros Hf. induction l as [|a l IH]; cbn [mapM]; [apply silent_ret|].
  apply silent_bind; [apply Hf|]. intros b.
  apply silent_bind; [apply IH | intros; apply silent_ret].
Qed.

End SilentFacts.

(** ** What [loadContext] returns to its caller *)

(** In both revisions [loadContext] returns to its caller whatever is
    stored, and leaves the backend as it was: the result is [null] when
    there is no storage, when the key holds nothing or the empty string, and
    when what it holds does not parse; otherwise it is the context
    [JSON.parse] gives, in the chunking revision with every reference
    replaced by what its key holds. *)
Theorem loadContext_only_reads
    {St : Type} {backend : Storage St} {codec : Codec}
    (conversationId : string) (w : World St) :
  (∀ this : Truncating.LocalStorageService,
     ∃ out,
       Truncating.loadContext this conversationId w
       = (Ok (if Truncating.storage this then
                match getItem (store w) (Truncating.storage_key this conversationId) with
                | Some item => if truthy item then parse item else None
                | None => None
                end
              else None),
          mkWorld (store w) (console w ++ out)))
  ∧ (∀ this : Chunking.LocalStorageService,
       ∃ out,
         Chunking.loadContext this conversationId w
         = (Ok (if Chunking.storage this then
                  match getItem (store w) (Chunking.storage_key this conversationId) with
                  | Some item =>
                      if truthy item
                      then Chunking.resolvedContext (store w) <$> parse item
                      else None
                  | None => None
                  end
                else None),
            mkWorld (store w) (console w ++ out))).
Proof.
  split; intros this.
  - apply truncating_loadContext_run.
  - apply chunking_loadContext_run.
Qed.

(** ** What the truncating service hands to the backend *)

Lemma prepared_entry (this : Truncating.LocalStorageService) (doc : DocumentContextEntry) :
  let doc' := Truncating.prepared this doc in
  documentId doc' = documentId doc
  ∧ documentName doc' = documentName doc
  ∧ documentType doc' = documentType doc
  ∧ truthy (content doc') = true
  ∧ String.length (content doc')
    ≤ Truncating.maxDocumentSize this + String.length Truncating.truncation_marker
  ∧ (content doc = "" → content doc' = "[No content available]")
  ∧ (truthy (content doc) = true →
     String.length (content doc) ≤ Truncating.maxDocumentSize this → doc' = doc).
Proof.
  intros doc'. subst doc'. unfold Truncating.prepared.
  destruct (truthy (content doc)) eqn:Htruthy; cbn [negb].
  - destruct (Nat.ltb_spec (Truncating.maxDocumentSize this) (String.length (content doc)))
      as [Hlong|Hshort].
    + cbn [with_content documentId documentName documentType content].
      repeat split; try reflexivity.
      * destruct (content doc) as [|c rest] eqn:Hc; [discriminate|].
        destruct (Truncating.maxDocumentSize this); reflexivity.
      * rewrite length_append, length_substring0 by lia. lia.
      * intros Hempty. rewrite Hempty in Htruthy. discriminate.
      * intros _ Hle. lia.
    + repeat split; try reflexivity; try assumption.
      * cbn [String.length Truncating.truncation_marker]. lia.
      * intros Hempty. rewrite Hempty in Htruthy. discriminate.
  - cbn [with_content documentId documentName documentType content].
    repeat split; try reflexivity.
    + unfold Truncating.no_content_placeholder, Truncating.truncation_marker.
      cbn [String.length]. lia.
    + discriminate.
Qed.

(** Whatever the context, [prepareContextForStorage] returns without
    touching the backend, and the context it returns differs from the one
    it was given in the contents of the documents only: every entry keeps
    its place, id, name and type, no content is empty (a missing one is
    the placeholder), none is longer than the ceiling and the marker, and
    a content that is not empty and within the ceiling is as it was. *)
Theorem prepared_documents_have_content
    {St : Type} {backend : Storage St} {codec : Codec} `{!CodecLaws codec}
    (this : Truncating.LocalStorageService) (context : MCPContext) (w : World St) :
  ∃ forStorage docs' out,
    Truncating.prepareContextForStorage this context w
      = (Ok forStorage, mkWorld (store w) (console w ++ out))
    ∧ forStorage = with_documentContext context docs'
    ∧ match documentContext context, docs' with
      | Some docs, Some docs' =>
          Forall2 (λ doc doc',
            documentId doc' = documentId doc
            ∧ documentName doc' = documentName doc
            ∧ documentType doc' = documentType doc
            ∧ truthy (content doc') = true
            ∧ String.length (content doc')
              ≤ Truncating.maxDocumentSize this + String.length Truncating.truncation_marker
            ∧ (content doc = "" → content doc' = "[No content available]")
            ∧ (truthy (content doc) = true →
               String.length (content doc) ≤ Truncating.maxDocumentSize this →
               doc' = doc)) docs docs'
      | None, None => True
      | _, _ => False
      end.
Proof.
  destruct (prepareContextForStorage_quiet this context w) as [out Hrun].
  exists (Truncating.preparedContext this context),
         (map (Truncating.prepared this) <$> documentContext context), out.
  split; [exact Hrun|]. unfold Truncating.preparedContext.
  destruct (documentContext context) as [docs|] eqn:Hdocs; cbn [fmap option_fmap option_map].
  - split; [reflexivity|].
    apply Forall2_fmap_r, Forall_Forall2_diag, Forall_forall.
    intros doc _. apply prepared_entry.
  - split; [|exact I]. destruct context; simpl in *. now rewrite Hdocs.
Qed.

Lemma prepared_twice (this : Truncating.LocalStorageService) (doc : DocumentContextEntry) :
  truthy (content doc) = true
  ∨ String.length Truncating.no_content_placeholder ≤ Truncating.maxDocumentSize this →
  Truncating.prepared this (Truncating.prepared this doc) = Truncating.prepared this doc.
Proof.
  intros Hdoc.
  destruct (truthy (content doc)) eqn:Htruthy.
  - destruct (Nat.ltb_spec (Truncating.maxDocumentSize this) (String.length (content doc)))
      as [Hlong|Hshort].
    + rewrite (prepared_large this doc Hlong). rewrite prepared_large.
      * cbn [with_content documentId documentName documentType content]. do 2 f_equal.
        rewrite <- (length_substring0 (Truncating.maxDocumentSize this) (content doc)) at 1
          by lia.
        apply substring0_append.
      * cbn [with_content content]. rewrite length_append, length_substring0 by lia.
        cbn [String.length Truncating.truncation_marker]. lia.
    + rewrite (prepared_small this doc Htruthy Hshort). now apply prepared_small.
  - destruct Hdoc as [Hdoc|Hroom]; [discriminate|].
    assert (Truncating.prepared this doc
            = with_content doc Truncating.no_content_placeholder) as ->.
    { unfold Truncating.prepared. now rewrite Htruthy. }
    apply prepared_small; [reflexivity | exact Hroom].
Qed.

(** Preparing a context that was prepared already changes nothing, when
    every document has a content or the ceiling leaves room for the
    placeholder: what a later save of a loaded context writes is what
    the first one wrote. *)
Theorem preparing_twice_changes_nothing
    {St : Type} {backend : Storage St} {codec : Codec} `{!CodecLaws codec}
    (this : Truncating.LocalStorageService) (context forStorage : MCPContext)
    (w w' : World St) :
  (∀ doc, doc ∈ default [] (documentContext context) →
     truthy (content doc) = true
     ∨ String.length Truncating.no_content_placeholder ≤ Truncating.maxDocumentSize this) →
  Truncating.prepareContextForStorage this context w = (Ok forStorage, w') →
  (∃ out, Truncating.prepareContextForStorage this forStorage w'
          = (Ok forStorage, mkWorld (store w') (console w' ++ out)))
  ∧ Truncating.payload this forStorage = forStorage.
Proof.
  intros Hdocs Hrun.
  destruct (prepareContextForStorage_quiet this context w) as [o1 H1].
  rewrite H1 in Hrun. injection Hrun as <- <-.
  assert (Truncating.preparedContext this (Truncating.preparedContext this context)
          = Truncating.preparedContext this context) as Htwice.
  { unfold Truncating.preparedContext.
    destruct (documentContext context) as [docs|] eqn:Hctx.
    - cbn [documentContext with_documentContext conversationId messageHistory
           modelPreference metisActive].
      do 2 f_equal. rewrite map_map. apply map_ext_in.
      intros doc Hdoc. apply prepared_twice, Hdocs. now apply list_elem_of_In.
    - now rewrite Hctx. }
  split.
  - destruct (prepareContextForStorage_quiet this (Truncating.preparedContext this context)
                (mkWorld (store w) (console w ++ o1))) as [o2 H2].
    exists o2. now rewrite H2, Htwice.
  - unfold Truncating.payload.
    destruct (documentContext (Truncating.preparedContext this context)) as [[|doc docs]|];
      [reflexivity | exact Htwice | reflexivity].
Qed.

Section PreparingWitness.
#[local] Existing Instance Wire.codec.

(** With a ceiling of four characters, [abcde] is cut once: preparing the
    result again returns it. *)
Lemma preparing_twice_changes_nothing_witness :
  ∃ forStorage w',
    Truncating.prepareContextForStorage Sample.truncating4 Sample.boundary (Sample.fresh 5000)
      = (Ok forStorage, w')
    ∧ fst (Truncating.prepareContextForStorage Sample.truncating4 forStorage w')
      = Ok forStorage.
Proof.
  destruct (Truncating.prepareContextForStorage Sample.truncating4 Sample.boundary
              (Sample.fresh 5000)) as [[forStorage|e] w'] eqn:Hrun;
    [|vm_compute in Hrun; discriminate].
  exists forStorage, w'. split; [reflexivity|].
  destruct (preparing_twice_changes_nothing Sample.truncating4 Sample.boundary forStorage
              (Sample.fresh 5000) w') as [[out ->] _]; [|exact Hrun|reflexivity].
  intros doc Hdoc. left. change (doc ∈ [Sample.exact; Sample.over]) in Hdoc.
  apply elem_of_cons in Hdoc as [->|Hdoc]; [reflexivity|].
  apply list_elem_of_singleton in Hdoc as ->. reflexivity.
Defined.

(** With a ceiling of four characters: [abcd] is kept, and the contents
    that are prepared keep their documents' ids. *)
Lemma prepared_documents_have_content_witness :
  ∃ forStorage,
    fst (Truncating.prepareContextForStorage Sample.truncating4 Sample.boundary
           (Sample.fresh 5000)) = Ok forStorage
    ∧ map documentId <$> documentContext forStorage = Some ["d4"; "d5"]
    ∧ (default [] (documentContext forStorage)) !! 0 = Some Sample.exact.
Proof.
  destruct (prepared_documents_have_content Sample.truncating4 Sample.boundary
              (Sample.fresh 5000)) as (forStorage & docs' & out & Hrun & -> & Hdocs).
  exists (with_documentContext Sample.boundary docs'). rewrite Hrun.
  split; [reflexivity|].
  change (documentContext Sample.boundary) with (Some [Sample.exact; Sample.over]) in Hdocs.
  destruct docs' as [docs'|]; [|contradiction].
  apply Forall2_cons_inv_l in Hdocs as (d4 & rest & H4 & Hrest & ->).
  apply Forall2_cons_inv_l in Hrest as (d5 & rest' & H5 & Hnil & ->).
  apply Forall2_nil_inv_l in Hnil as ->.
  destruct H4 as (Hid4 & _ & _ & _ & _ & _ & Hsame).
  destruct H5 as (Hid5 & _).
  assert (d4 = Sample.exact) as ->.
  { apply (Hsame eq_refl), Nat.leb_le. reflexivity. }
  cbn. rewrite Hid5. split; reflexivity.
Defined.

End PreparingWitness.

(** ** Errors that are not about room *)

(** The first write of [saveContext], refused: the fallback starts on the
    store as it was, after the line that reports the error. *)
Lemma saveContext_refused_lines
    {St : Type} {backend : Storage St} {codec : Codec} `{!CodecLaws codec}
    (this : Truncating.LocalStorageService) conversationId context (w : World St) e :
  Truncating.storage this = true →
  setItem (store w) (Truncating.storage_key this conversationId)
    (stringify (Truncating.payload this context)) = inl e →
  ∃ out, Truncating.saveContext this conversationId context w
         = Truncating.handleStorageError this conversationId context e
             (mkWorld (store w)
                (console w ++ out ++ [(ERROR, "Error saving context to storage:")])).
Proof.
  intros Hst Hset. unfold Truncating.saveContext. rewrite Hst. cbn [negb]. cbv zeta.
  unfold Truncating.payload in Hset.
  destruct (documentContext context) as [[|doc docs]|] eqn:Hdocs.
  - unfold try_catch, bind at 1 2, storage_setItem.
    rewrite Hset. unfold bind, console_write, modify. cbn [fst snd store console].
    exists []. reflexivity.
  - destruct (prepareContextForStorage_quiet this context w) as [o1 H1].
    unfold try_catch. rewrite (bind_Ok _ _ _ _ _ H1).
    unfold Truncating.preparedContext at 1. rewrite Hdocs.
    cbn [documentContext with_documentContext].
    unfold bind at 1, console_write at 1, modify. cbn [fst snd store console].
    unfold bind at 1, storage_setItem. cbn [store console]. rewrite Hset.
    unfold bind, console_write, modify. cbn [fst snd store console].
    exists (o1 ++ [(LOG, "Document sizes before storage:")]).
    rewrite <- !app_assoc. reflexivity.
  - unfold try_catch, bind at 1 2, storage_setItem.
    rewrite Hset. unfold bind, console_write, modify. cbn [fst snd store console].
    exists []. reflexivity.
Qed.

(** A write that fails for another reason than the quota is not tried
    again: [saveContext] returns, the last line of the console is the one
    that reports the error, and the backend holds what it held when the
    write failed (in the truncating service, what it held before the
    call). *)
Theorem only_quota_errors_are_retried
    {St : Type} {backend : Storage St} {codec : Codec} `{!CodecLaws codec}
    (conversationId : string) (context : MCPContext) (w : World St) (e : exn) :
  isQuotaExceeded e = false →
  (∀ this : Truncating.LocalStorageService,
     Truncating.storage this = true →
     setItem (store w) (Truncating.storage_key this conversationId)
       (stringify (Truncating.payload this context)) = inl e →
     ∃ out,
       Truncating.saveContext this conversationId context w
       = (Ok tt, mkWorld (store w)
                   (console w ++ out ++ [(ERROR, "Error saving context to storage:")])))
  ∧ (∀ (this : Chunking.LocalStorageService) (w1 : World St),
       Chunking.storage this = true →
       Chunking.saveContext_try this conversationId context w = (Throw e, w1) →
       Chunking.saveContext this conversationId context w
       = (Ok tt, mkWorld (store w1)
                   (console w1 ++ [(ERROR, "LocalStorageService: Error saving context:")]))).
Proof.
  intros Hother. split.
  - intros this Hst Hset.
    destruct (saveContext_refused_lines this conversationId context w e Hst Hset) as [out ->].
    exists out. now apply handleStorageError_other.
  - intros this w1 Hst Hrun. unfold Chunking.saveContext. rewrite Hst. cbn [negb].
    rewrite (try_catch_Throw _ _ _ _ _ Hrun).
    unfold Chunking.saveContext_catch. unfold bind. rewrite console_write_run.
    now rewrite Hother.
Qed.

Section LockedWitness.
#[local] Existing Instance Wire.codec.

(** On a storage that refuses every write with a [SecurityError], both
    services log the error and leave it at that. *)
Lemma only_quota_errors_are_retried_witness :
  let w := mkWorld (mkLocked ∅) [] in
  (∃ out,
     Truncating.saveContext Sample.truncating "c1" Sample.conversation w
     = (Ok tt, mkWorld (mkLocked ∅) (out ++ [(ERROR, "Error saving context to storage:")])))
  ∧ Chunking.saveContext Sample.chunking "c1" Sample.conversation w
    = (Ok tt, mkWorld (mkLocked ∅) [(ERROR, "LocalStorageService: Error saving context:")]).
Proof.
  intros w.
  destruct (only_quota_errors_are_retried "c1" Sample.conversation w
              (DOMException "SecurityError") eq_refl) as [HT HC].
  split.
  - destruct (HT Sample.truncating eq_refl eq_refl) as [out Hrun]. exists out. exact Hrun.
  - apply (HC Sample.chunking w eq_refl). vm_compute. reflexivity.
Defined.

End LockedWitness.

(** ** The keys a save writes *)

Lemma startsWith_append (a b : string) : startsWith a (a +:+ b) = true.
Proof. apply prefix_append. Qed.

Lemma startsWith_refl (a : string) : startsWith a a = true.
Proof. rewrite <- (append_nil_r a) at 2. apply prefix_append. Qed.

Section FrameFacts.
Context {St : Type} {backend : Storage St} `{!StorageLaws backend} {codec : Codec}.

Lemma silent_frames {A} k (m : M (World St) A) : silent m → frames k m.
Proof.
  intros Hm w r w' Hrun. destruct (Hm w) as (r' & out & H). rewrite H in Hrun.
  now injection Hrun as _ <-.
Qed.

Lemma frames_removeItem k key : key ≠ k → frames k (storage_removeItem key).
Proof.
  intros Hne w r w'. unfold storage_removeItem.
  destruct (removeItem (store w) key) as [e|s'] eqn:Hrem; intros [= <- <-]; [reflexivity|].
  cbn [store]. eapply getItem_removeItem_ne; eassumption.
Qed.

Lemma verifyStoredContext_silent key originalContext :
  silent (Truncating.verifyStoredContext (St := St) key originalContext).
Proof.
  intros w. destruct (verifyStoredContext_safe key originalContext w) as (r & out & H & _).
  eauto.
Qed.

Lemma prepareContextForStorage_silent this context :
  silent (Truncating.prepareContextForStorage (St := St) this context).
Proof.
  unfold Truncating.prepareContextForStorage.
  apply silent_bind; [apply silent_JSON_parse|]. intros contextCopy.
  destruct (documentContext contextCopy) as [docs|]; [|apply silent_ret].
  apply silent_bind; [|intros; apply silent_ret].
  apply silent_mapM. intros doc. eapply quiet_silent, prepareDocument_quiet.
Qed.

Lemma truncating_saveContext_frames this conversationId context k :
  k ≠ Truncating.storage_key this conversationId →
  frames k (Truncating.saveContext this conversationId context).
Proof.
  intros Hk. assert (Truncating.storage_key this conversationId ≠ k) as Hk' by congruence.
  unfold Truncating.saveContext.
  destruct (Truncating.storage this); cbn [negb]; [|apply frames_console_write].
  cbv zeta. apply frames_try_catch.
  - destruct (documentContext context) as [[|doc docs]|].
    + apply frames_bind; [now apply frames_setItem | intros; apply frames_console_write].
    + apply frames_bind; [apply silent_frames, prepareContextForStorage_silent|].
      intros contextForStorage.
      destruct (documentContext contextForStorage);
        [|apply silent_frames, silent_throw].
      apply frames_bind; [apply frames_console_write|]. intros _.
      apply frames_bind; [now apply frames_setItem|]. intros _.
      apply silent_frames, verifyStoredContext_silent.
    + apply frames_bind; [now apply frames_setItem | intros; apply frames_console_write].
  - intros error. apply frames_bind; [apply frames_console_write|]. intros _.
    unfold Truncating.handleStorageError.
    destruct (isQuotaExceeded error); [|apply frames_ret].
    apply frames_bind; [apply frames_console_write|]. intros _.
    apply frames_try_catch.
    + apply frames_bind; [now apply frames_setItem | intros; apply frames_console_write].
    + intros _. apply frames_bind; [apply frames_console_write|]. intros _.
      apply frames_try_catch.
      * apply frames_bind; [now apply frames_setItem | intros; apply frames_console_write].
      * intros _. apply frames_console_write.
Qed.

Lemma truncating_removeContext_frames this conversationId k :
  k ≠ Truncating.storage_key this conversationId →
  frames k (Truncating.removeContext this conversationId).
Proof.
  intros Hk. assert (Truncating.storage_key this conversationId ≠ k) as Hk' by congruence.
  unfold Truncating.removeContext.
  destruct (Truncating.storage this); cbn [negb].
  2:{ apply frames_bind; [apply frames_console_write | intros; apply frames_ret]. }
  cbv zeta. apply frames_try_catch.
  - apply frames_bind; [now apply frames_removeItem|]. intros _.
    apply frames_bind; [apply silent_frames, silent_getItem|]. intros item.
    destruct (bool_decide _);
      (apply frames_bind; [apply frames_console_write | intros; apply frames_ret]).
  - intros _. apply frames_bind; [apply frames_console_write | intros; apply frames_ret].
Qed.

Lemma chunking_key_prefix (this : Chunking.LocalStorageService) conversationId k suffix :
  startsWith (Chunking.storage_key this conversationId) k = false →
  Chunking.keyPrefix this +:+ conversationId +:+ suffix ≠ k.
Proof.
  intros Hk <-. unfold Chunking.storage_key in Hk.
  rewrite <- append_assoc, startsWith_append in Hk. discriminate.
Qed.

Lemma chunking_saveContext_frames this conversationId context k :
  startsWith (Chunking.storage_key this conversationId) k = false →
  frames k (Chunking.saveContext this conversationId context).
Proof.
  intros Hk.
  assert (Chunking.storage_key this conversationId ≠ k) as Hmain.
  { intros <-. rewrite startsWith_refl in Hk. discriminate. }
  unfold Chunking.saveContext.
  destruct (Chunking.storage this); cbn [negb]; [|apply frames_console_write].
  apply frames_try_catch.
  - unfold Chunking.saveContext_try. cbv zeta.
    destruct (documentContext context) as [[|doc docs]|].
    + apply frames_bind; [now apply frames_setItem | intros; apply frames_console_write].
    + apply frames_bind; [apply silent_frames, silent_JSON_parse|]. intros contextCopy.
      destruct (documentContext contextCopy) as [cdocs|];
        [|apply silent_frames, silent_throw].
      apply frames_bind.
      * apply frames_mapM. intros d _. unfold Chunking.storeDocument.
        destruct (Chunking.is_large this d); [|apply frames_ret].
        apply frames_bind; [apply frames_setItem, chunking_key_prefix, Hk|]. intros _.
        apply frames_bind; [apply frames_console_write | intros; apply frames_ret].
      * intros docs'.
        apply frames_bind; [now apply frames_setItem | intros; apply frames_console_write].
    + apply frames_bind; [now apply frames_setItem | intros; apply frames_console_write].
  - intros error. unfold Chunking.saveContext_catch.
    apply frames_bind; [apply frames_console_write|]. intros _.
    destruct (isQuotaExceeded error); [|apply frames_ret].
    apply frames_try_catch.
    + apply frames_bind; [apply frames_setItem, chunking_key_prefix, Hk|].
      intros _. apply frames_console_write.
    + intros _. apply frames_console_write.
Qed.

End FrameFacts.

(** On a backend that behaves as a key-value store, what a conversation
    saves or removes does not reach the entries of others: [saveContext]
    and [removeContext] of the truncating service leave every key but the
    conversation's own as it was, and [saveContext] of the chunking service
    every key that does not begin with the conversation's own, whether the
    call succeeds, degrades or fails. *)
Theorem saving_touches_only_its_own_keys
    {St : Type} {backend : Storage St} `{!StorageLaws backend} {codec : Codec}
    (conversationId : string) (k : string) :
  (∀ this : Truncating.LocalStorageService,
     k ≠ Truncating.storage_key this conversationId →
     (∀ context w,
        getItem (store (snd (Truncating.saveContext this conversationId context w))) k
        = getItem (store w) k)
     ∧ (∀ w,
          getItem (store (snd (Truncating.removeContext this conversationId w))) k
          = getItem (store w) k))
  ∧ (∀ this : Chunking.LocalStorageService,
       startsWith (Chunking.storage_key this conversationId) k = false →
       ∀ context w,
         getItem (store (snd (Chunking.saveContext this conversationId context w))) k
         = getItem (store w) k).
Proof.
  split.
  - intros this Hk. split.
    + intros context w.
      destruct (Truncating.saveContext this conversationId context w) as [r w'] eqn:Hrun.
      exact (truncating_saveContext_frames this conversationId context k Hk w r w' Hrun).
    + intros w.
      destruct (Truncating.removeContext this conversationId w) as [r w'] eqn:Hrun.
      exact (truncating_removeContext_frames this conversationId k Hk w r w' Hrun).
  - intros this Hk context w.
    destruct (Chunking.saveContext this conversationId context w) as [r w'] eqn:Hrun.
    exact (chunking_saveContext_frames this conversationId context k Hk w r w' Hrun).
Qed.

Section FrameWitness.
#[local] Existing Instance Wire.codec.

(** A save for [c1] that has to degrade leaves the entry of [c2] alone. *)
Lemma saving_touches_only_its_own_keys_witness :
  let w := mkWorld (mkLocalStorage {[ "mcp-context-c2" := "kept" ]} 400) [] in
  getItem (store (snd (Truncating.saveContext Sample.truncating "c1" Sample.conversation w)))
          "mcp-context-c2"
  = Some "kept".
Proof.
  intros w.
  destruct (saving_touches_only_its_own_keys (backend := localStorage) "c1" "mcp-context-c2")
    as [HT _].
  destruct (HT Sample.truncating) as [Hsave _]; [discriminate|].
  rewrite Hsave. reflexivity.
Defined.

End FrameWitness.

(** ** Loading after a degraded save *)

(** In the truncating service the degraded copy takes the place of the
    full one.  When the first write is refused for quota and the write of
    the placeholders is taken, [loadContext] returns the context with, for
    every document, its id, name and type and the placeholder that names
    it; when that write is refused too and the last one is taken, it
    returns the context with an empty document list. *)
Theorem degraded_copy_is_what_loads
    {St : Type} {backend : Storage St} `{!StorageLaws backend}
    {codec : Codec} `{!CodecLaws codec}
    (this : Truncating.LocalStorageService)
    (conversationId : string) (context : MCPContext) (w : World St) (e : exn) :
  let key := Truncating.storage_key this conversationId in
  let after := snd (Truncating.saveContext this conversationId context w) in
  Truncating.storage this = true →
  setItem (store w) key (stringify (Truncating.payload this context)) = inl e →
  isQuotaExceeded e = true →
  (∀ s1, setItem (store w) key (stringify (Truncating.minimalContext context)) = inr s1 →
     ∃ loaded,
       fst (Truncating.loadContext this conversationId after) = Ok (Some loaded)
       ∧ loaded = with_documentContext context (documentContext loaded)
       ∧ match documentContext context, documentContext loaded with
         | Some docs, Some docs' =>
             Forall2 (λ doc doc',
               documentId doc' = documentId doc
               ∧ documentName doc' = documentName doc
               ∧ documentType doc' = documentType doc
               ∧ content doc'
                 = "[Content removed due to storage limitations. Document: "
                   +:+ documentName doc +:+ "]") docs docs'
         | None, None => True
         | _, _ => False
         end)
  ∧ (∀ e1 s2,
       setItem (store w) key (stringify (Truncating.minimalContext context)) = inl e1 →
       setItem (store w) key (stringify (Truncating.bareContext context)) = inr s2 →
       fst (Truncating.loadContext this conversationId after)
       = Ok (Some (with_documentContext context (Some [])))).
Proof.
  intros key after Hst Hset Hquota.
  destruct (saveContext_refused_lines this conversationId context w e Hst Hset) as [out Hsave].
  unfold Truncating.handleStorageError in Hsave. rewrite Hquota in Hsave.
  unfold bind at 1 in Hsave. rewrite console_write_run in Hsave. cbn [store console] in Hsave.
  unfold try_catch at 1, bind at 1, storage_setItem at 1 in Hsave.
  cbn [store console] in Hsave. fold key in Hsave.
  split.
  - intros s1 Hmin. rewrite Hmin in Hsave. rewrite console_write_run in Hsave.
    subst after. rewrite Hsave. cbn [snd store console].
    exists (Truncating.minimalContext context). split; [|split].
    + match goal with
      | |- fst (Truncating.loadContext _ _ ?w1) = _ =>
          destruct (loadContext_stored this conversationId
                      (Truncating.minimalContext context) w1 Hst) as [out' ->]
      end; [|reflexivity].
      cbn [store]. eapply getItem_setItem_eq, Hmin.
    + unfold Truncating.minimalContext.
      destruct (documentContext context) as [docs|] eqn:Hdocs; [reflexivity|].
      rewrite Hdocs. destruct context; simpl in *. now rewrite Hdocs.
    + unfold Truncating.minimalContext.
      destruct (documentContext context) as [docs|] eqn:Hdocs.
      * cbn [documentContext with_documentContext].
        apply Forall2_fmap_r, Forall_Forall2_diag, Forall_forall.
        intros doc _. repeat split.
      * now rewrite Hdocs.
  - intros e1 s2 Hmin Hbare. rewrite Hmin in Hsave.
    unfold bind at 1 in Hsave. rewrite console_write_run in Hsave.
    unfold try_catch, bind at 1, storage_setItem in Hsave. cbn [store console] in Hsave.
    fold key in Hsave. rewrite Hbare in Hsave. rewrite console_write_run in Hsave.
    subst after. rewrite Hsave. cbn [snd store console].
    match goal with
    | |- fst (Truncating.loadContext _ _ ?w1) = _ =>
        destruct (loadContext_stored this conversationId
                    (Truncating.bareContext context) w1 Hst) as [out' ->]
    end; [|reflexivity].
    cbn [store]. eapply getItem_setItem_eq, Hbare.
Qed.

Section DegradedLoadWitness.
#[local] Existing Instance Wire.codec.

(** With room for 400 characters the sample conversation loads with the
    placeholder in the place of its one content. *)
Lemma degraded_copy_is_what_loads_witness :
  let w := Sample.fresh 400 in
  let after := snd (Truncating.saveContext Sample.truncating "c1" Sample.conversation w) in
  ∃ loaded,
    fst (Truncating.loadContext Sample.truncating "c1" after) = Ok (Some loaded)
    ∧ (content <$> default [] (documentContext loaded))
      = ["[Content removed due to storage limitations. Document: notes.txt]"].
Proof.
  intros w after.
  destruct (degraded_copy_is_what_loads Sample.truncating "c1" Sample.conversation w
              QuotaExceededError eq_refl) as [Hmin _];
    [vm_compute; reflexivity | reflexivity|].
  assert (∃ s1, setItem (store w) (Truncating.storage_key Sample.truncating "c1")
                  (stringify (Truncating.minimalContext Sample.conversation)) = inr s1)
    as [s1 Hs1] by (eexists; vm_compute; reflexivity).
  destruct (Hmin s1 Hs1) as (loaded & Hload & _ & Hdocs).
  exists loaded. split; [exact Hload|].
  change (documentContext Sample.conversation) with (Some [Sample.notes]) in Hdocs.
  destruct (documentContext loaded) as [docs'|]; [|contradiction].
  apply Forall2_cons_inv_l in Hdocs as (doc' & rest & (_ & _ & _ & Hcontent) & Hrest & ->).
  apply Forall2_nil_inv_l in Hrest as ->. cbn. now rewrite Hcontent.
Defined.

End DegradedLoadWitness.

(** ** Truncated documents, when they are loaded *)

Section FlagFacts.
Context {St : Type} {backend : Storage St} {codec : Codec}.

Lemma report_line_mono docs docs' l :
  (∀ doc, doc ∈ docs → doc ∈ docs') → report_line docs l → report_line docs' l.
Proof.
  intros Hsub [Hlog|(doc & Hdoc & Hincl & ->)]; [now left|].
  right. exists doc. split; [now apply Hsub|]. now split.
Qed.

Lemma reportDocuments_flags docs : ∀ i (w : World St),
  ∃ flags,
    Truncating.reportDocuments i docs w = (Ok tt, mkWorld (store w) (console w ++ flags))
    ∧ (∀ doc, doc ∈ docs →
         truthy (content doc) && includes truncation_text (content doc) = true →
         truncation_flag doc ∈ flags)
    ∧ Forall (report_line docs) flags.
Proof.
  induction docs as [|doc rest IH]; intros i w.
  - exists []. cbn [Truncating.reportDocuments]. unfold ret. rewrite app_nil_r, world_eta.
    split; [reflexivity|]. split; [|constructor].
    intros doc Hdoc. now apply elem_of_nil in Hdoc.
  - cbn [Truncating.reportDocuments]. unfold Truncating.reportDocument.
    fold truncation_text.
    unfold bind at 1 2. rewrite console_write_run. cbn [store console].
    destruct (truthy (content doc) && includes truncation_text (content doc)) eqn:Hflag.
    + rewrite console_write_run. cbn [store console].
      match goal with
      | |- context [Truncating.reportDocuments (S i) rest ?w1] =>
          destruct (IH (S i) w1) as (flags & -> & Hin & Hlines)
      end.
      cbn [store console]. eexists (_ :: truncation_flag doc :: flags).
      rewrite <- !app_assoc. split; [reflexivity|]. split.
      * intros d Hd Hd'. apply elem_of_cons in Hd as [->|Hd].
        -- right. left.
        -- right. right. now apply Hin.
      * constructor; [now left|]. constructor.
        -- right. exists doc. split; [left|]. split; [|reflexivity].
           now apply andb_true_iff in Hflag.
        -- eapply Forall_impl; [exact Hlines|]. intros l. apply report_line_mono.
           intros d Hd. now right.
    + unfold ret at 1.
      match goal with
      | |- context [Truncating.reportDocuments (S i) rest ?w1] =>
          destruct (IH (S i) w1) as (flags & -> & Hin & Hlines)
      end.
      cbn [store console]. eexists (_ :: flags).
      rewrite <- !app_assoc. split; [reflexivity|]. split.
      * intros d Hd Hd'. apply elem_of_cons in Hd as [->|Hd]; [congruence|].
        right. now apply Hin.
      * constructor; [now left|].
        eapply Forall_impl; [exact Hlines|]. intros l. apply report_line_mono.
        intros d Hd. now right.
Qed.

Lemma no_empty_documents (docs : list DocumentContextEntry) :
  (∀ d, d ∈ docs → truthy (content d) = true) →
  filter (λ doc, truthy (content doc) = false) docs = [].
Proof.
  induction docs as [|doc rest IH]; intros Hall; [reflexivity|].
  rewrite filter_cons, decide_False.
  - apply IH. intros d Hd. apply Hall. now right.
  - rewrite (Hall doc) by left. discriminate.
Qed.

(** Loading a stored context whose documents all have a content: the
    result, and everything the call writes to the console. *)
Lemma loadContext_stored_flags `{!CodecLaws codec} (this : Truncating.LocalStorageService)
    conversationId context doc docs (w : World St) :
  Truncating.storage this = true →
  getItem (store w) (Truncating.storage_key this conversationId) = Some (stringify context) →
  documentContext context = Some (doc :: docs) →
  (∀ d, d ∈ doc :: docs → truthy (content d) = true) →
  ∃ out,
    Truncating.loadContext this conversationId w
    = (Ok (Some context), mkWorld (store w) (console w ++ out))
    ∧ (∀ d, d ∈ doc :: docs →
         includes truncation_text (content d) = true →
         truncation_flag d ∈ out)
    ∧ Forall (report_line (doc :: docs)) out.
Proof.
  intros Hst Hget Hdocs Hall. unfold Truncating.loadContext. rewrite Hst. cbn [negb]. cbv zeta.
  unfold try_catch, bind at 1, storage_getItem. rewrite Hget.
  cbn [truthy_opt default id]. rewrite stringify_truthy. cbn [negb].
  unfold JSON_parse. rewrite parse_stringify. unfold bind at 1, ret at 1. rewrite Hdocs.
  unfold bind at 1. rewrite console_write_run. cbn [store console].
  rewrite (no_empty_documents _ Hall). cbn [length Nat.ltb Nat.leb].
  unfold bind at 1, ret at 1. unfold bind at 1.
  match goal with
  | |- context [Truncating.reportDocuments 0 (doc :: docs) ?w1] =>
      destruct (reportDocuments_flags (doc :: docs) 0 w1) as (flags & -> & Hin & Hlines)
  end.
  unfold ret. cbn [store console].
  exists ([(LOG, "Loaded context with " +:+ pretty (length (doc :: docs))
                 +:+ " documents for " +:+ conversationId)] ++ flags).
  rewrite <- !app_assoc. split; [reflexivity|]. split.
  - intros d Hd Hincl. apply elem_of_app. right. apply (Hin d Hd).
    now rewrite (Hall d Hd), Hincl.
  - apply Forall_app. split; [|exact Hlines]. constructor; [now left | constructor].
Qed.

End FlagFacts.

(** In the truncating service a document that was cut when it was saved is
    reported when it is loaded.  After a save whose first write the backend
    took, [loadContext] returns the context as it was written; among the
    lines the call adds to the console there is, for every document longer
    than the ceiling, the warning that names it; every warning among these
    lines is such a warning, for a written document whose content includes
    the marker text; and when no written content includes it, the call
    logs no warning at all: all its lines are of level LOG. *)
Theorem truncated_documents_are_flagged_on_load
    {St : Type} {backend : Storage St} `{!StorageLaws backend}
    {codec : Codec} `{!CodecLaws codec}
    (this : Truncating.LocalStorageService)
    (conversationId : string) (context : MCPContext)
    (doc : DocumentContextEntry) (docs : list DocumentContextEntry)
    (w : World St) (s' : St) :
  let key := Truncating.storage_key this conversationId in
  let after := snd (Truncating.saveContext this conversationId context w) in
  let written := Truncating.prepared this <$> (doc :: docs) in
  let text := "[CONTENT TRUNCATED DUE TO SIZE LIMITATIONS]" in
  let flag (d : DocumentContextEntry) : line :=
    (WARN, "Document " +:+ documentName d
           +:+ " was previously truncated due to size limitations") in
  Truncating.storage this = true →
  documentContext context = Some (doc :: docs) →
  setItem (store w) key (stringify (Truncating.payload this context)) = inr s' →
  ∃ out,
    Truncating.loadContext this conversationId after
    = (Ok (Some (with_documentContext context (Some written))),
       mkWorld s' (console after ++ out))
    ∧ (∀ d, d ∈ doc :: docs →
         Truncating.maxDocumentSize this < String.length (content d) →
         flag d ∈ out)
    ∧ (∀ l, l ∈ out → l.1 ≠ LOG →
         ∃ d, d ∈ written ∧ includes text (content d) = true ∧ l = flag d)
    ∧ ((∀ d, d ∈ written → includes text (content d) = false) →
       Forall (λ l : line, l.1 = LOG) out).
Proof.
  intros key after written text flag Hst Hdocs Hset.
  destruct (saveContext_accepted this conversationId context w s' Hst Hset) as [out0 Hsave].
  assert (Truncating.payload this context = with_documentContext context (Some written))
    as Hpayload.
  { unfold Truncating.payload, Truncating.preparedContext. now rewrite Hdocs. }
  rewrite Hpayload in Hset.
  destruct (loadContext_stored_flags this conversationId
              (with_documentContext context (Some written))
              (Truncating.prepared this doc) (Truncating.prepared this <$> docs) after Hst)
    as (out & Hload & Hin & Hlines).
  { subst after. rewrite Hsave. cbn [snd store]. eapply getItem_setItem_eq, Hset. }
  { reflexivity. }
  { intros d Hd. change (d ∈ Truncating.prepared this <$> (doc :: docs)) in Hd.
    apply list_elem_of_fmap in Hd as (d0 & -> & _).
    now destruct (prepared_entry this d0) as (_ & _ & _ & Htruthy & _). }
  exists out. split; [|split; [|split]].
  - rewrite Hload. subst after. rewrite Hsave. reflexivity.
  - intros d Hd Hlong.
    assert (truncation_flag (Truncating.prepared this d) = flag d) as <-.
    { subst flag. cbv beta. now rewrite (prepared_large this d Hlong). }
    apply (Hin (Truncating.prepared this d)).
    + change (Truncating.prepared this d ∈ Truncating.prepared this <$> (doc :: docs)).
      apply list_elem_of_fmap. now exists d.
    + rewrite (prepared_large this d Hlong). cbn [with_content content].
      assert (∀ a, a +:+ Truncating.truncation_marker
                   = (a +:+ String (Ascii.ascii_of_nat 10) "") +:+ truncation_text +:+ "")
        as ->.
      { intros a. rewrite append_assoc, append_nil_r. reflexivity. }
      apply includes_append. discriminate.
  - intros l Hl Hlevel. rewrite Forall_forall in Hlines.
    destruct (Hlines l Hl) as [Hlog|(d & Hd & Hincl & ->)]; [contradiction|].
    exists d. split; [exact Hd|]. split; [exact Hincl | reflexivity].
  - intros Hnone. eapply Forall_impl; [exact Hlines|].
    intros l [Hlog|(d & Hd & Hincl & _)]; [exact Hlog|].
    specialize (Hnone d Hd). unfold truncation_text in Hincl. subst text. congruence.
Qed.

Section FlagWitness.
#[local] Existing Instance Wire.codec.

(** With a ceiling of four characters, [five.txt] is reported. *)
Lemma truncated_documents_are_flagged_on_load_witness :
  let after := snd (Truncating.saveContext Sample.truncating4 "c2" Sample.boundary
                      (Sample.fresh 5000)) in
  (WARN, "Document five.txt was previously truncated due to size limitations")
  ∈ console (snd (Truncating.loadContext Sample.truncating4 "c2" after)).
Proof.
  intros after.
  assert (∃ s', setItem (store (Sample.fresh 5000))
                  (Truncating.storage_key Sample.truncating4 "c2")
                  (stringify (Truncating.payload Sample.truncating4 Sample.boundary)) = inr s')
    as [s' Hset] by (eexists; vm_compute; reflexivity).
  destruct (truncated_documents_are_flagged_on_load Sample.truncating4 "c2" Sample.boundary
              Sample.exact [Sample.over] (Sample.fresh 5000) s' eq_refl eq_refl Hset)
    as (out & Hload & Hin & _).
  fold after in Hload. rewrite Hload. cbn [snd console].
  apply elem_of_app. right.
  apply (Hin Sample.over); [right; left | vm_compute; lia].
Defined.

End FlagWitness.

(** ** Removing what the chunking service saved *)

Section RemoveFacts.
Context {St : Type} {backend : Storage St} `{!StorageLaws backend} {codec : Codec}.

Lemma only_removes_ret {A} (a : A) : only_removes (St := St) (ret a).
Proof. intros w r w' k. unfold ret. now intros [= <- <-]. Qed.

Lemma only_removes_console_write l msg : only_removes (St := St) (console_write l msg).
Proof. intros w r w' k. rewrite console_write_run. now intros [= <- <-]. Qed.

Lemma only_removes_removeItem key : only_removes (storage_removeItem key).
Proof.
  intros w r w' k. unfold storage_removeItem.
  destruct (removeItem (store w) key) as [e|s'] eqn:Hrem; intros [= <- <-]; [easy|].
  cbn [store]. intros Hnone. destruct (decide (key = k)) as [->|Hne].
  - eapply getItem_removeItem_eq, Hrem.
  - now rewrite (getItem_removeItem_ne _ _ _ _ Hrem Hne).
Qed.

Lemma only_removes_bind {A B} (m : M (World St) A) (f : A → M (World St) B) :
  only_removes m → (∀ a, only_removes (f a)) → only_removes (bind m f).
Proof.
  intros Hm Hf w r w' k. unfold bind.
  destruct (m w) as [[a|e] w1] eqn:H1.
  - intros H2 Hnone. eapply Hf; [exact H2|]. eapply Hm; eassumption.
  - intros [= <- <-]. eapply Hm, H1.
Qed.

Lemma only_removes_removeDocument doc : only_removes (Chunking.removeDocument doc).
Proof.
  unfold Chunking.removeDocument. destruct (_ && _); [|apply only_removes_ret].
  apply only_removes_bind; [apply only_removes_removeItem|].
  intros _. apply only_removes_console_write.
Qed.

Lemma only_removes_forEach {A} (f : A → M (World St) unit) l :
  (∀ a, only_removes (f a)) → only_removes (forEach f l).
Proof.
  intros Hf. induction l as [|a l IH]; cbn [forEach]; [apply only_removes_ret|].
  apply only_removes_bind; [apply Hf | intros _; apply IH].
Qed.

(** A completed run of the loop that removes the referenced documents
    leaves none of the keys it read behind. *)
Lemma removeDocuments_run docs : ∀ (w w' : World St),
  forEach Chunking.removeDocument docs w = (Ok tt, w') →
  ∀ doc, doc ∈ docs →
    truthy (content doc) && startsWith Chunking.doc_ref (content doc) = true →
    getItem (store w') (replace_first_empty Chunking.doc_ref (content doc)) = None.
Proof.
  induction docs as [|d rest IH]; intros w w' Hrun doc Hdoc Href.
  - now apply elem_of_nil in Hdoc.
  - cbn [forEach] in Hrun. apply bind_Ok_inv in Hrun as ([] & w1 & Hd & Hrest).
    apply elem_of_cons in Hdoc as [->|Hdoc]; [|eapply IH; eassumption].
    apply (only_removes_forEach _ rest only_removes_removeDocument _ _ _ _ Hrest).
    unfold Chunking.removeDocument in Hd. rewrite Href in Hd.
    apply bind_Ok_inv in Hd as ([] & w2 & Hrem & Hlog).
    rewrite console_write_run in Hlog. injection Hlog as <-. cbn [store].
    unfold storage_removeItem in Hrem.
    destruct (removeItem (store w) _) as [e|s'] eqn:Hs'; [discriminate|].
    injection Hrem as <-. cbn [store]. eapply getItem_removeItem_eq, Hs'.
Qed.

(** What a [removeContext] that answers [true] has done. *)
Lemma chunking_removeContext_true (this : Chunking.LocalStorageService)
    conversationId (w w' : World St) :
  Chunking.removeContext this conversationId w = (Ok true, w') →
  getItem (store w') (Chunking.storage_key this conversationId) = None
  ∧ getItem (store w') (Chunking.minimal_key this conversationId) = None
  ∧ (∀ k, getItem (store w) k = None → getItem (store w') k = None)
  ∧ (∀ item context docs doc,
       getItem (store w) (Chunking.storage_key this conversationId) = Some item →
       truthy item = true → parse item = Some context →
       documentContext context = Some docs → doc ∈ docs →
       truthy (content doc) && startsWith Chunking.doc_ref (content doc) = true →
       getItem (store w') (replace_first_empty Chunking.doc_ref (content doc)) = None).
Proof.
  unfold Chunking.removeContext.
  destruct (Chunking.storage this); cbn [negb].
  2:{ unfold bind, ret. rewrite console_write_run. discriminate. }
  cbv zeta. unfold try_catch.
  match goal with
  | |- context [match ?m w with _ => _ end] => destruct (m w) as [[b|e] w0] eqn:Hrun
  end.
  2:{ unfold bind, ret. rewrite console_write_run. discriminate. }
  intros [= -> ->].
  apply bind_Ok_inv in Hrun as (contextJson & w1 & Hget & Hrun).
  unfold storage_getItem in Hget. injection Hget as <- <-.
  apply bind_Ok_inv in Hrun as ([] & w2 & Hdocs & Hrun).
  apply bind_Ok_inv in Hrun as ([] & w3 & Hrem & Hrun).
  apply bind_Ok_inv in Hrun as ([] & w4 & Hlog & Hrun).
  apply bind_Ok_inv in Hrun as ([] & w5 & Hmin & Hrun).
  apply ret_inv in Hrun as [_ <-].
  rewrite console_write_run in Hlog. injection Hlog as <-.
  pose proof (λ k, only_removes_removeItem _ _ _ _ k Hrem) as Hkeep3.
  pose proof (λ k, only_removes_removeItem _ _ _ _ k Hmin) as Hkeep5. cbn [store] in Hkeep5.
  unfold storage_removeItem in Hrem, Hmin. cbn [store console] in Hmin.
  destruct (removeItem (store w2) _) as [e|s3] eqn:Hrem3; [discriminate|].
  injection Hrem as <-. cbn [store] in *.
  destruct (removeItem s3 _) as [e|s5] eqn:Hrem5; [discriminate|].
  injection Hmin as <-. cbn [store] in *.
  assert (∀ k, getItem (store w) k = None → getItem (store w2) k = None) as Hkeep2.
  { intros k. revert Hdocs.
    destruct (truthy_opt (getItem (store w) (Chunking.storage_key this conversationId)));
      [|intros Hdocs; apply ret_inv in Hdocs as [_ <-]; tauto].
    unfold JSON_parse. destruct (parse _) as [context|]; [|discriminate].
    unfold bind at 1, ret at 1.
    destruct (documentContext context) as [docs|];
      [|intros Hdocs; apply ret_inv in Hdocs as [_ <-]; tauto].
    intros Hdocs. exact (only_removes_forEach _ docs only_removes_removeDocument _ _ _ k Hdocs). }
  split; [|split; [|split]].
  - apply Hkeep5. eapply getItem_removeItem_eq, Hrem3.
  - eapply getItem_removeItem_eq, Hrem5.
  - intros k Hk. apply Hkeep5, Hkeep3, Hkeep2, Hk.
  - intros item context docs doc Hitem Htruthy Hparse Hcontext Hdoc Href.
    apply Hkeep5, Hkeep3. revert Hdocs. rewrite Hitem. cbn [truthy_opt default id].
    rewrite Htruthy. unfold JSON_parse. rewrite Hparse.
    unfold bind at 1, ret at 1. rewrite Hcontext.
    intros Hdocs. eapply removeDocuments_run; eassumption.
Qed.

(** A [try] block that completes has written the main key last. *)
Lemma saveContext_try_main `{!CodecLaws codec} (this : Chunking.LocalStorageService)
    conversationId context (w w' : World St) :
  Chunking.saveContext_try this conversationId context w = (Ok tt, w') →
  getItem (store w') (Chunking.storage_key this conversationId)
  = Some (stringify (match documentContext context with
                     | Some ((_ :: _) as docs) =>
                         with_documentContext context
                           (Some (map (Chunking.stored this conversationId) docs))
                     | _ => context
                     end)).
Proof.
  unfold Chunking.saveContext_try. cbv zeta. intros Hrun.
  assert (∀ c (w1 w2 : World St),
            (storage_setItem (Chunking.storage_key this conversationId) (stringify c) >>
             console_write LOG ("Context saved for conversation " +:+ conversationId
                                +:+ " with key " +:+ Chunking.storage_key this conversationId)) w1
            = (Ok tt, w2) →
            getItem (store w2) (Chunking.storage_key this conversationId)
            = Some (stringify c)) as Hlast.
  { intros c w1 w2 H. apply bind_Ok_inv in H as ([] & w3 & Hset & H).
    apply storage_setItem_Ok_inv in Hset as (s' & Hset & ->).
    rewrite console_write_run in H. injection H as <-. cbn [store].
    eapply getItem_setItem_eq, Hset. }
  destruct (documentContext context) as [[|doc docs]|] eqn:Hctx.
  - exact (Hlast _ _ _ Hrun).
  - unfold JSON_parse in Hrun. rewrite parse_stringify in Hrun.
    apply bind_Ok_inv in Hrun as (copy & w1 & Hcopy & Hrun).
    apply ret_inv in Hcopy as [<- <-]. rewrite Hctx in Hrun.
    apply bind_Ok_inv in Hrun as (docs' & w2 & Hdocs & Hrun).
    destruct (storeDocuments_run this _ _ _ _ _ Hdocs) as (-> & _ & _).
    exact (Hlast _ _ _ Hrun).
  - exact (Hlast _ _ _ Hrun).
Qed.

End RemoveFacts.

(** On a backend that behaves as a key-value store, a [removeContext] of
    the chunking service that answers [true] leaves nothing of the
    conversation behind: after a save that completed, the key of the
    conversation, the key of every document that was stored separately and
    the key of the degraded copy are all absent, and no key that was absent
    has come back. *)
Theorem removeContext_clears_the_conversation
    {St : Type} {backend : Storage St} `{!StorageLaws backend}
    {codec : Codec} `{!CodecLaws codec}
    (this : Chunking.LocalStorageService)
    (conversationId : string) (context : MCPContext) (w w1 : World St) :
  let removed := Chunking.removeContext this conversationId w1 in
  Chunking.saveContext_try this conversationId context w = (Ok tt, w1) →
  fst removed = Ok true →
  getItem (store (snd removed)) (Chunking.storage_key this conversationId) = None
  ∧ getItem (store (snd removed)) (Chunking.minimal_key this conversationId) = None
  ∧ (∀ doc, doc ∈ default [] (documentContext context) →
       Chunking.is_large this doc = true →
       getItem (store (snd removed)) (Chunking.document_key this conversationId doc) = None)
  ∧ (∀ k, getItem (store w1) k = None → getItem (store (snd removed)) k = None).
Proof.
  intros removed Hsave Htrue.
  destruct removed as [r w'] eqn:Hremoved. cbn [fst snd] in *. subst r.
  destruct (chunking_removeContext_true this conversationId w1 w' Hremoved)
    as (Hmain & Hminimal & Hkeep & Hrefs).
  split; [exact Hmain|]. split; [exact Hminimal|]. split; [|exact Hkeep].
  intros doc Hdoc Hlarge.
  pose proof (saveContext_try_main this conversationId context w w1 Hsave) as Hkey.
  destruct (documentContext context) as [[|d docs]|] eqn:Hctx; cbn [default id] in Hdoc;
    try (now apply elem_of_nil in Hdoc).
  rewrite <- (replace_first_empty_prefix Chunking.doc_ref
                (Chunking.document_key this conversationId doc)).
  rewrite <- (stored_large_content this conversationId doc Hlarge).
  eapply (Hrefs _ _ _ (Chunking.stored this conversationId doc) Hkey).
  - apply stringify_truthy.
  - apply parse_stringify.
  - reflexivity.
  - apply list_elem_of_fmap. now exists doc.
  - rewrite (stored_large_content this conversationId doc Hlarge).
    unfold startsWith. now rewrite prefix_append.
Qed.

Section RemoveWitness.
#[local] Existing Instance Wire.codec.

(** With a ceiling of four characters both documents of the sample are
    stored under keys of their own, and removed with the conversation. *)
Lemma removeContext_clears_the_conversation_witness :
  let saved := snd (Chunking.saveContext Sample.chunking4 "c2" Sample.boundary
                      (Sample.fresh 5000)) in
  let removed := Chunking.removeContext Sample.chunking4 "c2" saved in
  getItem (store saved) "mcp_context_c2_doc_d5" = Some "abcde"
  ∧ fst removed = Ok true
  ∧ getItem (store (snd removed)) "mcp_context_c2_doc_d5" = None
  ∧ getItem (store (snd removed)) "mcp_context_c2" = None.
Proof.
  intros saved removed.
  assert (Chunking.saveContext_try Sample.chunking4 "c2" Sample.boundary (Sample.fresh 5000)
          = (Ok tt, saved)) as Hsave by (vm_compute; reflexivity).
  assert (fst removed = Ok true) as Htrue by (vm_compute; reflexivity).
  destruct (removeContext_clears_the_conversation Sample.chunking4 "c2" Sample.boundary
              (Sample.fresh 5000) saved Hsave Htrue) as (Hmain & _ & Hdocs & _).
  split; [vm_compute; reflexivity|]. split; [exact Htrue|]. split; [|exact Hmain].
  apply (Hdocs Sample.over); [right; left | reflexivity].
Defined.

End RemoveWitness.

(** * Further properties of the clients *)

(** ** The flag [initialized] *)

Section FlagInitialized.
Context {CS : Type} {service : ContextService.Interface CS}
        {conversation : ContextService.Conversation CS}.

Local Abbreviation Client := (MCPContextClient.MCPContextClient CS).

Lemma call_run {A} (m : M CS A) (p : Page Client) :
  MCPContextClient.call m p
  = (fst (m (MCPContextClient.contextService (self p))),
     mkPage (MCPContextClient.mkClient
               (snd (m (MCPContextClient.contextService (self p))))
               (MCPContextClient.initialized (self p)))
            (window p) (now p) (page_console p) (toasts p)).
Proof.
  unfold MCPContextClient.call, zoom.
  now destruct (m (MCPContextClient.contextService (self p))).
Qed.

Lemma leaves_ret {A} (a : A) : leaves_initialized (CS := CS) (ret a).
Proof. intros p. reflexivity. Qed.

Lemma leaves_throw {A} e : leaves_initialized (CS := CS) (throw (A := A) e).
Proof. intros p. reflexivity. Qed.

Lemma leaves_page_log l msg : leaves_initialized (CS := CS) (page_log l msg).
Proof. intros p. reflexivity. Qed.

Lemma leaves_call {A} (m : M CS A) : leaves_initialized (MCPContextClient.call m).
Proof. intros p. now rewrite call_run. Qed.

Lemma leaves_notify : leaves_initialized (CS := CS) FileWatcher.notifyDocumentContextChange.
Proof. intros p. now rewrite notifyDocumentContextChange_run. Qed.

Lemma leaves_bind {A B} (m : M (Page Client) A) (k : A → M (Page Client) B) :
  leaves_initialized m → (∀ a, leaves_initialized (k a)) → leaves_initialized (bind m k).
Proof.
  intros Hm Hk p. unfold bind. specialize (Hm p).
  destruct (m p) as [[a|e] p1]; cbn [fst snd] in *; [|exact Hm].
  now rewrite (Hk a p1).
Qed.

Lemma leaves_try_catch {A} (m : M (Page Client) A) h :
  leaves_initialized m → (∀ e, leaves_initialized (h e)) →
  leaves_initialized (try_catch m h).
Proof.
  intros Hm Hh p. unfold try_catch. specialize (Hm p).
  destruct (m p) as [[a|e] p1]; cbn [fst snd] in *; [exact Hm|].
  now rewrite (Hh e p1).
Qed.

Lemma initializeContext_run conversationId (p : Page Client) :
  MCPContextClient.initializeContext conversationId p
  = match ContextService.initializeContext conversationId
            (MCPContextClient.contextService (self p)) with
    | (Ok newConversationId, cs') =>
        (Ok newConversationId,
         mkPage (MCPContextClient.mkClient cs' true) (window p) (now p)
                (page_console p
                 ++ [(LOG, "Initializing MCP context for conversation "
                           +:+ or_else conversationId "new")])
                (toasts p))
    | (Throw e, cs') =>
        (Throw e,
         mkPage (MCPContextClient.mkClient cs' (MCPContextClient.initialized (self p)))
                (window p) (now p)
                (page_console p
                 ++ [(LOG, "Initializing MCP context for conversation "
                           +:+ or_else conversationId "new");
                     (ERROR, "Error initializing MCP context:")])
                (toasts p))
    end.
Proof.
  unfold MCPContextClient.initializeContext, try_catch.
  unfold bind at 1. rewrite page_log_run. unfold bind at 1. rewrite call_run.
  cbn [self window now page_console toasts].
  destruct (ContextService.initializeContext conversationId
              (MCPContextClient.contextService (self p))) as [[newId|e] cs'];
    cbn [fst snd].
  - reflexivity.
  - unfold bind. rewrite page_log_run. unfold throw.
    cbn [self window now page_console toasts]. now rewrite <- app_assoc.
Qed.

Lemma sets_initializeContext conversationId :
  sets_initialized (MCPContextClient.initializeContext conversationId).
Proof.
  intros p. rewrite initializeContext_run.
  now destruct (ContextService.initializeContext conversationId
                  (MCPContextClient.contextService (self p))) as [[newId|e] cs'].
Qed.

Lemma sets_ensureContextInitialized conversationId :
  sets_initialized (MCPContextClient.ensureContextInitialized conversationId).
Proof.
  intros p.
  destruct (MCPContextClient.ensureContextInitialized conversationId p) as [r p'] eqn:Hrun.
  cbn [fst snd]. revert Hrun.
  assert (∀ requested (q : Page Client),
            MCPContextClient.initialized (self q) = MCPContextClient.initialized (self p) →
            MCPContextClient.initializeContext requested q = (r, p') →
            MCPContextClient.initialized (self p')
            = match r with
              | Ok _ => true
              | Throw _ => MCPContextClient.initialized (self p)
              end) as Hinit.
  { intros requested q Hq Hrun. pose proof (sets_initializeContext requested q) as Hsets.
    rewrite Hrun in Hsets. cbn [fst snd] in Hsets. now rewrite Hsets, Hq. }
  unfold MCPContextClient.ensureContextInitialized.
  unfold bind at 1, get_world.
  destruct (MCPContextClient.initialized (self p)) eqn:Hflag; cbn [negb].
  - unfold bind at 1. rewrite call_run.
    destruct (ContextService.getConversationId (MCPContextClient.contextService (self p)))
      as [[current|e] cs'] eqn:Hcurrent; cbn [fst snd].
    2:{ intros [= <- <-]. exact Hflag. }
    destruct (truthy_opt conversationId && _).
    + unfold bind. rewrite page_log_run. apply Hinit. exact Hflag.
    + destruct (truthy_opt current).
      * unfold ret. intros [= <- <-]. exact Hflag.
      * apply Hinit. exact Hflag.
  - unfold bind. rewrite page_log_run. apply Hinit. exact Hflag.
Qed.

Lemma leaves_if {A} (b : bool) (m1 m2 : M (Page Client) A) :
  leaves_initialized m1 → leaves_initialized m2 → leaves_initialized (if b then m1 else m2).
Proof. now destruct b. Qed.

Lemma leaves_reportModelContext context :
  leaves_initialized (MCPContextClient.reportModelContext (CS := CS) context).
Proof.
  unfold MCPContextClient.reportModelContext.
  destruct (context ≫= documentContext) as [[|doc docs]|]; try apply leaves_page_log.
  apply leaves_bind; [apply leaves_page_log|]. intros _.
  apply leaves_if; [apply leaves_page_log | apply leaves_ret].
Qed.

End FlagInitialized.

(** The flag [initialized] of the context client is set by a successful
    initialization and by nothing else: [initializeContext] and
    [ensureContextInitialized] leave it set when they return and as it was
    when they throw, every other method leaves it as it was however it
    ends, and a new client starts without it. *)
Theorem initialized_is_set_by_initialization_only
    {CS : Type} {service : ContextService.Interface CS}
    {conversation : ContextService.Conversation CS} :
  (∀ contextService : CS,
     MCPContextClient.initialized (MCPContextClient.new contextService) = false)
  ∧ (∀ conversationId,
       sets_initialized (MCPContextClient.initializeContext conversationId))
  ∧ (∀ conversationId,
       sets_initialized (MCPContextClient.ensureContextInitialized conversationId))
  ∧ (∀ documentId documentName documentType content,
       leaves_initialized
         (MCPContextClient.addDocumentToContext documentId documentName documentType content))
  ∧ (∀ documentId, leaves_initialized (MCPContextClient.removeDocumentFromContext documentId))
  ∧ (∀ message, leaves_initialized (MCPContextClient.addUserMessage message))
  ∧ (∀ response, leaves_initialized (MCPContextClient.addAgentResponse response))
  ∧ leaves_initialized MCPContextClient.getModelContext
  ∧ (∀ model, leaves_initialized (MCPContextClient.setModelPreference model))
  ∧ leaves_initialized MCPContextClient.getConversationId
  ∧ leaves_initialized MCPContextClient.refreshContext
  ∧ (∀ active (this : MCPContextClient.MCPContextClient CS),
       MCPContextClient.initialized (MCPContextClient.setMetisActive active this)
       = MCPContextClient.initialized this).
Proof.
  repeat split.
  - apply sets_initializeContext.
  - apply sets_ensureContextInitialized.
  - intros documentId documentName documentType content.
    unfold MCPContextClient.addDocumentToContext. apply leaves_try_catch.
    + apply leaves_bind; [apply leaves_page_log|]. intros _.
      apply leaves_bind; [apply leaves_if; [apply leaves_throw | apply leaves_ret]|].
      intros _. apply leaves_bind; [apply leaves_call|]. intros _.
      apply leaves_bind; [apply leaves_page_log | intros _; apply leaves_notify].
    + intros e. apply leaves_bind; [apply leaves_page_log | intros _; apply leaves_throw].
  - intros documentId. unfold MCPContextClient.removeDocumentFromContext.
    apply leaves_try_catch.
    + apply leaves_bind; [apply leaves_page_log|]. intros _.
      apply leaves_bind; [apply leaves_call|]. intros removed.
      apply leaves_bind; [|intros _; apply leaves_ret].
      apply leaves_if; [|apply leaves_page_log].
      apply leaves_bind; [apply leaves_page_log | intros _; apply leaves_notify].
    + intros e. apply leaves_bind; [apply leaves_page_log | intros _; apply leaves_ret].
  - intros message. unfold MCPContextClient.addUserMessage. apply leaves_try_catch.
    + apply leaves_bind; [apply leaves_page_log | intros _; apply leaves_call].
    + intros e. apply leaves_bind; [apply leaves_page_log | intros _; apply leaves_throw].
  - intros response. unfold MCPContextClient.addAgentResponse. apply leaves_try_catch.
    + apply leaves_bind; [apply leaves_page_log | intros _; apply leaves_call].
    + intros e. apply leaves_bind; [apply leaves_page_log | intros _; apply leaves_throw].
  - unfold MCPContextClient.getModelContext. apply leaves_try_catch.
    + apply leaves_bind; [apply leaves_call|]. intros _.
      apply leaves_bind; [apply leaves_call|]. intros context.
      apply leaves_bind; [apply leaves_reportModelContext | intros _; apply leaves_ret].
    + intros e. apply leaves_bind; [apply leaves_page_log | intros _; apply leaves_ret].
  - intros model. apply leaves_call.
  - apply leaves_call.
  - unfold MCPContextClient.refreshContext.
    apply leaves_bind; [apply leaves_call|]. intros result.
    apply leaves_bind; [|intros _; apply leaves_ret].
    apply leaves_if; [apply leaves_notify | apply leaves_ret].
Qed.

(** ** Which conversation [ensureContextInitialized] leaves current *)

(** An initialized client that is asked for the conversation the service
    reports as current, or for none in particular, does not initialize
    again: it returns the current id and nothing but the state of the
    service, as the question left it, has changed.  Asked for another
    conversation it initializes with that one; a client that is not
    initialized initializes with what it was asked for. *)
Theorem ensureContextInitialized_keeps_the_conversation
    {CS : Type} {conversation : ContextService.Conversation CS}
    (p : Page (MCPContextClient.MCPContextClient CS))
    (requested current : option string) (cs' : CS) :
  let asked :=
    mkPage (MCPContextClient.mkClient cs' true) (window p) (now p)
           (page_console p) (toasts p) in
  (MCPContextClient.initialized (self p) = true →
   ContextService.getConversationId (MCPContextClient.contextService (self p))
     = (Ok current, cs') →
   (truthy_opt current = true →
    requested = current ∨ truthy_opt requested = false →
    MCPContextClient.ensureContextInitialized requested p = (Ok (default "" current), asked))
   ∧ (truthy_opt requested = true → requested ≠ current →
      MCPContextClient.ensureContextInitialized requested p
      = MCPContextClient.initializeContext requested
          (mkPage (MCPContextClient.mkClient cs' true) (window p) (now p)
                  (page_console p
                   ++ [(LOG, "Switching context from " +:+ default "null" current
                             +:+ " to " +:+ default "" requested)])
                  (toasts p)))
   ∧ (truthy_opt current = false → truthy_opt requested = false →
      MCPContextClient.ensureContextInitialized requested p
      = MCPContextClient.initializeContext None asked))
  ∧ (MCPContextClient.initialized (self p) = false →
     MCPContextClient.ensureContextInitialized requested p
     = MCPContextClient.initializeContext requested
         (mkPage (self p) (window p) (now p)
                 (page_console p ++ [(LOG, "MCP context not initialized, initializing now")])
                 (toasts p))).
Proof.
  intros asked. split.
  - intros Hflag Hcurrent.
    assert (∀ k : option string → M (Page (MCPContextClient.MCPContextClient CS)) string,
              (let* p0 := get_world in
               if negb (MCPContextClient.initialized (self p0)) then
                 page_log LOG "MCP context not initialized, initializing now" >>
                 MCPContextClient.initializeContext requested
               else let* currentConversationId
                      := MCPContextClient.call ContextService.getConversationId in
                    k currentConversationId) p
              = k current asked) as Hstep.
    { intros k. unfold bind at 1, get_world. rewrite Hflag. cbn [negb].
      unfold bind. rewrite call_run, Hcurrent. cbn [fst snd]. subst asked.
      now rewrite Hflag. }
    unfold MCPContextClient.ensureContextInitialized. rewrite Hstep.
    split; [|split].
    + intros Htruthy [->|Hnone].
      * rewrite bool_decide_true by reflexivity. cbn [negb]. rewrite andb_false_r.
        now rewrite Htruthy.
      * rewrite Hnone. cbn [andb]. now rewrite Htruthy.
    + intros Htruthy Hne. rewrite Htruthy.
      rewrite bool_decide_false by congruence. cbn [negb andb].
      unfold bind. now rewrite page_log_run.
    + intros Hcur Hreq. rewrite Hreq, Hcur. reflexivity.
  - intros Hflag. unfold MCPContextClient.ensureContextInitialized.
    unfold bind at 1, get_world. rewrite Hflag. cbn [negb].
    unfold bind. now rewrite page_log_run.
Qed.

(** An initialized client on conversation [c1] is asked for [c1]: the
    service hears the question and nothing else. *)
Lemma ensureContextInitialized_keeps_the_conversation_witness :
  let cs := mkScripted (Some "c1") None true [] in
  let p := mkPage (MCPContextClient.mkClient cs true) None 0 [] [] in
  MCPContextClient.ensureContextInitialized (conversation := scripted_conversation)
    (Some "c1") p
  = (Ok "c1",
     mkPage (MCPContextClient.mkClient
               (mkScripted (Some "c1") None true [CallGetConversationId]) true)
            None 0 [] []).
Proof.
  intros cs p.
  destruct (ensureContextInitialized_keeps_the_conversation
              (conversation := scripted_conversation)
              p (Some "c1") (Some "c1")
              (mkScripted (Some "c1") None true [CallGetConversationId])) as [Hready _].
  destruct (Hready eq_refl eq_refl) as [Hsame _].
  apply (Hsame eq_refl). now left.
Defined.

(** ** A removal that fails *)

Lemma enhanced_delegate_run {CS A}
    (m : M (Page (MCPContextClient.MCPContextClient CS)) A)
    (p : Page (MCPClientFactory.EnhancedMCPClient CS)) r q :
  m (mkPage (MCPClientFactory.contextClient (self p)) (window p) (now p)
            (page_console p) (toasts p)) = (r, q) →
  MCPClientFactory.delegate m p
  = (r, mkPage (MCPClientFactory.mkEnhanced (MCPClientFactory.super (self p)) (self q))
               (window q) (now q) (page_console q) (toasts q)).
Proof. intros H. unfold MCPClientFactory.delegate. now rewrite H. Qed.

(** [removeDocumentFromContext] of every client returns to its caller
    whatever the context service does.  When the service throws, the answer
    is [false], the window is as it was (no event), no toast is shown, and
    the console has the line that announces the removal and the line that
    reports the error. *)
Theorem removeDocumentFromContext_never_throws
    {CS : Type} {service : ContextService.Interface CS} (documentId : string) :
  let lines : list line :=
    [(LOG, "Removing document " +:+ documentId +:+ " from context");
     (ERROR, "Error removing document " +:+ documentId +:+ " from context:")] in
  (∀ p : Page (MCPContextClient.MCPContextClient CS),
     (∃ removed, fst (MCPContextClient.removeDocumentFromContext documentId p) = Ok removed)
     ∧ ∀ e cs',
         ContextService.removeDocumentFromContext documentId
           (MCPContextClient.contextService (self p)) = (Throw e, cs') →
         MCPContextClient.removeDocumentFromContext documentId p
         = (Ok false,
            mkPage (MCPContextClient.mkClient cs' (MCPContextClient.initialized (self p)))
                   (window p) (now p) (page_console p ++ lines) (toasts p)))
  ∧ (∀ p : Page (MCPClient.MCPClient CS),
       (∃ removed, fst (MCPClient.removeDocumentFromContext documentId p) = Ok removed)
       ∧ ∀ e cs',
           ContextService.removeDocumentFromContext documentId
             (MCPClient.contextService (self p)) = (Throw e, cs') →
           MCPClient.removeDocumentFromContext documentId p
           = (Ok false,
              mkPage (MCPClient.mkClient (MCPClient.serverUrl (self p))
                        (MCPClient.authToken (self p)) cs' (MCPClient.initialized (self p)))
                     (window p) (now p) (page_console p ++ lines) (toasts p)))
  ∧ (∀ p : Page (MCPClientFactory.EnhancedMCPClient CS),
       (∃ removed, fst (MCPClientFactory.removeDocumentFromContext documentId p) = Ok removed)
       ∧ ∀ e cs',
           ContextService.removeDocumentFromContext documentId
             (MCPContextClient.contextService (MCPClientFactory.contextClient (self p)))
           = (Throw e, cs') →
           MCPClientFactory.removeDocumentFromContext documentId p
           = (Ok false,
              mkPage (MCPClientFactory.mkEnhanced (MCPClientFactory.super (self p))
                        (MCPContextClient.mkClient cs'
                           (MCPContextClient.initialized
                              (MCPClientFactory.contextClient (self p)))))
                     (window p) (now p) (page_console p ++ lines) (toasts p))).
Proof.
  intros lines.
  assert (∀ p : Page (MCPContextClient.MCPContextClient CS),
            match ContextService.removeDocumentFromContext documentId
                    (MCPContextClient.contextService (self p)) with
            | (Ok removed, cs') =>
                fst (MCPContextClient.removeDocumentFromContext documentId p) = Ok removed
            | (Throw e, cs') =>
                MCPContextClient.removeDocumentFromContext documentId p
                = (Ok false,
                   mkPage (MCPContextClient.mkClient cs'
                             (MCPContextClient.initialized (self p)))
                          (window p) (now p) (page_console p ++ lines) (toasts p))
            end) as Hcontext.
  { intros p.
    destruct (ContextService.removeDocumentFromContext documentId
                (MCPContextClient.contextService (self p))) as [[removed|e] cs1] eqn:Hservice;
      unfold MCPContextClient.removeDocumentFromContext;
      unfold try_catch, bind at 1; rewrite page_log_run;
      unfold bind at 1, MCPContextClient.call, zoom;
      cbn [self window now page_console toasts]; rewrite Hservice.
    - destruct removed.
      + unfold bind at 1 2. rewrite page_log_run, notifyDocumentContextChange_run. reflexivity.
      + unfold bind at 1. rewrite page_log_run. reflexivity.
    - unfold bind, ret. rewrite page_log_run. cbn [self window now page_console toasts].
      subst lines. now rewrite <- app_assoc. }
  assert (∀ p : Page (MCPClient.MCPClient CS),
            match ContextService.removeDocumentFromContext documentId
                    (MCPClient.contextService (self p)) with
            | (Ok removed, cs') =>
                fst (MCPClient.removeDocumentFromContext documentId p) = Ok removed
            | (Throw e, cs') =>
                MCPClient.removeDocumentFromContext documentId p
                = (Ok false,
                   mkPage (MCPClient.mkClient (MCPClient.serverUrl (self p))
                             (MCPClient.authToken (self p)) cs'
                             (MCPClient.initialized (self p)))
                          (window p) (now p) (page_console p ++ lines) (toasts p))
            end) as Hclient.
  { intros p.
    destruct (ContextService.removeDocumentFromContext documentId
                (MCPClient.contextService (self p))) as [[removed|e] cs1] eqn:Hservice;
      unfold MCPClient.removeDocumentFromContext;
      unfold try_catch, bind at 1; rewrite page_log_run;
      unfold bind at 1, MCPClient.call, zoom;
      cbn [self window now page_console toasts]; rewrite Hservice.
    - destruct removed.
      + unfold bind at 1 2. rewrite page_log_run, notifyDocumentContextChange_run. reflexivity.
      + unfold bind at 1. rewrite page_log_run. reflexivity.
    - unfold bind, ret. rewrite page_log_run. cbn [self window now page_console toasts].
      subst lines. now rewrite <- app_assoc. }
  split; [|split].
  - intros p. specialize (Hcontext p). split.
    + destruct (ContextService.removeDocumentFromContext _ _) as [[removed|e] cs1];
        [eauto | rewrite Hcontext; eauto].
    + intros e cs' Hservice. now rewrite Hservice in Hcontext.
  - intros p. specialize (Hclient p). split.
    + destruct (ContextService.removeDocumentFromContext _ _) as [[removed|e] cs1];
        [eauto | rewrite Hclient; eauto].
    + intros e cs' Hservice. now rewrite Hservice in Hclient.
  - intros p. unfold MCPClientFactory.removeDocumentFromContext.
    set (q := mkPage (MCPClientFactory.contextClient (self p)) (window p) (now p)
                     (page_console p) (toasts p)).
    pose proof (Hcontext q) as Hq.
    destruct (MCPContextClient.removeDocumentFromContext documentId q) as [r q'] eqn:Hrun.
    rewrite (enhanced_delegate_run _ p r q' Hrun). cbn [fst]. subst q.
    cbn [self window now page_console toasts fst] in Hq. split.
    + destruct (ContextService.removeDocumentFromContext _ _) as [[removed|e] cs1];
        [eauto | injection Hq as -> _; eauto].
    + intros e cs' Hservice. rewrite Hservice in Hq. now injection Hq as -> ->.
Qed.

(** A service that cannot be reached: the answer is [false]. *)
Lemma removeDocumentFromContext_never_throws_witness :
  let cs := mkScripted (Some "c1") None false [] in
  let p := mkPage (MCPContextClient.mkClient cs true)
                  (Some (mkWindow [(FileWatcher.documentContextUpdated, 7)] [] [])) 42 [] [] in
  MCPContextClient.removeDocumentFromContext (service := scripted_documents) "d1" p
  = (Ok false,
     mkPage (MCPContextClient.mkClient
               (mkScripted (Some "c1") None false [CallDocuments (CallRemove "d1")]) true)
            (Some (mkWindow [(FileWatcher.documentContextUpdated, 7)] [] [])) 42
            [(LOG, "Removing document d1 from context");
             (ERROR, "Error removing document d1 from context:")] []).
Proof.
  intros cs p.
  destruct (removeDocumentFromContext_never_throws (service := scripted_documents) "d1")
    as [Hcontext _].
  destruct (Hcontext p) as [_ Hthrow].
  exact (Hthrow unreachable
           (mkScripted (Some "c1") None false [CallDocuments (CallRemove "d1")]) eq_refl).
Defined.

(** ** A refresh, and the event it dispatches *)



(** ** Reading the model context *)

Section ModelContextFacts.
Context {CS : Type}.

Lemma reportModelContext_run (context : option MCPContext)
    (p : Page (MCPContextClient.MCPContextClient CS)) :
  ∃ out,
    MCPContextClient.reportModelContext context p
    = (Ok tt, mkPage (self p) (window p) (now p) (page_console p ++ out) (toasts p))
    ∧ (Exists (λ l : line, l.1 = WARN) out
       ↔ ∃ docs doc, context ≫= documentContext = Some docs
                     ∧ doc ∈ docs ∧ content doc = "").
Proof.
  unfold MCPContextClient.reportModelContext.
  assert (∀ docs : list DocumentContextEntry,
            Nat.ltb 0 (length (MCPContextClient.invalidDocs docs)) = true
            ↔ ∃ doc, doc ∈ docs ∧ content doc = "") as Hinvalid.
  { intros docs. unfold MCPContextClient.invalidDocs. rewrite Nat.ltb_lt. split.
    - intros Hlen. destruct (filter _ docs) as [|doc rest] eqn:Hfilter; [simpl in Hlen; lia|].
      exists doc. assert (doc ∈ filter (λ doc, truthy (content doc) = false) docs) as Hin
        by (rewrite Hfilter; left).
      apply list_elem_of_filter in Hin as [Hempty Hin]. split; [exact Hin|].
      now destruct (content doc).
    - intros (doc & Hin & Hempty).
      assert (doc ∈ filter (λ doc, truthy (content doc) = false) docs) as Hdoc.
      { apply list_elem_of_filter. split; [now rewrite Hempty | exact Hin]. }
      destruct (filter _ docs); [now apply elem_of_nil in Hdoc | simpl; lia]. }
  destruct (context ≫= documentContext) as [[|doc docs]|] eqn:Hdocs.
  - eexists. rewrite page_log_run. split; [reflexivity|]. split.
    + intros Hwarn. apply Exists_cons in Hwarn as [Hwarn|Hwarn]; [discriminate|].
      now apply Exists_nil in Hwarn.
    + intros (docs' & d & [= <-] & Hd & _). now apply elem_of_nil in Hd.
  - unfold bind. rewrite page_log_run.
    destruct (Nat.ltb 0 (length (MCPContextClient.invalidDocs (doc :: docs)))) eqn:Hlt.
    + rewrite page_log_run. cbn [self window now page_console toasts].
      eexists. rewrite <- app_assoc. split; [reflexivity|]. split.
      * intros _. apply Hinvalid in Hlt as (d & Hd & Hempty). now exists (doc :: docs), d.
      * intros _. right. left. reflexivity.
    + unfold ret. cbn [self window now page_console toasts].
      eexists. split; [reflexivity|]. split.
      * intros Hwarn. apply Exists_cons in Hwarn as [Hwarn|Hwarn]; [discriminate|].
        now apply Exists_nil in Hwarn.
      * intros (docs' & d & [= <-] & Hd & Hempty).
        assert (Nat.ltb 0 (length (MCPContextClient.invalidDocs (doc :: docs))) = true)
          as Htrue by (apply Hinvalid; eauto).
        congruence.
  - eexists. rewrite page_log_run. split; [reflexivity|]. split.
    + intros Hwarn. apply Exists_cons in Hwarn as [Hwarn|Hwarn]; [discriminate|].
      now apply Exists_nil in Hwarn.
    + intros (docs' & d & [=] & _).
Qed.

End ModelContextFacts.

(** [getModelContext] returns to its caller whatever the context service
    does, and touches neither the window nor the toasts.  It asks the
    service to refresh from storage first; when the refresh and the read
    both return, the result is the context the service gave, and the console
    has a warning exactly when that context lists a document whose content
    is empty; when either throws, the result is [null] and the one line
    written reports the error. *)
Theorem getModelContext_never_throws
    {CS : Type} {service : ContextService.Interface CS}
    {conversation : ContextService.Conversation CS}
    (p : Page (MCPContextClient.MCPContextClient CS)) :
  let cs := MCPContextClient.contextService (self p) in
  let page cs' out :=
    mkPage (MCPContextClient.mkClient cs' (MCPContextClient.initialized (self p)))
           (window p) (now p) (page_console p ++ out) (toasts p) in
  (∃ context cs' out, MCPContextClient.getModelContext p = (Ok context, page cs' out))
  ∧ (∀ refreshed cs1 context cs2,
       ContextService.refreshContextFromStorage cs = (Ok refreshed, cs1) →
       ContextService.getModelContext cs1 = (Ok context, cs2) →
       ∃ out,
         MCPContextClient.getModelContext p = (Ok context, page cs2 out)
         ∧ (Exists (λ l : line, l.1 = WARN) out
            ↔ ∃ docs doc, context ≫= documentContext = Some docs
                          ∧ doc ∈ docs ∧ content doc = ""))
  ∧ (∀ e cs1,
       ContextService.refreshContextFromStorage cs = (Throw e, cs1) →
       MCPContextClient.getModelContext p
       = (Ok None, page cs1 [(ERROR, "Error getting model context:")]))
  ∧ (∀ refreshed cs1 e cs2,
       ContextService.refreshContextFromStorage cs = (Ok refreshed, cs1) →
       ContextService.getModelContext cs1 = (Throw e, cs2) →
       MCPContextClient.getModelContext p
       = (Ok None, page cs2 [(ERROR, "Error getting model context:")])).
Proof.
  intros cs page.
  assert (∀ refreshed cs1 context cs2,
            ContextService.refreshContextFromStorage cs = (Ok refreshed, cs1) →
            ContextService.getModelContext cs1 = (Ok context, cs2) →
            ∃ out,
              MCPContextClient.getModelContext p = (Ok context, page cs2 out)
              ∧ (Exists (λ l : line, l.1 = WARN) out
                 ↔ ∃ docs doc, context ≫= documentContext = Some docs
                               ∧ doc ∈ docs ∧ content doc = "")) as Hboth.
  { intros refreshed cs1 context cs2 Hrefresh Hget.
    unfold MCPContextClient.getModelContext, try_catch.
    unfold bind at 1. rewrite call_run. fold cs. rewrite Hrefresh. cbn [fst snd].
    unfold bind at 1. rewrite call_run. cbn [self MCPContextClient.contextService].
    rewrite Hget. cbn [fst snd].
    cbn [self window now page_console toasts
         MCPContextClient.initialized MCPContextClient.contextService].
    unfold bind.
    match goal with
    | |- context [MCPContextClient.reportModelContext context ?q] =>
        destruct (reportModelContext_run context q) as (out & Hreport & Hwarn)
    end.
    rewrite Hreport. unfold ret. cbn [self window now page_console toasts].
    exists out. split; [reflexivity | exact Hwarn]. }
  assert (∀ e cs1,
            ContextService.refreshContextFromStorage cs = (Throw e, cs1) →
            MCPContextClient.getModelContext p
            = (Ok None, page cs1 [(ERROR, "Error getting model context:")])) as Hrefresh.
  { intros e cs1 Hrefresh. unfold MCPContextClient.getModelContext, try_catch.
    unfold bind at 1. rewrite call_run. fold cs. rewrite Hrefresh. cbn [fst snd].
    unfold bind. now rewrite page_log_run. }
  assert (∀ refreshed cs1 e cs2,
            ContextService.refreshContextFromStorage cs = (Ok refreshed, cs1) →
            ContextService.getModelContext cs1 = (Throw e, cs2) →
            MCPContextClient.getModelContext p
            = (Ok None, page cs2 [(ERROR, "Error getting model context:")])) as Hread.
  { intros refreshed cs1 e cs2 Hrefreshed Hget.
    unfold MCPContextClient.getModelContext, try_catch.
    unfold bind at 1. rewrite call_run. fold cs. rewrite Hrefreshed. cbn [fst snd].
    unfold bind at 1. rewrite call_run. cbn [self MCPContextClient.contextService].
    rewrite Hget. cbn [fst snd]. unfold bind. now rewrite page_log_run. }
  split; [|split; [exact Hboth | split; [exact Hrefresh | exact Hread]]].
  destruct (ContextService.refreshContextFromStorage cs) as [[refreshed|e] cs1] eqn:H1.
  - destruct (ContextService.getModelContext cs1) as [[context|e] cs2] eqn:H2.
    + destruct (Hboth refreshed cs1 context cs2 eq_refl H2) as (out & Hrun & _). eauto.
    + rewrite (Hread refreshed cs1 e cs2 eq_refl H2). eauto.
  - rewrite (Hrefresh e cs1 eq_refl). eauto.
Qed.

(** A service that cannot be reached: the result is [null]. *)
Lemma getModelContext_never_throws_witness :
  let cs := mkScripted (Some "c1") (Some Sample.conversation) false [] in
  let p := mkPage (MCPContextClient.mkClient cs true) None 0 [] [] in
  MCPContextClient.getModelContext
    (service := scripted_documents) (conversation := scripted_conversation) p
  = (Ok None,
     mkPage (MCPContextClient.mkClient
               (mkScripted (Some "c1") (Some Sample.conversation) false
                           [CallDocuments CallRefresh]) true)
            None 0 [(ERROR, "Error getting model context:")] []).
Proof.
  intros cs p.
  destruct (getModelContext_never_throws
              (service := scripted_documents) (conversation := scripted_conversation) p)
    as (_ & _ & Hrefresh & _).
  exact (Hrefresh unreachable _ eq_refl).
Defined.

(** ** Messages and the initialization *)



(** * The listener registry of [FileWatcher] *)

Section RegistryFacts.

Lemma live_set_add (l : nat) (set : list (option nat)) :
  omap id (FileWatcher.set_add l set)
  = if decide (l ∈ omap id set) then omap id set else omap id set ++ [l].
Proof.
  unfold FileWatcher.set_add.
  assert (Some l ∈ set ↔ l ∈ omap id set) as Hin.
  { rewrite list_elem_of_omap. split.
    - intros H. now exists (Some l).
    - intros (x & Hx & Heq). cbn in Heq. now subst x. }
  destruct (decide (Some l ∈ set)) as [H|H].
  - now rewrite decide_True by now apply Hin.
  - rewrite decide_False by (intros H'; now apply H, Hin). now rewrite omap_app.
Qed.

Lemma live_set_delete (l : nat) (set : list (option nat)) :
  omap id (FileWatcher.set_delete l set) = filter (λ x, x ≠ l) (omap id set).
Proof.
  unfold FileWatcher.set_delete. induction set as [|[x|] set IH]; [reflexivity| |exact IH].
  cbn [fmap list_fmap]. destruct (decide (Some x = Some l)) as [[= ->]|Hne].
  - cbn [omap list_omap id]. rewrite filter_cons, decide_False by (intros H; now apply H).
    exact IH.
  - cbn [omap list_omap id]. rewrite filter_cons, decide_True by congruence.
    f_equal. exact IH.
Qed.

Lemma filter_absent (l : nat) (set : list nat) :
  l ∉ set → filter (λ x, x ≠ l) set = set.
Proof.
  induction set as [|x set IH]; intros Hout; [reflexivity|].
  rewrite filter_cons. apply not_elem_of_cons in Hout as [Hne Hout].
  rewrite decide_True by congruence. now rewrite IH.
Qed.

Lemma registered_addListener f l fileId r :
  registered fileId (FileWatcher.addListener f l r)
  = if decide (f = fileId) then
      if decide (l ∈ registered fileId r) then registered fileId r
      else registered fileId r ++ [l]
    else registered fileId r.
Proof.
  unfold registered, FileWatcher.addListener. cbn [FileWatcher.listeners].
  destruct (decide (f = fileId)) as [->|Hne].
  - rewrite lookup_alter_eq.
    destruct (decide (is_Some (FileWatcher.listeners r !! fileId))) as [[set Hset]|Hnone].
    + rewrite Hset. cbn [fmap option_fmap option_map default]. apply live_set_add.
    + rewrite lookup_insert_eq.
      destruct (FileWatcher.listeners r !! fileId) as [set|] eqn:Hset.
      * exfalso. apply Hnone. eauto.
      * cbn [fmap option_fmap option_map default]. apply live_set_add.
  - rewrite lookup_alter_ne by exact Hne.
    destruct (decide (is_Some (FileWatcher.listeners r !! f))); [reflexivity|].
    now rewrite lookup_insert_ne.
Qed.

Lemma registered_removeListener f l fileId r :
  registered fileId (FileWatcher.removeListener f l r)
  = if decide (f = fileId) then filter (λ x, x ≠ l) (registered fileId r)
    else registered fileId r.
Proof.
  unfold registered, FileWatcher.removeListener. cbn [FileWatcher.listeners].
  destruct (decide (f = fileId)) as [->|Hne].
  - rewrite lookup_alter_eq.
    destruct (FileWatcher.listeners r !! fileId) as [set|]; [|reflexivity].
    cbn [fmap option_fmap option_map default]. apply live_set_delete.
  - now rewrite lookup_alter_ne.
Qed.

(** Whatever is added and removed, no listener is registered twice for a
    file. *)
Lemma registered_NoDup calls : ∀ fileId r,
  NoDup (registered fileId r) → NoDup (registered fileId (foldl watcher_call r calls)).
Proof.
  induction calls as [|call rest IH]; intros fileId r Hr; cbn [foldl]; [exact Hr|].
  apply IH. destruct call as [f l|f l]; cbn [watcher_call].
  - rewrite registered_addListener. destruct (decide (f = fileId)); [|exact Hr].
    destruct (decide (l ∈ registered fileId r)) as [Hin|Hout]; [exact Hr|].
    apply NoDup_app. split; [exact Hr|]. split; [|apply NoDup_singleton].
    intros x Hx Hx'. apply list_elem_of_singleton in Hx' as ->. contradiction.
  - rewrite registered_removeListener. destruct (decide (f = fileId)); [|exact Hr].
    now apply NoDup_filter.
Qed.

Section Walk.
Variable body : nat → M FileWatcher.Registry unit.
Variable fileId : string.


End Walk.

End RegistryFacts.


Section ListenerExamples.


(** Listeners that call the class back change the walk that is under way:
    a listener removed by an earlier one is not called and one added is;
    a listener that removes and adds itself is called again, and the walk
    does not end. *)
Lemma listeners_that_call_back :
  (∃ r', FileWatcher.notifyChange meddler 5 "a.txt" three_listeners = Some (Ok tt, r')
         ∧ FileWatcher.called r' = [1; 3; 4])
  ∧ FileWatcher.notifyChange returner 50 "a.txt"
      (FileWatcher.addListener "a.txt" 1 FileWatcher.registry_init) = None.
Proof.
  split; [eexists; split; vm_compute; reflexivity|].
  vm_compute. reflexivity.
Qed.

End ListenerExamples.

(** The registry holds sets: adding a listener that is registered for the
    file changes nothing (so adding twice is adding once), removing from a
    file nobody listens to changes nothing and creates no entry, and a
    listener that was added where it was not registered and removed again
    is not called. *)
Theorem listeners_are_kept_as_sets
    (fileId : string) (listener : nat) (r : FileWatcher.Registry) :
  FileWatcher.addListener fileId listener (FileWatcher.addListener fileId listener r)
  = FileWatcher.addListener fileId listener r
  ∧ (FileWatcher.listeners r !! fileId = None →
     FileWatcher.removeListener fileId listener r = r)
  ∧ (listener ∉ registered fileId r →
     ∀ f, registered f (FileWatcher.removeListener fileId listener
                          (FileWatcher.addListener fileId listener r))
          = registered f r).
Proof.
  split; [|split].
  - assert (∀ r', listener ∈ registered fileId r' →
                  FileWatcher.addListener fileId listener r' = r') as Hagain.
    { intros r' Hin. unfold registered in Hin. unfold FileWatcher.addListener.
      destruct (FileWatcher.listeners r' !! fileId) as [set|] eqn:Hset;
        [|now apply elem_of_nil in Hin].
      cbn [default] in Hin. rewrite decide_True by eauto.
      assert (alter (FileWatcher.set_add listener) fileId (FileWatcher.listeners r')
              = FileWatcher.listeners r') as ->.
      { apply map_eq. intros k. destruct (decide (fileId = k)) as [<-|Hne].
        - rewrite lookup_alter_eq, Hset. cbn. unfold FileWatcher.set_add.
          rewrite decide_True; [reflexivity|].
          apply list_elem_of_omap in Hin as (x & Hx & Heq). cbn in Heq. now subst x.
        - now rewrite lookup_alter_ne. }
      now destruct r'. }
    apply Hagain. rewrite registered_addListener, decide_True by reflexivity.
    destruct (decide (listener ∈ registered fileId r)) as [Hin|Hout]; [exact Hin|].
    apply elem_of_app. right. now left.
  - intros Hnone. unfold FileWatcher.removeListener.
    assert (alter (FileWatcher.set_delete listener) fileId (FileWatcher.listeners r)
            = FileWatcher.listeners r) as ->.
    { apply map_eq. intros k. destruct (decide (fileId = k)) as [<-|Hne].
      - now rewrite lookup_alter_eq, Hnone.
      - now rewrite lookup_alter_ne. }
    now destruct r.
  - intros Hout f. rewrite registered_removeListener, registered_addListener.
    destruct (decide (fileId = f)) as [->|Hne]; [|reflexivity].
    rewrite decide_False by exact Hout.
    rewrite filter_app, (filter_absent _ _ Hout).
    rewrite filter_cons, decide_False by (intros H; now apply H). apply app_nil_r.
Qed.

(** Listener 1 is added twice for [a.txt] and listener 2 once and removed
    again: a change of [a.txt] calls listener 1, once. *)
Lemma listeners_are_kept_as_sets_witness :
  let r := foldl watcher_call FileWatcher.registry_init
             [AddListener "a.txt" 1; AddListener "a.txt" 1] in
  registered "a.txt"
    (FileWatcher.removeListener "a.txt" 2 (FileWatcher.addListener "a.txt" 2 r))
  = [1].
Proof.
  intros r.
  destruct (listeners_are_kept_as_sets "a.txt" 2 r) as (_ & _ & Hround).
  rewrite Hround; [reflexivity|].
  vm_compute. intros H. apply list_elem_of_singleton in H. discriminate.
Defined.

(** * The hooks *)

(** ** The type of a selected document *)

Section MimeFacts.
Import useDocumentContext.

Lemma includes_slash_cons (c : Ascii.ascii) (s : string) :
  includes "/" (String c s) = false → Ascii.eqb c slash = false ∧ includes "/" s = false.
Proof.
  unfold includes. cbn [String.index String.prefix]. intros H.
  match type of H with
  | context [Ascii.ascii_dec ?a c] => destruct (Ascii.ascii_dec a c) as [Heq|Hne]
  end.
  - now destruct s.
  - split.
    + apply Ascii.eqb_neq. intros ->. now apply Hne.
    + now destruct (String.index 0 "/" s).
Qed.

Lemma split_no_slash (s : string) : includes "/" s = false → split slash s = [s].
Proof.
  induction s as [|c s IH]; intros Hs; [reflexivity|].
  apply includes_slash_cons in Hs as [Hc Hs].
  cbn [split]. rewrite Hc, (IH Hs). reflexivity.
Qed.

Lemma split_after_slash (before t : string) :
  includes "/" t = false →
  ∃ head middle, split slash (before +:+ String slash t) = head :: middle ++ [t].
Proof.
  intros Ht. induction before as [|c before (head & middle & IH)].
  - exists "", []. change ("" +:+ String slash t) with (String slash t).
    cbn [split]. rewrite Ascii.eqb_refl, (split_no_slash t Ht). reflexivity.
  - change (String c before +:+ String slash t) with (String c (before +:+ String slash t)).
    cbn [split]. rewrite IH. destruct (Ascii.eqb c slash).
    + exists "", (head :: middle). reflexivity.
    + exists (String c head), middle. reflexivity.
Qed.

Lemma last_split_after_slash (before t : string) :
  includes "/" t = false → last (split slash (before +:+ String slash t)) = Some t.
Proof.
  intros Ht. destruct (split_after_slash before t Ht) as (head & middle & ->).
  rewrite app_comm_cons. apply last_snoc.
Qed.

End MimeFacts.

(** [handleDocumentSelect] takes the type of a document from its MIME type:
    it is what follows the last slash, the whole MIME type when there is no
    slash, and [unknown] when that is empty, so it is never empty.  A
    document that [loadDocumentContext] lists from the context has the MIME
    type [application/] followed by the type of its entry: when that type
    has no slash, the type taken from the listed document is the type of
    the entry, or [unknown] for an entry without a type. *)
Theorem document_type_is_what_follows_the_last_slash :
  (∀ document, truthy (useDocumentContext.documentTypeOf document) = true)
  ∧ (∀ document before type,
       useDocumentContext.mimeType document = before +:+ "/" +:+ type →
       includes "/" type = false →
       useDocumentContext.documentTypeOf document
       = (if truthy type then type else "unknown"))
  ∧ (∀ document,
       includes "/" (useDocumentContext.mimeType document) = false →
       useDocumentContext.documentTypeOf document
       = (if truthy (useDocumentContext.mimeType document)
          then useDocumentContext.mimeType document else "unknown"))
  ∧ (∀ doc : DocumentContextEntry,
       includes "/" (documentType doc) = false →
       useDocumentContext.documentTypeOf (useDocumentContext.selectedDocument doc)
       = (if truthy (documentType doc) then documentType doc else "unknown")).
Proof.
  assert (∀ document before type,
            useDocumentContext.mimeType document = before +:+ "/" +:+ type →
            includes "/" type = false →
            useDocumentContext.documentTypeOf document
            = (if truthy type then type else "unknown")) as Hlast.
  { intros document before type Hmime Htype. unfold useDocumentContext.documentTypeOf.
    rewrite Hmime.
    change ("/" +:+ type) with (String useDocumentContext.slash type).
    now rewrite (last_split_after_slash before type Htype). }
  split; [|split; [exact Hlast|split]].
  - intros document. unfold useDocumentContext.documentTypeOf, or_else.
    destruct (last _) as [segment|]; [|reflexivity].
    destruct (truthy segment) eqn:Hsegment; [exact Hsegment | reflexivity].
  - intros document Hslash. unfold useDocumentContext.documentTypeOf.
    now rewrite (split_no_slash _ Hslash).
  - intros doc Hslash.
    apply (Hlast _ "application"); [|exact Hslash]. now destruct doc.
Qed.

(** A document of the drive, and the notes of the sample conversation as
    they are listed. *)
Lemma document_type_is_what_follows_the_last_slash_witness :
  useDocumentContext.documentTypeOf
    (useDocumentContext.mkSelected "g1" "Plan" "application/vnd.google-apps.document" "")
  = "vnd.google-apps.document"
  ∧ useDocumentContext.documentTypeOf
      (useDocumentContext.mkSelected "g2" "Draft" "text/" "") = "unknown"
  ∧ useDocumentContext.documentTypeOf (useDocumentContext.selectedDocument Sample.notes)
    = "plain".
Proof.
  destruct document_type_is_what_follows_the_last_slash as (_ & Hlast & _ & Hlisted).
  split; [|split].
  - apply (Hlast _ "application" "vnd.google-apps.document"); reflexivity.
  - apply (Hlast _ "text" ""); reflexivity.
  - apply (Hlisted Sample.notes). reflexivity.
Defined.

(** ** Folder navigation *)

(** In [useDocumentBrowser], a click on a folder makes that folder current
    and records the folder that was current with the name of the one
    entered, and returns no document; [handleBack] undoes it exactly.  A
    click on anything else returns the document and leaves the navigation
    as it was, as [handleBack] does at the root. *)
Theorem handleBack_undoes_a_folder_click
    (doc : useDocumentBrowser.DriveEntry) (s : useDocumentBrowser.Navigation) :
  (includes "folder" (useDocumentBrowser.mimeType doc) = true →
   useDocumentBrowser.handleDocumentClick doc s
   = (None,
      useDocumentBrowser.mkNavigation (useDocumentBrowser.id doc)
        (useDocumentBrowser.folderHistory s
         ++ [(useDocumentBrowser.currentFolder s, useDocumentBrowser.name doc)]))
   ∧ useDocumentBrowser.handleBack (snd (useDocumentBrowser.handleDocumentClick doc s)) = s)
  ∧ (includes "folder" (useDocumentBrowser.mimeType doc) = false →
     useDocumentBrowser.handleDocumentClick doc s = (Some doc, s))
  ∧ (useDocumentBrowser.folderHistory s = [] → useDocumentBrowser.handleBack s = s).
Proof.
  split; [|split].
  - intros Hfolder. unfold useDocumentBrowser.handleDocumentClick. rewrite Hfolder.
    split; [reflexivity|]. cbn [snd]. unfold useDocumentBrowser.handleBack.
    cbn [useDocumentBrowser.folderHistory]. rewrite length_app. cbn [length].
    replace (Nat.ltb 0 (length (useDocumentBrowser.folderHistory s) + 1)) with true
      by (symmetry; apply Nat.ltb_lt; lia).
    rewrite removelast_last, last_snoc. cbn [fmap option_fmap option_map fst or_else].
    destruct s as [current history]. cbn [useDocumentBrowser.currentFolder
                                         useDocumentBrowser.folderHistory].
    now destruct current.
  - intros Hfile. unfold useDocumentBrowser.handleDocumentClick. now rewrite Hfile.
  - intros Hroot. unfold useDocumentBrowser.handleBack. now rewrite Hroot.
Qed.

(** From the root into a folder and back. *)
Lemma handleBack_undoes_a_folder_click_witness :
  let root := useDocumentBrowser.mkNavigation "" [] in
  let reports :=
    useDocumentBrowser.mkEntry "f1" "Reports" "application/vnd.google-apps.folder" in
  useDocumentBrowser.handleBack
    (snd (useDocumentBrowser.handleDocumentClick reports root)) = root.
Proof.
  intros root reports.
  destruct (handleBack_undoes_a_folder_click reports root) as [Hfolder _].
  destruct Hfolder as [_ Hback]; [reflexivity | exact Hback].
Defined.

(** [navigateToFolder] keeps the history within its bounds: a negative
    index leads to the root, as [navigateToRoot] does; an index past the
    end changes nothing; an index within the history cuts the history
    after the entry at the index and makes current the folder recorded in
    that entry. *)
Theorem navigateToFolder_stays_in_the_history
    (index : Z) (s : useDocumentBrowser.Navigation) :
  let history := useDocumentBrowser.folderHistory s in
  let after := useDocumentBrowser.navigateToFolder index s in
  ((index < 0)%Z → after = useDocumentBrowser.navigateToRoot s)
  ∧ ((Z.of_nat (length history) ≤ index)%Z → after = s)
  ∧ (∀ folder, (0 ≤ index)%Z → history !! Z.to_nat index = Some folder →
       useDocumentBrowser.currentFolder after = fst folder
       ∧ useDocumentBrowser.folderHistory after = take (Z.to_nat index + 1) history
       ∧ length (useDocumentBrowser.folderHistory after) = Z.to_nat index + 1).
Proof.
  intros history after. subst after. unfold useDocumentBrowser.navigateToFolder.
  split; [|split].
  - intros Hneg. now rewrite (proj2 (Z.ltb_lt _ _) Hneg).
  - intros Hpast. rewrite (proj2 (Z.ltb_ge _ _)) by lia.
    fold history. now rewrite (proj2 (Z.ltb_ge _ _) Hpast).
  - intros folder Hpos Hfolder. rewrite (proj2 (Z.ltb_ge _ _) Hpos). fold history.
    pose proof (lookup_lt_Some _ _ _ Hfolder) as Hlt.
    rewrite (proj2 (Z.ltb_lt _ _)) by lia.
    rewrite lookup_take_lt by lia. rewrite Hfolder.
    cbn [useDocumentBrowser.currentFolder useDocumentBrowser.folderHistory].
    split; [reflexivity|]. split; [reflexivity|]. rewrite length_take. lia.
Qed.

(** Two folders deep, the first entry of the history. *)
Lemma navigateToFolder_stays_in_the_history_witness :
  let s := useDocumentBrowser.mkNavigation "f2" [("", "Reports"); ("f1", "2024")] in
  useDocumentBrowser.navigateToFolder 0 s
  = useDocumentBrowser.mkNavigation "" [("", "Reports")].
Proof.
  intros s.
  destruct (navigateToFolder_stays_in_the_history 0 s) as (_ & _ & Hwithin).
  destruct (Hwithin ("", "Reports")) as (Hcurrent & Hhistory & _); [lia | reflexivity|].
  destruct (useDocumentBrowser.navigateToFolder 0 s) as [current history].
  cbn in Hcurrent, Hhistory. now rewrite Hcurrent, Hhistory.
Defined.

(** ** The content of a fetched document *)

(** [fetchDocumentContent] of [MCPClient] never hands an empty content to
    its caller: it asks the drive service for the document whose id and
    name are the given id, returns the content when it is not empty, throws
    [Document content is empty] when the drive service gives nothing or the
    empty string, and throws what the drive service throws.
    [connectToDrive] returns whatever the drive service does, and [true]
    exactly when the drive service returned [true]. *)
Theorem fetchDocumentContent_returns_content
    {CS : Type}
    (connect : string → string → M (Page (MCPClient.MCPClient CS)) bool)
    (fetch : MCPClient.DocumentMetadata → M (Page (MCPClient.MCPClient CS)) (option string))
    (documentId clientId apiKey : string) (p : Page (MCPClient.MCPClient CS)) :
  let log (q : Page (MCPClient.MCPClient CS)) (lines : list line) :=
    mkPage (self q) (window q) (now q) (page_console q ++ lines) (toasts q) in
  let asked := fetch (MCPClient.mkMetadata documentId documentId "")
                 (log p [(LOG, "Fetching content for document " +:+ documentId)]) in
  let failed := (ERROR, "Error fetching document content for " +:+ documentId +:+ ":") in
  (∀ content p',
     MCPClient.fetchDocumentContent fetch documentId p = (Ok content, p') →
     truthy content = true ∧ fst asked = Ok (Some content))
  ∧ (∀ content, fst asked = Ok (Some content) → truthy content = true →
       MCPClient.fetchDocumentContent fetch documentId p
       = (Ok content,
          log (snd asked)
            [(LOG, "Successfully fetched content for document " +:+ documentId
                   +:+ ", length: " +:+ pretty (String.length content))]))
  ∧ (fst asked = Ok None ∨ fst asked = Ok (Some "") →
     MCPClient.fetchDocumentContent fetch documentId p
     = (Throw (Error "Document content is empty"),
        log (snd asked)
          [(ERROR, "Failed to fetch content for document " +:+ documentId
                   +:+ ": Content is empty"); failed]))
  ∧ (∀ e, fst asked = Throw e →
       MCPClient.fetchDocumentContent fetch documentId p = (Throw e, log (snd asked) [failed]))
  ∧ ∃ connected p',
      MCPClient.connectToDrive connect clientId apiKey p = (Ok connected, p')
      ∧ (connected = true
         ↔ fst (connect clientId apiKey
                  (log p [(LOG, "Connecting to Google Drive with client ID and API key")]))
           = Ok true).
Proof.
  intros log asked failed.
  assert (MCPClient.fetchDocumentContent fetch documentId p
          = match asked with
            | (Ok content, q) =>
                if negb (truthy_opt content) || Nat.eqb (String.length (default "" content)) 0
                then (Throw (Error "Document content is empty"),
                      log q [(ERROR, "Failed to fetch content for document " +:+ documentId
                                     +:+ ": Content is empty"); failed])
                else (Ok (default "" content),
                      log q [(LOG, "Successfully fetched content for document "
                                   +:+ documentId +:+ ", length: "
                                   +:+ pretty (String.length (default "" content)))])
            | (Throw e, q) => (Throw e, log q [failed])
            end) as Hrun.
  { unfold MCPClient.fetchDocumentContent, try_catch.
    unfold bind at 1. rewrite page_log_run. cbv zeta. unfold bind at 1.
    change (fetch (MCPClient.mkMetadata documentId documentId "")
              (mkPage (self p) (window p) (now p)
                 (page_console p ++ [(LOG, "Fetching content for document " +:+ documentId)])
                 (toasts p))) with asked.
    destruct asked as [[content|e] q].
    - destruct (negb (truthy_opt content) || Nat.eqb (String.length (default "" content)) 0).
      + unfold bind at 1. rewrite page_log_run. unfold throw at 1.
        unfold bind. rewrite page_log_run. unfold throw. subst log.
        cbn [self window now page_console toasts]. now rewrite <- app_assoc.
      + unfold bind, ret. rewrite page_log_run. reflexivity.
    - unfold bind, throw. rewrite page_log_run. reflexivity. }
  split; [|split; [|split; [|split]]].
  - intros content p'. rewrite Hrun. destruct asked as [[[c|]|e] q]; cbn [fst snd].
    + destruct (truthy c) eqn:Hc; cbn [truthy_opt negb orb default id].
      * rewrite Hc, (truthy_length_eqb c Hc). cbn [negb orb]. now intros [= <- _].
      * rewrite Hc. discriminate.
    + discriminate.
    + discriminate.
  - intros content Hasked Htruthy. rewrite Hrun.
    destruct asked as [r q]. cbn [fst snd] in *. subst r.
    cbn [truthy_opt default id]. now rewrite Htruthy, (truthy_length_eqb _ Htruthy).
  - intros Hempty. rewrite Hrun.
    destruct asked as [r q]. cbn [fst snd] in *. now destruct Hempty as [->| ->].
  - intros e Hthrow. rewrite Hrun.
    destruct asked as [r q]. cbn [fst snd] in *. now subst r.
  - unfold MCPClient.connectToDrive, try_catch.
    unfold bind at 1. rewrite page_log_run. unfold bind at 1.
    change (mkPage (self p) (window p) (now p)
              (page_console p
               ++ [(LOG, "Connecting to Google Drive with client ID and API key")])
              (toasts p))
      with (log p [(LOG, "Connecting to Google Drive with client ID and API key")]).
    destruct (connect clientId apiKey _) as [[[|]|e] q]; cbn [fst].
    + unfold bind, ret. rewrite page_log_run. eexists _, _. split; [reflexivity|]. tauto.
    + unfold bind, ret. rewrite page_log_run. eexists _, _. split; [reflexivity|].
      split; discriminate.
    + unfold bind, ret. rewrite page_log_run. eexists _, _. split; [reflexivity|].
      split; discriminate.
Qed.

(** A drive that gives the empty string. *)
Lemma fetchDocumentContent_returns_content_witness :
  let p : Page (MCPClient.MCPClient (list ServiceCall)) :=
    mkPage (MCPClient.new (service := recorder) (mkClientOptions None None None))
           None 0 [] [] in
  fst (MCPClient.fetchDocumentContent (λ _, ret (Some "")) "d1" p)
  = Throw (Error "Document content is empty").
Proof.
  intros p.
  destruct (fetchDocumentContent_returns_content (λ _ _, ret true) (λ _, ret (Some ""))
              "d1" "" "" p) as (_ & _ & Hempty & _).
  rewrite Hempty; [reflexivity | now right].
Defined.

(** [fetchDocument] of [useMCP] and of [useDocumentFetching] returns to its
    caller whatever happens.  Without a client or a drive connection it
    shows a toast and returns [null], and the state is as it was.
    Otherwise it ends with [isLoading] off, and returns the content the
    client gave, or [null] with an error toast when the client threw; with
    [fetchDocumentContent] of [MCPClient] for the client's method, a content
    it returns is never empty. *)
Theorem fetchDocument_returns_content_or_null
    {C : Type} (fetchDocumentContent : string → M (Page C) string)
    (message : exn → string) (documentId : string) (p : Page (useMCP.Hook C)) :
  let called := useMCP.fetchDocument fetchDocumentContent message documentId p in
  (∃ result, fst called = Ok result)
  ∧ (useMCP.client (self p) = None ∨ useMCP.driveConnected (self p) = false →
     called = (Ok None,
               mkPage (self p) (window p) (now p) (page_console p)
                      (toasts p ++ [("Not connected to Google Drive", "")])))
  ∧ (∀ c, useMCP.client (self p) = Some c → useMCP.driveConnected (self p) = true →
       let asked :=
         fetchDocumentContent documentId
           (mkPage c (window p) (now p) (page_console p) (toasts p)) in
       useMCP.isLoading (self (snd called)) = false
       ∧ useMCP.client (self (snd called)) = Some (self (snd asked))
       ∧ match fst asked with
         | Ok content => fst called = Ok (Some content) ∧ toasts (snd called) = toasts (snd asked)
         | Throw e =>
             fst called = Ok None
             ∧ toasts (snd called)
               = toasts (snd asked) ++ [("Failed to fetch document", message e)]
         end).
Proof.
  intros called.
  assert (called
          = match useMCP.client (self p) with
            | Some c =>
                if useMCP.driveConnected (self p) then
                  match fetchDocumentContent documentId
                          (mkPage c (window p) (now p) (page_console p) (toasts p)) with
                  | (Ok content, q) =>
                      (Ok (Some content),
                       mkPage (useMCP.mkHook (Some (self q)) true false)
                              (window q) (now q) (page_console q) (toasts q))
                  | (Throw e, q) =>
                      (Ok None,
                       mkPage (useMCP.mkHook (Some (self q)) true false)
                              (window q) (now q)
                              (page_console q
                               ++ [(ERROR, "Error fetching document " +:+ documentId +:+ ":")])
                              (toasts q ++ [("Failed to fetch document", message e)]))
                  end
                else
                  (Ok None,
                   mkPage (self p) (window p) (now p) (page_console p)
                          (toasts p ++ [("Not connected to Google Drive", "")]))
            | None =>
                (Ok None,
                 mkPage (self p) (window p) (now p) (page_console p)
                        (toasts p ++ [("Not connected to Google Drive", "")]))
            end) as Hrun.
  { subst called. unfold useMCP.fetchDocument. unfold bind at 1. unfold get_world.
    destruct (useMCP.client (self p)) as [c|]; [|reflexivity].
    destruct (useMCP.driveConnected (self p)) eqn:Hdrive; cbn [negb]; [|reflexivity].
    unfold bind, try_finally, try_catch, useMCP.on_client, useMCP.setIsLoading, modify, ret,
      toast_error, page_log.
    cbn [self window now page_console toasts useMCP.client useMCP.driveConnected
         useMCP.isLoading].
    rewrite Hdrive.
    now destruct (fetchDocumentContent documentId _) as [[content|e] q]. }
  rewrite Hrun. clear Hrun called.
  destruct (useMCP.client (self p)) as [c|] eqn:Hclient.
  2:{ cbn [fst]. split; [eauto|]. split; [reflexivity | discriminate]. }
  destruct (useMCP.driveConnected (self p)) eqn:Hdrive.
  2:{ cbn [fst]. split; [eauto|]. split; [reflexivity | discriminate]. }
  split; [|split].
  - destruct (fetchDocumentContent documentId _) as [[content|e] q]; cbn [fst]; eauto.
  - intros [H|H]; discriminate.
  - intros c' [= <-] _ asked. subst asked.
    now destruct (fetchDocumentContent documentId _) as [[content|e] q].
Qed.

(** A hook that holds a client and is connected, on a drive that gives the
    empty string: the result is [null], with the toast, and [isLoading] is
    off. *)
Lemma fetchDocument_returns_content_or_null_witness :
  let client := MCPClient.new (service := recorder) (mkClientOptions None None None) in
  let p := mkPage (useMCP.mkHook (Some client) true false) None 0 [] [] in
  let called :=
    useMCP.fetchDocument (MCPClient.fetchDocumentContent (λ _, ret (Some "")))
      (λ error, match error with Error message => message | _ => "Unknown error occurred" end)
      "d1" p in
  fst called = Ok None
  ∧ useMCP.isLoading (self (snd called)) = false
  ∧ toasts (snd called) = [("Failed to fetch document", "Document content is empty")].
Proof.
  intros client p called.
  destruct (fetchDocument_returns_content_or_null
              (MCPClient.fetchDocumentContent (λ _, ret (Some "")))
              (λ error, match error with
                        | Error message => message
                        | _ => "Unknown error occurred"
                        end)
              "d1" p) as (_ & _ & Hconnected).
  destruct (Hconnected client eq_refl eq_refl) as (Hloading & _ & Hresult).
  cbn in Hresult. destruct Hresult as [Hnull Htoasts].
  split; [exact Hnull|]. split; [exact Hloading | exact Htoasts].
Defined.
